(** * ideate-chatgpt-app: the generic domain-model layer

    A shallow embedding of the TypeScript sources

      - [ideate-app/mcp/src/config-loader.ts]   ([Module ConfigLoader])
      - [ideate-app/mcp/src/generic-tools.ts]   ([Module GenericTools])
      - [ideate-app/web/src/generic-types.ts]   ([Module GenericTypes])
      - the list and detail widgets             ([Module GenericList],
                                                 [Module GenericDetail])

    together with the small part of the JavaScript runtime, of the Zod
    validation library and of the MCP server these files lean on
    ([Module Js], [Module Zod], [registerTool] in [Module GenericTools]).

    Conventions.  A value that crossed a JSON boundary (a parsed descriptor, a
    backend response, a tool argument) is a [JSON] term; [undefined] is the
    [None] of an [option JSON].  TypeScript interfaces are records whose
    optional members are [option]s.  A function that can throw returns an
    [Outcome].  Engine built-ins whose text is not part of the repository
    ([JSON.parse], [path.resolve], [String.prototype.localeCompare],
    [Array.prototype.sort], ...) are section variables.

    The embedding comes first; [Samples] and [Vocabulary] hold the data and
    the words the statements use; the properties follow, one module per
    subject. *)

From Stdlib Require Import QArith.
From stdpp Require Import gmap strings list fin_maps pretty.


(* ===================================================================== *)
(** * The JavaScript runtime, as far as the sources use it                *)
(* ===================================================================== *)

Module Js.

(** Values that can come out of [JSON.parse].  Numbers are the finite
    doubles, read as the rationals they denote. *)
#[warnings="-register-all"]
Inductive JSON : Type :=
| JNull
| JBool (b : bool)
| JNum (x : Q)
| JStr (s : string)
| JArr (items : list JSON)
| JObj (props : list (string * JSON)).

(** A thrown [Error]; only its message is observable here. *)
Record JsError : Type := mkError { message : string }.

Inductive Outcome (A : Type) : Type :=
| Throw (e : JsError)
| Return (a : A).
Arguments Throw {A} e.
Arguments Return {A} a.

Definition bind {A B} (m : Outcome A) (k : A -> Outcome B) : Outcome B :=
  match m with
  | Throw e => Throw e
  | Return a => k a
  end.

(** Own-property lookup in an object literal. *)
Fixpoint lookupProp (props : list (string * JSON)) (k : string) : option JSON :=
  match props with
  | [] => None
  | (k', v) :: rest => if String.eqb k' k then Some v else lookupProp rest k
  end.

(** The length of a string is counted in UTF-16 code units.  The text is
    held as its UTF-8 bytes: a continuation byte adds nothing, the lead byte
    of a four-byte sequence two units, every other byte one. *)
Definition utf16Units (c : Ascii.ascii) : nat :=
  let n := Ascii.nat_of_ascii c in
  if (n <? 128)%nat then 1%nat
  else if (n <? 192)%nat then 0%nat
  else if (n <? 240)%nat then 1%nat
  else 2%nat.

Fixpoint utf16Length (s : string) : nat :=
  match s with
  | EmptyString => 0%nat
  | String c rest => (utf16Units c + utf16Length rest)%nat
  end.

(** [v.k] for a parsed value [v] and a key [k] that [Object.prototype],
    [Array.prototype] and the wrappers do not define (the sources read
    [domain], [label], [labelPlural], [fields], [length], [id] and the flags
    of a field this way): reading a property of [null] throws a [TypeError];
    arrays and strings answer [length]; every other miss is [undefined]. *)
Definition getProp (v : JSON) (k : string) : Outcome (option JSON) :=
  match v with
  | JNull => Throw (mkError ("Cannot read properties of null (reading '" +:+ k +:+ "')"))
  | JObj props => Return (lookupProp props k)
  | JArr items =>
      Return (if String.eqb k "length"
              then Some (JNum (inject_Z (Z.of_nat (length items)))) else None)
  | JStr s =>
      Return (if String.eqb k "length"
              then Some (JNum (inject_Z (Z.of_nat (utf16Length s)))) else None)
  | JBool _ | JNum _ => Return None
  end.

(** ** Conversion to a string

    [String(v)] and the interpolation [`${v}`] convert a parsed value by
    ToPrimitive.  An array is joined: its elements are converted in turn,
    [null] to the empty text.  An object is converted by its [toString]
    member: the inherited one answers [[object Object]], but an own member
    of that name is no function (nothing parsed is), and the [valueOf] left
    to try, own or inherited, gives no primitive either, so the conversion
    throws a [TypeError]. *)
Fixpoint convertible (v : JSON) : bool :=
  match v with
  | JObj props =>
      match lookupProp props "toString" with
      | Some _ => false
      | None => true
      end
  | JArr items => forallb convertible items
  | JNull | JBool _ | JNum _ | JStr _ => true
  end.

Definition notConvertible : JsError :=
  mkError "Cannot convert object to primitive value".

(** [String(v)], with [text] the text of a value whose conversion
    completes. *)
Definition ToString (text : JSON -> string) (v : JSON) : Outcome string :=
  if convertible v then Return (text v) else Throw notConvertible.

(** An interpolation whose text is not looked at afterwards (a log line):
    [undefined] interpolates as the word. *)
Definition interpolates (v : option JSON) : Outcome unit :=
  match v with
  | Some v => if convertible v then Return tt else Throw notConvertible
  | None => Return tt
  end.

(** ToBoolean. *)
Definition truthy (v : option JSON) : bool :=
  match v with
  | None | Some JNull => false
  | Some (JBool b) => b
  | Some (JNum x) => negb (Qeq_bool x 0)
  | Some (JStr s) => negb (String.eqb s "")
  | Some (JArr _) | Some (JObj _) => true
  end.

(** ToBoolean of an optional boolean member ([flag?: boolean]). *)
Definition truthyFlag (b : option bool) : bool :=
  match b with
  | Some true => true
  | _ => false
  end.

(** [a || b] on optional strings: the first operand unless it is
    [undefined] or empty. *)
Definition orString (a : option string) (b : option string) : option string :=
  match a with
  | Some s => if String.eqb s "" then b else Some s
  | None => b
  end.

End Js.
Export Js.

(* ===================================================================== *)
(** * Zod schemas                                                          *)
(* ===================================================================== *)

Module Zod.

(** A refinement recorded by [z.number().min(v)] / [.max(v)]; both are
    inclusive. *)
Inductive NumCheck : Type :=
| CheckMin (value : Q)
| CheckMax (value : Q).

Inductive ZodSchema : Type :=
| ZString
| ZNumber (checks : list NumCheck)
| ZBoolean
| ZAny
| ZOptional (inner : ZodSchema)
| ZDescribed (inner : ZodSchema) (description : string).

Definition z_string : ZodSchema := ZString.
Definition z_number : ZodSchema := ZNumber [].
Definition z_boolean : ZodSchema := ZBoolean.
Definition z_any : ZodSchema := ZAny.

(** [schema.min(v)], [schema.max(v)]: meaningful on number schemas. *)
Definition z_min (schema : ZodSchema) (v : Q) : ZodSchema :=
  match schema with
  | ZNumber checks => ZNumber (checks ++ [CheckMin v])
  | other => other
  end.

Definition z_max (schema : ZodSchema) (v : Q) : ZodSchema :=
  match schema with
  | ZNumber checks => ZNumber (checks ++ [CheckMax v])
  | other => other
  end.

Definition z_optional (schema : ZodSchema) : ZodSchema := ZOptional schema.
Definition z_describe (schema : ZodSchema) (d : string) : ZodSchema := ZDescribed schema d.

Definition checkHolds (x : Q) (c : NumCheck) : bool :=
  match c with
  | CheckMin lo => Qle_bool lo x
  | CheckMax hi => Qle_bool x hi
  end.

(** [schema.safeParse(v).success]; [None] is [undefined], that is, an
    absent key of the parsed object. *)
Fixpoint accepts (schema : ZodSchema) (v : option JSON) : bool :=
  match schema with
  | ZString => match v with Some (JStr _) => true | _ => false end
  | ZNumber checks =>
      match v with Some (JNum x) => forallb (checkHolds x) checks | _ => false end
  | ZBoolean => match v with Some (JBool _) => true | _ => false end
  | ZAny => true
  | ZOptional inner => match v with None => true | Some _ => accepts inner v end
  | ZDescribed inner _ => accepts inner v
  end.

(** A key is mandatory in a contract when the contract rejects its absence
    (Zod's [isOptional()] is the negation). *)
Definition mandatory (schema : ZodSchema) : bool := negb (accepts schema None).

End Zod.
Export Zod.

(* ===================================================================== *)
(** * Configuration types (config-loader.ts, generic-types.ts)            *)
(* ===================================================================== *)

(** [interface FieldConfig].  The [type] member is kept as the string found
    in the descriptor: the loader casts the parsed document without looking
    at it, so any token can reach the consumers. *)
Record FieldConfig : Type := mkField {
  key : string;
  label : string;
  type : string;
  required : option bool;
  hidden : option bool;
  showInList : option bool;
  showInDetail : option bool;
  placeholder : option string;
  helpText : option string;
  min : option Q;
  max : option Q;
  default : option JSON;
}.

Record BrandingConfig : Type := mkBranding {
  primaryColor : option string;
  secondaryColor : option string;
  logo : option string;
}.

Record FeaturesConfig : Type := mkFeatures {
  create : option bool;
  update : option bool;
  delete : option bool;
  archive : option bool;
  search : option bool;
}.

Record DomainConfig : Type := mkDomain {
  domain : string;
  labelSingular : string;     (* [label] *)
  labelPlural : string;
  icon : option string;
  description : option string;
  branding : option BrandingConfig;
  features : option FeaturesConfig;
  fields : list FieldConfig;
}.

(** The six tokens of the [type] union. *)
Definition fieldTypes : list string :=
  ["string"; "text"; "number"; "boolean"; "date"; "datetime"].

Definition validType (t : string) : bool :=
  existsb (String.eqb t) fieldTypes.

(* ===================================================================== *)
(** * generic-tools.ts                                                     *)
(* ===================================================================== *)

Module GenericTools.

(** ** HTTP, as seen through [fetch] *)

Record RequestInit : Type := mkInit {
  method : option string;
  headers : option (list (string * string));
  body : option string;
}.

Definition noOptions : RequestInit :=
  {| method := None; headers := None; body := None |}.

Record Request : Type := mkRequest {
  url : string;
  init : RequestInit;
}.

(** A response: [json_body = None] is a body that is not JSON, on which
    [response.json()] rejects. *)
Record Response : Type := mkResponse {
  status : N;
  statusText : string;
  json_body : option JSON;
}.

Definition ok (r : Response) : bool :=
  (200 <=? status r)%N && (status r <=? 299)%N.

Definition response_json (r : Response) : Outcome JSON :=
  match json_body r with
  | Some v => Return v
  | None => Throw (mkError "Unexpected end of JSON input")
  end.

(** ** What a tool is made of *)

Inductive OutputSchema : Type :=
| OutList (entity : gmap string ZodSchema)
    (* { items: z.array(z.object(entity)), count: z.number() } *)
| OutItem (entity : gmap string ZodSchema)
    (* { item: z.object(entity) } *)
| OutSuccess.
    (* { success: z.boolean(), message: z.string() } *)

Inductive StructuredContent : Type :=
| SCList (items : JSON) (count : option JSON)
| SCItem (item : JSON)
| SCSuccess (success : bool) (message : string).

Inductive MetaValue : Type :=
| MConfig (config : DomainConfig)
| MFilters (includeArchived archivedOnly : bool)
| MStr (s : string)
| MAny (v : option JSON).

Record ToolResult : Type := mkResult {
  text : string;                         (* content[0].text *)
  structuredContent : StructuredContent;
  result_meta : list (string * MetaValue);
}.

Inductive Handler : Type :=
| ListHandler (run : option bool -> option bool -> Outcome ToolResult)
| IdHandler (run : string -> Outcome ToolResult)
| CreateHandler (run : JSON -> Outcome ToolResult)
| UpdateHandler (run : string -> JSON -> Outcome ToolResult).

Record ToolMeta : Type := mkToolMeta {
  widgetAccessible : bool;
  resultCanProduceWidget : bool;
  outputTemplate : string;
  invoking : string;
  invoked : string;
}.

Record Tool : Type := mkTool {
  name : string;
  title : string;
  tool_description : string;
  inputSchema : gmap string ZodSchema;
  outputSchema : OutputSchema;
  tool_meta : option ToolMeta;
  handler : Handler;
}.

(** ** The server

    [server.registerTool(name, ...)] adds a tool and throws when the server
    has a tool of that name.  A registration is a step on the server's tools
    that can throw; what was registered before the throw stays. *)
Definition Registration : Type := list Tool -> list Tool * Outcome unit.

Definition registerTool (t : Tool) : Registration :=
  fun server =>
    if existsb (fun u => String.eqb (name u) (name t)) server
    then (server, Throw (mkError ("Tool " +:+ name t +:+ " is already registered")))
    else (server ++ [t], Return tt).

(** One statement after the other, and a statement under an [if]. *)
Definition andThen (first next : Registration) : Registration :=
  fun server =>
    match first server with
    | (server, Return _) => next server
    | (server, Throw e) => (server, Throw e)
    end.

Definition when (b : bool) (r : Registration) : Registration :=
  if b then r else fun server => (server, Return tt).

Fixpoint inOrder (statements : list Registration) : Registration :=
  match statements with
  | [] => fun server => (server, Return tt)
  | r :: rest => andThen r (inOrder rest)
  end.

(** ** Convert field config to Zod schema *)

Definition fieldToZodSchema (field : FieldConfig) : ZodSchema :=
  let schema :=
    if String.eqb (type field) "string" || String.eqb (type field) "text" then
      z_string
    else if String.eqb (type field) "number" then
      let schema := z_number in
      let schema := match min field with Some lo => z_min schema lo | None => schema end in
      let schema := match max field with Some hi => z_max schema hi | None => schema end in
      schema
    else if String.eqb (type field) "boolean" then
      z_boolean
    else if String.eqb (type field) "date" || String.eqb (type field) "datetime" then
      z_string
    else
      z_any in
  (* Make optional if not required *)
  let schema := if negb (truthyFlag (required field)) then z_optional schema else schema in
  (* Add description *)
  let description :=
    match orString (helpText field) (Some (label field)) with
    | Some d => d
    | None => ""
    end in
  z_describe schema description.

Definition systemFields : list string :=
  ["id"; "created_date"; "updated_date"; "archived"].

Definition includes (l : list string) (k : string) : bool :=
  existsb (String.eqb k) l.

(** The two shapes built by the [forEach] over [config.fields]. *)
Record Shapes : Type := mkShapes {
  entitySchema : gmap string ZodSchema;
  createSchema : gmap string ZodSchema;
}.

Definition initialShapes : Shapes :=
  {| entitySchema :=
       <["updated_date" := z_string]>
         (<["created_date" := z_string]>
            (<["archived" := z_boolean]>
               (<["id" := z_string]> ∅)));
     createSchema := ∅ |}.

(** [obj[k] = v] on an object made by a literal.  [__proto__] is the
    accessor that [Object.prototype] defines, not a key: assigning an object
    to it replaces the prototype of [obj] and creates no property, and the
    shapes are read by their own keys only ([Object.entries], [z.object]).
    The keys assigned after that are taken to become properties as on any
    object literal; a key that the new prototype, a schema object of Zod,
    defines by an accessor of its own would not. *)
Definition assign {A} (obj : gmap string A) (k : string) (v : A) : gmap string A :=
  if String.eqb k "__proto__" then obj else <[k := v]> obj.

Definition addField (acc : Shapes) (field : FieldConfig) : Shapes :=
  if negb (includes systemFields (key field)) then
    {| entitySchema := assign (entitySchema acc) (key field) (fieldToZodSchema field);
       createSchema := assign (createSchema acc) (key field) (fieldToZodSchema field) |}
  else acc.

Definition buildShapes (config : DomainConfig) : Shapes :=
  foldl addField initialShapes (fields config).

(** [{ id: ..., ...Object.fromEntries(Object.entries(createSchema).map(
    ([k, v]) => [k, v.optional()])) }]: the spread entries come last and
    win over [id]. *)
Definition updateInputSchema (labelLower : string) (createSchema : gmap string ZodSchema)
  : gmap string ZodSchema :=
  (z_optional <$> createSchema)
    ∪ {[ "id" := z_describe z_string ("The ID of the " +:+ labelLower +:+ " to update") ]}.

Definition idInputSchema (labelLower verb : string) : gmap string ZodSchema :=
  {[ "id" := z_describe z_string ("The ID of the " +:+ labelLower +:+ " to " +:+ verb) ]}.

Section Runtime.

(** [process.env.IDEATE_API_URL]. *)
Variable IDEATE_API_URL : option string.
(** The network: [fetch] either rejects or resolves to a response. *)
Variable fetch : Request -> Outcome Response.
(** [JSON.stringify], the text [String(v)] gives for a value it can convert
    (template interpolation), [String.prototype.toLowerCase] and
    [new Date().toISOString()]. *)
Variable JSON_stringify : JSON -> string.
Variable JS_String : JSON -> string.
Variable toLowerCase : string -> string.
Variable nowISO : string.

Definition IDEATE_API_BASE : string :=
  match orString IDEATE_API_URL (Some "http://localhost:5055") with
  | Some base => base
  | None => ""
  end.

(** Helper to make API requests. *)
Definition makeApiRequest (endpoint : string) (options : RequestInit) : Outcome JSON :=
  let url := IDEATE_API_BASE +:+ endpoint in
  bind (fetch {| url := url;
                 init := {| headers :=
                              match headers options with
                              | Some hs => Some hs      (* [...options] comes last *)
                              | None => Some [("Content-Type", "application/json")]
                              end;
                            method := method options;
                            body := body options |} |})
    (fun response =>
       if negb (ok response) then
         Throw (mkError ("API request failed: " +:+ pretty (status response)
                           +:+ " " +:+ statusText response))
       else response_json response).

(** [`${v}`] for a possibly undefined value: the conversion of an object
    can throw. *)
Definition interpolate (v : option JSON) : Outcome string :=
  match v with
  | Some v => ToString JS_String v
  | None => Return "undefined"
  end.

Section Handlers.

Variable config : DomainConfig.

Definition labelLower : string := toLowerCase (labelSingular config).
Definition pluralLower : string := toLowerCase (labelPlural config).

(** [URLSearchParams]: the two flags, in the order they were set. *)
Definition queryString (includeArchived archivedOnly : bool) : string :=
  match includeArchived, archivedOnly with
  | true, true => "includeArchived=true&archivedOnly=true"
  | true, false => "includeArchived=true"
  | false, true => "archivedOnly=true"
  | false, false => ""
  end.

Definition listHandler (includeArchived archivedOnly : option bool)
  : Outcome ToolResult :=
  (* parameter defaults: [= false] *)
  let includeArchived := match includeArchived with Some b => b | None => false end in
  let archivedOnly := match archivedOnly with Some b => b | None => false end in
  let qs := queryString includeArchived archivedOnly in
  let endpoint :=
    "/" +:+ domain config +:+ (if String.eqb qs "" then "" else "?" +:+ qs) in
  bind (makeApiRequest endpoint noOptions) (fun items =>
  bind (getProp items "length") (fun len =>
  bind (interpolate len) (fun found =>
  Return
    {| text := "Found " +:+ found +:+ " "
                 +:+ (if archivedOnly then "archived " else "") +:+ pluralLower;
       structuredContent := SCList items len;
       result_meta :=
         [("config", MConfig config);
          ("filters", MFilters includeArchived archivedOnly);
          ("lastSyncedAt", MStr nowISO)] |}))).

Definition getHandler (id : string) : Outcome ToolResult :=
  bind (makeApiRequest ("/" +:+ domain config +:+ "/" +:+ id) noOptions) (fun item =>
  Return
    {| text := "Loaded " +:+ labelLower +:+ ": " +:+ id;
       structuredContent := SCItem item;
       result_meta :=
         [("config", MConfig config);
          ("loadedAt", MStr nowISO);
          ("itemId", MStr id)] |}).

Definition createHandler (input : JSON) : Outcome ToolResult :=
  bind (makeApiRequest ("/" +:+ domain config)
          {| method := Some "POST"; headers := None;
             body := Some (JSON_stringify input) |}) (fun item =>
  bind (getProp item "id") (fun itemId =>
  Return
    {| text := "Created new " +:+ labelLower;
       structuredContent := SCItem item;
       result_meta :=
         [("config", MConfig config);
          ("operation", MStr "create");
          ("createdAt", MStr nowISO);
          ("itemId", MAny itemId)] |})).

Definition updateHandler (id : string) (updates : JSON) : Outcome ToolResult :=
  bind (makeApiRequest ("/" +:+ domain config +:+ "/" +:+ id)
          {| method := Some "PUT"; headers := None;
             body := Some (JSON_stringify updates) |}) (fun item =>
  bind (getProp item "id") (fun itemId =>
  Return
    {| text := "Updated " +:+ labelLower;
       structuredContent := SCItem item;
       result_meta :=
         [("config", MConfig config);
          ("operation", MStr "update");
          ("updatedAt", MStr nowISO);
          ("itemId", MAny itemId)] |})).

(** The delete, archive and restore handlers differ in the endpoint
    suffix, the HTTP method and the words of the message. *)
Definition successHandler (suffix httpMethod operation done stamp : string)
           (id : string) : Outcome ToolResult :=
  bind (makeApiRequest ("/" +:+ domain config +:+ "/" +:+ id +:+ suffix)
          {| method := Some httpMethod; headers := None; body := None |}) (fun _ =>
  let msg := labelSingular config +:+ " " +:+ id +:+ " has been " +:+ done in
  Return
    {| text := msg;
       structuredContent := SCSuccess true msg;
       result_meta :=
         [("operation", MStr operation);
          (stamp, MStr nowISO);
          ("itemId", MStr id)] |}).

Definition deleteHandler : string -> Outcome ToolResult :=
  successHandler "" "DELETE" "delete" "deleted" "deletedAt".
Definition archiveHandler : string -> Outcome ToolResult :=
  successHandler "/archive" "POST" "archive" "archived" "archivedAt".
Definition restoreHandler : string -> Outcome ToolResult :=
  successHandler "/restore" "POST" "restore" "restored" "restoredAt".

End Handlers.

Definition widgetMeta (template invoking invoked : string) : option ToolMeta :=
  Some {| widgetAccessible := true; resultCanProduceWidget := true;
          outputTemplate := template; invoking := invoking; invoked := invoked |}.

(** [config.features?.flag !== false] and [config.features?.flag]. *)
Definition notFalse (config : DomainConfig) (flag : FeaturesConfig -> option bool) : bool :=
  match features config with
  | Some fs => match flag fs with Some false => false | _ => true end
  | None => true
  end.

Definition isTruthy (config : DomainConfig) (flag : FeaturesConfig -> option bool) : bool :=
  match features config with
  | Some fs => truthyFlag (flag fs)
  | None => false
  end.

(** ** The tools, as [registerGenericTools] hands them to the server.
    [manifestVersion] is [manifest.version] as interpolated into the widget
    URIs. *)
Section Tools.

Variable config : DomainConfig.
Variable manifestVersion : string.

Definition listUri : string :=
  "ui://widget/v" +:+ manifestVersion +:+ "/generic-list.html".
Definition detailUri : string :=
  "ui://widget/v" +:+ manifestVersion +:+ "/generic-detail.html".

(* LIST TOOL *)
Definition listTool : Tool :=
  let domain := domain config in
  let plural := pluralLower config in
  let shapes := buildShapes config in
  {| name := "list_" +:+ domain;
     title := "List " +:+ labelPlural config;
     tool_description := "List all " +:+ plural +:+ " with optional filtering";
     inputSchema :=
       <["archivedOnly" :=
           z_describe (z_optional z_boolean) ("Return only archived " +:+ plural)]>
         (<["includeArchived" :=
              z_describe (z_optional z_boolean) ("Include archived " +:+ plural)]> ∅);
     outputSchema := OutList (entitySchema shapes);
     tool_meta := widgetMeta listUri ("Loading " +:+ plural +:+ "...")
                    (labelPlural config +:+ " loaded");
     handler := ListHandler (listHandler config) |}.

(* GET TOOL *)
Definition getTool : Tool :=
  let domain := domain config in
  let lower := labelLower config in
  let shapes := buildShapes config in
  {| name := "get_" +:+ domain;
     title := "Get " +:+ labelSingular config;
     tool_description := "Get a specific " +:+ lower +:+ " by ID";
     inputSchema := idInputSchema lower "retrieve";
     outputSchema := OutItem (entitySchema shapes);
     tool_meta := widgetMeta detailUri ("Loading " +:+ lower +:+ " details...")
                    (labelSingular config +:+ " details loaded");
     handler := IdHandler (getHandler config) |}.

(* CREATE TOOL *)
Definition createTool : Tool :=
  let domain := domain config in
  let lower := labelLower config in
  let shapes := buildShapes config in
  {| name := "create_" +:+ domain;
     title := "Create " +:+ labelSingular config;
     tool_description := "Create a new " +:+ lower;
     inputSchema := createSchema shapes;
     outputSchema := OutItem (entitySchema shapes);
     tool_meta := widgetMeta detailUri ("Creating " +:+ lower +:+ "...")
                    (labelSingular config +:+ " created");
     handler := CreateHandler (createHandler config) |}.

(* UPDATE TOOL *)
Definition updateTool : Tool :=
  let domain := domain config in
  let lower := labelLower config in
  let shapes := buildShapes config in
  {| name := "update_" +:+ domain;
     title := "Update " +:+ labelSingular config;
     tool_description := "Update an existing " +:+ lower;
     inputSchema := updateInputSchema lower (createSchema shapes);
     outputSchema := OutItem (entitySchema shapes);
     tool_meta := widgetMeta detailUri ("Updating " +:+ lower +:+ "...")
                    (labelSingular config +:+ " updated");
     handler := UpdateHandler (updateHandler config) |}.

(* DELETE TOOL *)
Definition deleteTool : Tool :=
  let domain := domain config in
  let lower := labelLower config in
  {| name := "delete_" +:+ domain;
     title := "Delete " +:+ labelSingular config;
     tool_description := "Delete a " +:+ lower +:+ " permanently";
     inputSchema := idInputSchema lower "delete";
     outputSchema := OutSuccess;
     tool_meta := None;
     handler := IdHandler (deleteHandler config) |}.

(* ARCHIVE/RESTORE TOOLS *)
Definition archiveTool : Tool :=
  let domain := domain config in
  let lower := labelLower config in
  {| name := "archive_" +:+ domain;
     title := "Archive " +:+ labelSingular config;
     tool_description := "Archive a " +:+ lower;
     inputSchema := idInputSchema lower "archive";
     outputSchema := OutSuccess;
     tool_meta := None;
     handler := IdHandler (archiveHandler config) |}.

Definition restoreTool : Tool :=
  let domain := domain config in
  let lower := labelLower config in
  {| name := "restore_" +:+ domain;
     title := "Restore " +:+ labelSingular config;
     tool_description := "Restore (unarchive) a " +:+ lower;
     inputSchema := idInputSchema lower "restore";
     outputSchema := OutSuccess;
     tool_meta := None;
     handler := IdHandler (restoreHandler config) |}.

(** Register generic tools for a domain model: [server] is the list of
    tools registered so far; the result is the list afterwards and whether
    a registration threw. *)
Definition registerGenericTools (server : list Tool) : list Tool * Outcome unit :=
  inOrder
    [ registerTool listTool;
      registerTool getTool;
      (* (if enabled) *)
      when (notFalse config create) (registerTool createTool);
      when (notFalse config update) (registerTool updateTool);
      when (notFalse config delete) (registerTool deleteTool);
      when (isTruthy config archive)
        (andThen (registerTool archiveTool) (registerTool restoreTool)) ]
    server.

End Tools.

End Runtime.

End GenericTools.

(* ===================================================================== *)
(** * Typed configurations as the JSON documents they were parsed from     *)
(* ===================================================================== *)

(** TypeScript types are erased: at run time a [DomainConfig] is the parsed
    document itself.  [Encode] gives the document of a typed value; an absent
    optional member is an absent key. *)
Module Encode.

Definition optProp {A} (k : string) (f : A -> JSON) (o : option A) : list (string * JSON) :=
  match o with
  | Some a => [(k, f a)]
  | None => []
  end.

Definition field (f : FieldConfig) : JSON :=
  JObj ([("key", JStr (key f)); ("label", JStr (label f)); ("type", JStr (type f))]
          ++ optProp "required" JBool (required f)
          ++ optProp "hidden" JBool (hidden f)
          ++ optProp "showInList" JBool (showInList f)
          ++ optProp "showInDetail" JBool (showInDetail f)
          ++ optProp "placeholder" JStr (placeholder f)
          ++ optProp "helpText" JStr (helpText f)
          ++ optProp "min" JNum (min f)
          ++ optProp "max" JNum (max f)
          ++ optProp "default" id (default f)).

Definition brandingConfig (b : BrandingConfig) : JSON :=
  JObj (optProp "primaryColor" JStr (primaryColor b)
          ++ optProp "secondaryColor" JStr (secondaryColor b)
          ++ optProp "logo" JStr (logo b)).

Definition featuresConfig (f : FeaturesConfig) : JSON :=
  JObj (optProp "create" JBool (create f)
          ++ optProp "update" JBool (update f)
          ++ optProp "delete" JBool (delete f)
          ++ optProp "archive" JBool (archive f)
          ++ optProp "search" JBool (search f)).

Definition domainConfig (c : DomainConfig) : JSON :=
  JObj ([("domain", JStr (domain c)); ("label", JStr (labelSingular c));
         ("labelPlural", JStr (labelPlural c))]
          ++ optProp "icon" JStr (icon c)
          ++ optProp "description" JStr (description c)
          ++ optProp "branding" brandingConfig (branding c)
          ++ optProp "features" featuresConfig (features c)
          ++ [("fields", JArr (map field (fields c)))]).

End Encode.

(* ===================================================================== *)
(** * config-loader.ts                                                     *)
(* ===================================================================== *)

Module ConfigLoader.

(** What [load] reads from the outside: the environment variable and the
    file system.  A path maps to [Some (Some text)] for a readable file, to
    [Some None] for an entry [readFileSync] fails on, and to [None] when
    [existsSync] is false. *)
Record World : Type := mkWorld {
  DOMAIN_CONFIG : option string;
  files : gmap string (option string);
}.

(** The loader object: [private config: DomainConfig | null = null]. *)
Record Loader : Type := mkLoader {
  config : option JSON;
}.

Definition newLoader : Loader := {| config := None |}.

(** [private static instance]: the process holds at most one loader. *)
Record Process : Type := mkProcess {
  instance : option Loader;
}.

Definition getInstance (p : Process) : Loader * Process :=
  match instance p with
  | Some l => (l, p)
  | None => (newLoader, {| instance := Some newLoader |})
  end.

Definition readFileSync (entry : option string) : Outcome string :=
  match entry with
  | Some content => Return content
  | None => Throw (mkError "EISDIR: illegal operation on a directory, read")
  end.

(** [Array.prototype.filter] with a callback that may throw. *)
Fixpoint filterM {A} (p : A -> Outcome bool) (l : list A) : Outcome (list A) :=
  match l with
  | [] => Return []
  | x :: rest =>
      bind (p x) (fun keep =>
      bind (filterM p rest) (fun rest' =>
      Return (if keep then x :: rest' else rest')))
  end.

(** [this.config.fields.filter(pred)]: calling [filter] on something that
    is not an array throws. *)
Definition filterFields (c : JSON) (pred : JSON -> Outcome bool) : Outcome (list JSON) :=
  bind (getProp c "fields") (fun fs =>
  match fs with
  | Some (JArr items) => filterM pred items
  | _ => Throw (mkError "this.config.fields.filter is not a function")
  end).

(** [f.a && !f.hidden]-style callbacks; [&&] does not read its right
    operand when the left one decides. *)
Definition andNotHidden (left : JSON -> Outcome bool) (f : JSON) : Outcome bool :=
  bind (left f) (fun l =>
  if l then bind (getProp f "hidden") (fun h => Return (negb (truthy h)))
  else Return false).

Section Builtins.

(** [path.resolve] and [JSON.parse]. *)
Variable resolve : string -> string.
Variable JSON_parse : string -> Outcome JSON.

(** The "basic validation" of the parsed document. *)
Definition basicValidation (data : JSON) : Outcome unit :=
  bind (getProp data "domain") (fun d =>
  if negb (truthy d) then Throw (mkError "Invalid config: missing required fields") else
  bind (getProp data "label") (fun l =>
  if negb (truthy l) then Throw (mkError "Invalid config: missing required fields") else
  bind (getProp data "labelPlural") (fun lp =>
  if negb (truthy lp) then Throw (mkError "Invalid config: missing required fields") else
  bind (getProp data "fields") (fun fs =>
  if negb (truthy fs) then Throw (mkError "Invalid config: missing required fields") else
  Return tt)))).

(** [console.log(`... ${this.config.labelPlural} (${this.config.domain})`)],
    evaluated inside the [try], after the assignment: the text is written to
    the console, the conversion of the two members can throw. *)
Definition logLoaded (data : JSON) : Outcome unit :=
  bind (getProp data "labelPlural") (fun labelPlural =>
  bind (interpolates labelPlural) (fun _ =>
  bind (getProp data "domain") (fun domain =>
  interpolates domain))).

(** Load domain configuration from file.  Returns the configuration or
    [null] ([None]), and the loader after the call. *)
Definition load (w : World) (configPath : option string) (self : Loader)
  : option JSON * Loader :=
  if truthy (config self) then (config self, self) else
  (* Get config path from parameter or environment *)
  match orString configPath (DOMAIN_CONFIG w) with
  | None => (None, self)
  | Some path =>
      if String.eqb path "" then (None, self) else
      let resolvedPath := resolve path in
      match files w !! resolvedPath with
      | None => (None, self)          (* !existsSync(resolvedPath) *)
      | Some entry =>
          (* try { ... } up to the assignment *)
          let attempt :=
            bind (readFileSync entry) (fun content =>
            bind (JSON_parse content) (fun data =>
            bind (basicValidation data) (fun _ =>
            Return data))) in
          match attempt with
          | Return data =>
              let self := {| config := Some data |} in    (* this.config = data *)
              match logLoaded data with
              | Return _ => (config self, self)           (* return this.config *)
              | Throw _ => (None, self)   (* catch: log and return null *)
              end
          | Throw _ => (None, self)       (* catch: log and return null *)
          end
      end
  end.

(** Get cached config. *)
Definition get (self : Loader) : option JSON := config self.

(** Reload configuration. *)
Definition reload (w : World) (configPath : option string) (self : Loader)
  : option JSON * Loader :=
  load w configPath {| config := None |}.

(** Convenience functions on the process-wide loader. *)
Definition loadDomainConfig (w : World) (configPath : option string) (p : Process)
  : option JSON * Process :=
  let '(loader, _) := getInstance p in
  let '(result, loader') := load w configPath loader in
  (result, {| instance := Some loader' |}).

Definition getDomainConfig (p : Process) : option JSON * Process :=
  let '(loader, _) := getInstance p in
  (get loader, {| instance := Some loader |}).

(** A run of [loadDomainConfig] calls, each with the world it finds and
    the path it is given; the results in call order. *)
Fixpoint loadAll (calls : list (World * option string)) (p : Process)
  : list (option JSON) * Process :=
  match calls with
  | [] => ([], p)
  | (w, configPath) :: rest =>
      let '(r, p1) := loadDomainConfig w configPath p in
      let '(rs, p2) := loadAll rest p1 in
      (r :: rs, p2)
  end.

End Builtins.

(** Get required / list view / detail view fields from config. *)
Definition getRequiredFields (self : Loader) : Outcome (list JSON) :=
  match config self with
  | Some c =>
      if negb (truthy (Some c)) then Return [] else
      filterFields c (andNotHidden (fun f =>
        bind (getProp f "required") (fun r => Return (truthy r))))
  | None => Return []
  end.

Definition getListFields (self : Loader) : Outcome (list JSON) :=
  match config self with
  | Some c =>
      if negb (truthy (Some c)) then Return [] else
      filterFields c (andNotHidden (fun f =>
        bind (getProp f "showInList") (fun s => Return (truthy s))))
  | None => Return []
  end.

(** [f.showInDetail !== false]: strict comparison with the boolean. *)
Definition notStrictlyFalse (v : option JSON) : bool :=
  match v with
  | Some (JBool false) => false
  | _ => true
  end.

Definition getDetailFields (self : Loader) : Outcome (list JSON) :=
  match config self with
  | Some c =>
      if negb (truthy (Some c)) then Return [] else
      filterFields c (andNotHidden (fun f =>
        bind (getProp f "showInDetail") (fun s => Return (notStrictlyFalse s))))
  | None => Return []
  end.

End ConfigLoader.

(* ===================================================================== *)
(** * generic-types.ts                                                     *)
(* ===================================================================== *)

Module GenericTypes.

Inductive View : Type := ViewList | ViewDetail.       (* 'list' | 'detail' *)
Inductive SortOrder : Type := Asc | Desc.             (* 'asc' | 'desc' *)

(** [interface GenericEntity]: an object with an index signature, kept as
    its own properties. *)
Definition GenericEntity : Type := list (string * JSON).

(** ** Members of an entity

    [entity[k]] finds an own property of the entity and, failing that, a
    member of [Object.prototype]: one of its functions, or under [__proto__]
    the prototype itself.  None of these is [null] or [undefined]. *)
Inductive Member : Type :=
| Own (v : JSON)
| Inherited (name : string).

Definition objectPrototype : list string :=
  ["constructor"; "hasOwnProperty"; "isPrototypeOf"; "propertyIsEnumerable";
   "toLocaleString"; "toString"; "valueOf"; "__proto__";
   "__defineGetter__"; "__defineSetter__"; "__lookupGetter__"; "__lookupSetter__"].

Definition readMember (entity : GenericEntity) (k : string) : option Member :=
  match lookupProp entity k with
  | Some v => Some (Own v)
  | None =>
      if GenericTools.includes objectPrototype k then Some (Inherited k) else None
  end.

(** Helper to get field value from entity. *)
Definition getFieldValue (entity : GenericEntity) (field : FieldConfig) : option Member :=
  readMember entity (key field).

(** Helper to determine if a field should be shown. *)
Definition shouldShowField (field : FieldConfig) (view : View) : bool :=
  if truthyFlag (hidden field) then false else
  match view with
  | ViewList =>
      match showInList field with Some true => true | _ => false end   (* === true *)
  | ViewDetail =>
      match showInDetail field with Some false => false | _ => true end (* !== false *)
  end.

(** Get fields to display in a specific view. *)
Definition getFieldsForView (config : DomainConfig) (view : View) : list FieldConfig :=
  List.filter (fun f => shouldShowField f view) (fields config).

(** [v === null || v === undefined]. *)
Definition isNullish (v : option Member) : bool :=
  match v with
  | None | Some (Own JNull) => true
  | Some _ => false
  end.

(** ** [Array.prototype.sort]

    The sort is the engine's.  It calls the comparator on pairs of elements
    of its choice and stops with the error of a call that throws; which
    calls it makes, and the order it leaves for a comparator that is not a
    consistent one, are not laid down by the language. *)
Definition SortEngine : Type :=
  forall A : Type, (A -> A -> Outcome Q) -> list A -> Outcome (list A).

(** ** Arrays live in a store: an array value is a reference *)
Abbreviation Heap := (gmap nat (list GenericEntity)).

(** [[...src]]: a new array with the same elements. *)
Definition spread (h : Heap) (src : nat) : option (nat * Heap) :=
  match h !! src with
  | Some es => let copy := fresh (dom h) in Some (copy, <[copy := es]> h)
  | None => None
  end.

Section Sorting.

(** [Array.prototype.sort], [String.prototype.localeCompare], [String(v)]
    for a parsed value whose conversion completes, and [String(m)] for a
    member of [Object.prototype]. *)
Variable Array_sort : SortEngine.
Variable localeCompare : string -> string -> Z.
Variable JS_String : JSON -> string.
Variable inheritedText : string -> string.

(** [arr.sort(cmp)]: sorts in place and returns the same reference.  When
    the comparator throws the array is left as the engine had it by then;
    the one array sorted here is a copy nothing else refers to, so the store
    is returned only with the result. *)
Definition sortInPlace (cmp : GenericEntity -> GenericEntity -> Outcome Q)
           (h : Heap) (arr : nat) : option (Outcome (nat * Heap)) :=
  match h !! arr with
  | Some es =>
      Some (bind (Array_sort GenericEntity cmp es) (fun sorted =>
            Return (arr, <[arr := sorted]> h)))
  | None => None
  end.

(** [String(v)] for a member. *)
Definition stringOf (m : Member) : Outcome string :=
  match m with
  | Own v => ToString JS_String v
  | Inherited k => Return (inheritedText k)
  end.

(** The comparator passed to [sort]. *)
Definition compareEntities (sortBy : string) (sortOrder : SortOrder)
           (a b : GenericEntity) : Outcome Q :=
  let aVal := readMember a sortBy in
  let bVal := readMember b sortBy in
  (* Handle null/undefined *)
  if isNullish aVal then Return 1%Q else
  if isNullish bVal then Return (-1)%Q else
  (* Compare based on type *)
  bind
    match aVal, bVal with
    | Some (Own (JNum x)), Some (Own (JNum y)) => Return (x - y)%Q
    | Some (Own (JStr s)), Some (Own (JStr t)) => Return (inject_Z (localeCompare s t))
    | Some va, Some vb =>
        bind (stringOf va) (fun sa =>
        bind (stringOf vb) (fun sb =>
        Return (inject_Z (localeCompare sa sb))))
    | _, _ => Return 0%Q
    end
    (fun comparison =>
       Return match sortOrder with
              | Desc => (- comparison)%Q
              | Asc => comparison
              end).

(** Sort generic entities by field.  [entities] is a reference into the
    store; the result is the reference of the sorted copy and the store
    after the call, or the error the comparator threw ([None] only for a
    dangling reference). *)
Definition sortEntities (h : Heap) (entities : nat) (sortBy : string)
           (sortOrder : option SortOrder) : option (Outcome (nat * Heap)) :=
  let sortOrder := match sortOrder with Some o => o | None => Desc end in
  match spread h entities with
  | Some (copy, h1) => sortInPlace (compareEntities sortBy sortOrder) h1 copy
  | None => None
  end.

End Sorting.

(** [interface GenericWidgetState], its declared members. *)
Record GenericWidgetState : Type := mkWidgetState {
  selectedItem : option string;
  viewMode : option View;
  favorites : option (list string);
  sortBy : option string;
  sortOrder : option SortOrder;
}.

(** Get priority/urgency info (generic version). *)
Record PriorityInfo : Type := mkPriorityInfo {
  color : string;
  textColor : string;
  dot : string;
  priorityLabel : string;     (* [label] *)
}.

(** [priorityMap[k]] for the five keys of the table. *)
Definition priorityUrgent : PriorityInfo :=
  {| color := "bg-red-50"; textColor := "text-red-700"; dot := "bg-red-500";
     priorityLabel := "Urgent" |}.
Definition priorityHigh : PriorityInfo :=
  {| color := "bg-orange-50"; textColor := "text-orange-700"; dot := "bg-orange-500";
     priorityLabel := "High" |}.
Definition priorityMedium : PriorityInfo :=
  {| color := "bg-blue-50"; textColor := "text-blue-700"; dot := "bg-blue-500";
     priorityLabel := "Medium" |}.
Definition priorityLow : PriorityInfo :=
  {| color := "bg-gray-50"; textColor := "text-gray-700"; dot := "bg-gray-500";
     priorityLabel := "Low" |}.
Definition priorityLowest : PriorityInfo :=
  {| color := "bg-gray-50"; textColor := "text-gray-500"; dot := "bg-gray-400";
     priorityLabel := "Lowest" |}.

(** [priorityMap[priority] || priorityMap[3]]: the number is looked up by
    its decimal spelling, so only the numbers equal to 1..5 hit the table. *)
Definition getPriorityInfo (priority : Q) : PriorityInfo :=
  if Qeq_bool priority 5 then priorityUrgent
  else if Qeq_bool priority 4 then priorityHigh
  else if Qeq_bool priority 3 then priorityMedium
  else if Qeq_bool priority 2 then priorityLow
  else if Qeq_bool priority 1 then priorityLowest
  else priorityMedium.

End GenericTypes.

(* ===================================================================== *)
(** * The list widget (generic-list)                                       *)
(* ===================================================================== *)

Module GenericList.
Import GenericTypes.

(** [l.filter(x => x !== found)] for the object [found] that [l.find(p)]
    returned: the list without its first element satisfying [p]. *)
Fixpoint withoutFirst {A} (p : A -> bool) (l : list A) : list A :=
  match l with
  | [] => []
  | x :: rest => if p x then rest else x :: withoutFirst p rest
  end.

(** [favorites.includes(itemId) ? favorites.filter((id) => id !== itemId)
    : [...favorites, itemId]]. *)
Definition toggleFavorite (favorites : list string) (itemId : string) : list string :=
  if GenericTools.includes favorites itemId
  then List.filter (fun id => negb (String.eqb id itemId)) favorites
  else favorites ++ [itemId].

(** [widgetState?.favorites || []]. *)
Definition favoritesOf (widgetState : option GenericWidgetState) : list string :=
  match widgetState with
  | Some st => match favorites st with Some fs => fs | None => [] end
  | None => []
  end.

(** The updaters the handlers pass to [setWidgetState]: [widgetState] is
    the state of the render the handler was created in, [prev] the state the
    updater is applied to. *)
Definition handleToggleFavorite (widgetState : option GenericWidgetState)
           (itemId : string) (prev : GenericWidgetState) : GenericWidgetState :=
  let newFavorites := toggleFavorite (favoritesOf widgetState) itemId in
  {| selectedItem := selectedItem prev; viewMode := viewMode prev;
     favorites := Some newFavorites;
     sortBy := sortBy prev; sortOrder := sortOrder prev |}.

Definition handleItemClick (itemId : string) (prev : GenericWidgetState)
  : GenericWidgetState :=
  {| selectedItem := Some itemId; viewMode := Some ViewDetail;
     favorites := favorites prev;
     sortBy := sortBy prev; sortOrder := sortOrder prev |}.

Definition handleSort (widgetState : option GenericWidgetState)
           (sortField : string) (prev : GenericWidgetState) : GenericWidgetState :=
  let sameField :=
    match widgetState with
    | Some st => match sortBy st with Some s => String.eqb s sortField | None => false end
    | None => false
    end in
  let descending :=
    match widgetState with
    | Some st => match sortOrder st with Some Desc => true | _ => false end
    | None => false
    end in
  let newSortOrder := if sameField && descending then Asc else Desc in
  {| selectedItem := selectedItem prev; viewMode := viewMode prev;
     favorites := favorites prev;
     sortBy := Some sortField; sortOrder := Some newSortOrder |}.

Section Card.

(** [String.prototype.toLowerCase]. *)
Variable toLowerCase : string -> string.

(** [['priority', 'urgency', 'importance'].includes(f.key.toLowerCase())]. *)
Definition isPriorityField (f : FieldConfig) : bool :=
  GenericTools.includes ["priority"; "urgency"; "importance"] (toLowerCase (key f)).

(** [EntityCard]: the priority field and the (at most two) fields shown as
    title and subtitle. *)
Definition priorityField (config : DomainConfig) : option FieldConfig :=
  List.find isPriorityField (getFieldsForView config ViewList).

Definition displayFields (config : DomainConfig) : list FieldConfig :=
  take 2 (withoutFirst isPriorityField (getFieldsForView config ViewList)).

End Card.

End GenericList.

(* ===================================================================== *)
(** * The detail widget (generic-detail/index.tsx)                          *)
(* ===================================================================== *)

Module GenericDetail.
Import GenericTypes.

(** A call [window.openai.callTool(name, args)]; a member whose value is
    [undefined] is no member of the arguments sent. *)
Record ToolCall : Type := mkToolCall {
  toolName : string;
  args : list (string * JSON);
}.

Definition idArgs (config : DomainConfig) (item : GenericEntity) : list (string * JSON) :=
  match lookupProp item "id" with
  | Some id => [(domain config +:+ "_id", id)]
  | None => []
  end.

(** [handleDeleteItem]: [openai] says whether [window.openai] is there,
    [confirmed] what [window.confirm] answers. *)
Definition handleDeleteItem (openai confirmed : bool) (config : DomainConfig)
           (item : GenericEntity) : option ToolCall :=
  if openai && confirmed then
    Some {| toolName := "delete_" +:+ domain config; args := idArgs config item |}
  else None.

(** [handleArchiveItem]. *)
Definition handleArchiveItem (openai : bool) (config : DomainConfig)
           (item : GenericEntity) : option ToolCall :=
  if openai && GenericTools.isTruthy config archive then
    let action := if truthy (lookupProp item "archived") then "restore" else "archive" in
    Some {| toolName := action +:+ "_" +:+ domain config; args := idArgs config item |}
  else None.

(** The entries of the menu, top to bottom. *)
Inductive MenuEntry : Type := Edit | ArchiveEntry (label : string) | Share | Delete.

Definition menu (config : DomainConfig) (item : GenericEntity) : list MenuEntry :=
  (if GenericTools.notFalse config update then [Edit] else [])
  ++ (if GenericTools.isTruthy config archive
      then [ArchiveEntry (if truthy (lookupProp item "archived")
                          then "Unarchive" else "Archive")]
      else [])
  ++ [Share]
  ++ (if GenericTools.notFalse config delete then [Delete] else []).

(** [handleBackToList]'s updater. *)
Definition handleBackToList (prev : GenericWidgetState) : GenericWidgetState :=
  {| selectedItem := None; viewMode := Some ViewList;
     favorites := favorites prev;
     sortBy := sortBy prev; sortOrder := sortOrder prev |}.

Section Fields.

Variable toLowerCase : string -> string.

Definition systemFields : list string := ["id"; "archived"; "created_date"; "updated_date"].

Definition detailFields (config : DomainConfig) : list FieldConfig :=
  getFieldsForView config ViewDetail.

(** Find priority/urgency field. *)
Definition priorityField (config : DomainConfig) : option FieldConfig :=
  List.find (GenericList.isPriorityField toLowerCase) (detailFields config).

(** Get main title field (first showInList field or first string field). *)
Definition titleField (config : DomainConfig) : option FieldConfig :=
  match List.find (fun f => truthyFlag (showInList f) && String.eqb (type f) "string")
                  (fields config) with
  | Some f => Some f
  | None => List.find (fun f => String.eqb (type f) "string") (fields config)
  end.

(** Get description field (first text field). *)
Definition descField (config : DomainConfig) : option FieldConfig :=
  List.find (fun f => String.eqb (type f) "text") (fields config).

Definition keyOf (f : option FieldConfig) : list string :=
  match f with
  | Some f => [key f]
  | None => []
  end.

(** Other fields to display (excluding title, description, priority, system
    fields). *)
Definition excludedKeys (config : DomainConfig) : list string :=
  keyOf (titleField config) ++ keyOf (descField config)
  ++ keyOf (priorityField config) ++ systemFields.

Definition otherFields (config : DomainConfig) : list FieldConfig :=
  List.filter (fun f => negb (GenericTools.includes (excludedKeys config) (key f)))
              (detailFields config).

End Fields.

End GenericDetail.



(* ===================================================================== *)
(** * The shape of temporal strings, as the descriptor guide words it      *)
(* ===================================================================== *)

(** The validation engine that parses [date] and [datetime] values lives in
    the backend, which is not among the sources.  The descriptor guide gives
    the formats: a calendar date is [YYYY-MM-DD], a full timestamp is an ISO
    8601 date and time.  The recognisers below say what "parses as" means in
    the statements about temporal fields; no source function is embedded by
    them. *)
Module Temporal.

Definition isDigit (c : Ascii.ascii) : bool :=
  let n := Ascii.nat_of_ascii c in (48 <=? n)%nat && (n <=? 57)%nat.

Definition digitVal (c : Ascii.ascii) : nat := Ascii.nat_of_ascii c - 48.

(** The character with the given code: 45 is the hyphen, 58 the colon, 84
    the letter T. *)
Definition isChar (c : Ascii.ascii) (code : nat) : bool :=
  (Ascii.nat_of_ascii c =? code)%nat.

Definition twoDigits (a b : Ascii.ascii) (lo hi : nat) : bool :=
  isDigit a && isDigit b &&
  (lo <=? 10 * digitVal a + digitVal b)%nat && (10 * digitVal a + digitVal b <=? hi)%nat.

(** [YYYY-MM-DD] at the head of [s]; the rest of the string on success. *)
Definition takeCalendarDate (s : string) : option string :=
  match s with
  | String y1 (String y2 (String y3 (String y4 (String d1 (String m1 (String m2
      (String d2 (String a1 (String a2 rest))))))))) =>
      if isDigit y1 && isDigit y2 && isDigit y3 && isDigit y4
         && isChar d1 45 && twoDigits m1 m2 1 12
         && isChar d2 45 && twoDigits a1 a2 1 31
      then Some rest else None
  | _ => None
  end.

(** Modelled from the spec: the calendar-date parsing of the validation
    engine, which is not among the sources; the whole string is one
    [YYYY-MM-DD] date. *)
Definition parsesAsCalendarDate (s : string) : bool :=
  match takeCalendarDate s with
  | Some rest => String.eqb rest ""
  | None => false
  end.

(** Modelled from the spec: the full-timestamp parsing of the validation
    engine, which is not among the sources; a calendar date, [T],
    [hh:mm:ss], then whatever fraction or zone follows. *)
Definition parsesAsFullTimestamp (s : string) : bool :=
  match takeCalendarDate s with
  | Some (String t (String h1 (String h2 (String c1 (String n1 (String n2
      (String c2 (String s1 (String s2 _))))))))) =>
      isChar t 84 && twoDigits h1 h2 0 23 && isChar c1 58
      && twoDigits n1 n2 0 59 && isChar c2 58 && twoDigits s1 s2 0 59
  | _ => false
  end.

End Temporal.

(* ===================================================================== *)
(** * Sample data                                                          *)
(* ===================================================================== *)

Module Samples.
Import GenericTools ConfigLoader GenericTypes.

Definition plainField (k l t : string) : FieldConfig :=
  {| key := k; label := l; type := t; required := None; hidden := None;
     showInList := None; showInDetail := None; placeholder := None;
     helpText := None; min := None; max := None; default := None |}.

(** The fields of the product catalogue: a required name, a price between 0
    and 100000 and a stock count of at least 0. *)
Definition nameField : FieldConfig :=
  {| key := "name"; label := "Name"; type := "string"; required := Some true;
     hidden := None; showInList := Some true; showInDetail := None;
     placeholder := None; helpText := None; min := None; max := None;
     default := None |}.

Definition priceField : FieldConfig :=
  {| key := "price"; label := "Price"; type := "number"; required := Some true;
     hidden := None; showInList := Some true; showInDetail := None;
     placeholder := None; helpText := Some "Unit price"; min := Some 0%Q;
     max := Some 100000%Q; default := None |}.

Definition stockField : FieldConfig :=
  {| key := "stock"; label := "Stock"; type := "number"; required := None;
     hidden := None; showInList := None; showInDetail := Some false;
     placeholder := None; helpText := None; min := Some 0%Q; max := None;
     default := None |}.

Definition releasedField : FieldConfig :=
  {| key := "released"; label := "Released"; type := "date"; required := Some true;
     hidden := None; showInList := None; showInDetail := None;
     placeholder := None; helpText := None; min := None; max := None;
     default := None |}.

Definition products : DomainConfig :=
  {| domain := "products"; labelSingular := "Product"; labelPlural := "Products";
     icon := None; description := None; branding := None; features := None;
     fields := [nameField; priceField; stockField; releasedField] |}.

(** A ledger: creation switched off, archiving switched on. *)
Definition ledger : DomainConfig :=
  {| domain := "ledger"; labelSingular := "Entry"; labelPlural := "Entries";
     icon := None; description := None; branding := None;
     features := Some {| create := Some false; update := None; delete := None;
                         archive := Some true; search := None |};
     fields := [nameField] |}.

(** ** Backends *)

(** The backends of the examples. *)
Definition answering (resp : Response) : Request -> Outcome Response :=
  fun _ => Return resp.

Definition errorBody (code msg : string) : option JSON :=
  Some (JObj [("error", JObj [("code", JStr code); ("message", JStr msg)])]).

Definition notFound : Response :=
  {| status := 404; statusText := "Not Found";
     json_body := errorBody "NOT_FOUND" "No product with id p-404" |}.

Definition validationError : Response :=
  {| status := 422; statusText := "Unprocessable Entity";
     json_body := errorBody "VALIDATION_ERROR" "price: out-of-range" |}.

Definition featureDisabled : Response :=
  {| status := 403; statusText := "Forbidden";
     json_body := errorBody "FEATURE_DISABLED" "archive is not enabled" |}.

Definition mouse : JSON :=
  JObj [("id", JStr "p-1"); ("name", JStr "Mouse"); ("price", JNum 25)].

Definition keyboard : JSON :=
  JObj [("id", JStr "p-2"); ("name", JStr "Keyboard"); ("price", JNum 60)].

Definition twoProducts : Response :=
  {| status := 200; statusText := "OK"; json_body := Some (JArr [mouse; keyboard]) |}.

(** ** Descriptor files *)

(** A parser that knows one text. *)
Definition parseOnly (text : string) (data : JSON) : string -> Outcome JSON :=
  fun s => if String.eqb s text then Return data
           else Throw (mkError "Unexpected token in JSON").

(** A descriptor in which the key [name] is declared twice and the type
    token [currency] is none of the six. *)
Definition clashing : DomainConfig :=
  {| domain := "products"; labelSingular := "Product"; labelPlural := "Products";
     icon := None; description := None; branding := None; features := None;
     fields := [nameField;
                plainField "name" "Title" "string";
                plainField "price" "Price" "currency"] |}.

(** A world with one descriptor file; the text stands for the JSON document
    (its content is what the parser makes of it). *)
Definition oneFile (path text : string) : World :=
  {| DOMAIN_CONFIG := None; files := {[ path := Some text ]} |}.

Definition emptyWorld : World := {| DOMAIN_CONFIG := None; files := ∅ |}.

Definition freshProcess : Process := {| instance := None |}.

(** The text of the descriptor file of the examples.  Only its identity
    matters: the parser of the examples maps it to the document it stands
    for. *)
Definition descriptorText : string := "{ domain: products, ..., fields: [...] }".

Definition absolute : string -> string := fun path => path.

(** A descriptor without the [fields] key. *)
Definition fieldless : JSON :=
  JObj [("domain", JStr "products"); ("label", JStr "Product");
        ("labelPlural", JStr "Products")].

(** ** Entities in a store *)

(** Four products: [sample] has no price, [prototype] a [null] one. *)
Definition cable : GenericEntity := [("id", JStr "p-3"); ("price", JNum 5)].
Definition sample : GenericEntity := [("id", JStr "p-4")].
Definition prototype : GenericEntity := [("id", JStr "p-5"); ("price", JNull)].
Definition lamp : GenericEntity := [("id", JStr "p-6"); ("price", JNum 40)].

Definition shelf : Heap := {[ 0%nat := [sample; cable; prototype; lamp] ]}.

(** Two products whose [spec] is an object with a member [toString]. *)
Definition boxed : GenericEntity :=
  [("id", JStr "p-7"); ("spec", JObj [("toString", JNum 1)])].
Definition crated : GenericEntity :=
  [("id", JStr "p-8"); ("spec", JObj [("toString", JNum 2)])].

Definition crates : Heap := {[ 0%nat := [boxed; crated] ]}.

(** An engine for the examples: every element, from the last to the first,
    is moved right past the elements it compares greater than. *)
Definition isPositive (x : Q) : bool := negb (Qle_bool x 0).

Fixpoint insertInto {A} (cmp : A -> A -> Outcome Q) (x : A) (sorted : list A)
  : Outcome (list A) :=
  match sorted with
  | [] => Return [x]
  | y :: rest =>
      bind (cmp x y) (fun c =>
      if isPositive c
      then bind (insertInto cmp x rest) (fun rest' => Return (y :: rest'))
      else Return (x :: sorted))
  end.

Fixpoint insertionSort {A} (cmp : A -> A -> Outcome Q) (l : list A)
  : Outcome (list A) :=
  match l with
  | [] => Return []
  | x :: rest => bind (insertionSort cmp rest) (insertInto cmp x)
  end.

Definition insertionEngine : SortEngine := fun A => @insertionSort A.

(** ** More descriptors *)

(** A descriptor whose [fields] is a string, not an array. *)
Definition fieldsAsText : JSON :=
  JObj [("domain", JStr "products"); ("label", JStr "Product");
        ("labelPlural", JStr "Products"); ("fields", JStr "name,price")].

(** A descriptor with no field at all. *)
Definition noFields : JSON :=
  JObj [("domain", JStr "products"); ("label", JStr "Product");
        ("labelPlural", JStr "Products"); ("fields", JArr [])].

(** A descriptor whose [labelPlural] is an object with a member [toString]:
    truthy, so it passes the basic validation, but it has no text. *)
Definition unloggable : JSON :=
  JObj [("domain", JStr "products"); ("label", JStr "Product");
        ("labelPlural", JObj [("toString", JNum 1)]); ("fields", JArr [])].

(** A descriptor with a required field keyed [__proto__]. *)
Definition protoField : FieldConfig :=
  {| key := "__proto__"; label := "Prototype"; type := "string";
     required := Some true; hidden := None; showInList := None;
     showInDetail := None; placeholder := None; helpText := None;
     min := None; max := None; default := None |}.

Definition protoKeyed : DomainConfig :=
  {| domain := "products"; labelSingular := "Product"; labelPlural := "Products";
     icon := None; description := None; branding := None; features := None;
     fields := [nameField; protoField] |}.

(** ** More backends *)

(** The answer of a backend that deleted the record and has nothing to
    say. *)
Definition noContent : Response :=
  {| status := 204; statusText := "No Content"; json_body := None |}.

Definition okWith (v : JSON) : Response :=
  {| status := 200; statusText := "OK"; json_body := Some v |}.

(** A descriptor that declares a numeric field under the system key [id]. *)
Definition shadowing : DomainConfig :=
  {| domain := "products"; labelSingular := "Product"; labelPlural := "Products";
     icon := None; description := None; branding := None; features := None;
     fields := [plainField "id" "Number" "number"; nameField] |}.

End Samples.

(* ===================================================================== *)
(** * The words of the properties                                          *)
(* ===================================================================== *)

Module Vocabulary.
Import GenericTools ConfigLoader GenericTypes.

(** ** Contracts *)

(** What the number branch builds from the declared bounds. *)
Definition numberChecks (f : FieldConfig) : list NumCheck :=
  match min f with Some lo => [CheckMin lo] | None => [] end
  ++ match max f with Some hi => [CheckMax hi] | None => [] end.

(** [k] is one of the four store-managed keys. *)
Definition isSystemField (k : string) : bool := includes systemFields k.

(** [k] becomes a key of the shapes when a field declares it: it is no
    system key and not [__proto__]. *)
Definition isContractKey (k : string) : bool :=
  negb (isSystemField k) && negb (String.eqb k "__proto__").

(** A configuration that is a domain schema in the sense of the data model:
    its field keys are unique and every field type is one of the six
    tokens.  (The loader checks neither.) *)
Definition isDomainSchema (config : DomainConfig) : Prop :=
  NoDup (map key (fields config))
  /\ Forall (fun f => validType (type f) = true) (fields config).

(** ** Registration *)

(** The value of a feature flag as the descriptor declares it: [None] when
    the [features] block or the flag itself is absent. *)
Definition declaredFlag (config : DomainConfig) (flag : FeaturesConfig -> option bool)
  : option bool :=
  match features config with
  | Some fs => flag fs
  | None => None
  end.

(** The tools registered on a server that had none. *)
Definition registeredTools (IDEATE_API_URL : option string)
           (fetch : Request -> Outcome Response)
           (JSON_stringify JS_String : JSON -> string)
           (toLowerCase : string -> string) (nowISO : string)
           (config : DomainConfig) (manifestVersion : string) : list Tool :=
  (registerGenericTools IDEATE_API_URL fetch JSON_stringify JS_String toLowerCase nowISO
     config manifestVersion []).1.

(** The tools of a domain, in the order [registerGenericTools] hands them
    to the server. *)
Definition domainTools (IDEATE_API_URL : option string)
           (fetch : Request -> Outcome Response)
           (JSON_stringify JS_String : JSON -> string)
           (toLowerCase : string -> string) (nowISO : string)
           (config : DomainConfig) (manifestVersion : string) : list Tool :=
  [listTool IDEATE_API_URL fetch JS_String toLowerCase nowISO config manifestVersion;
   getTool IDEATE_API_URL fetch toLowerCase nowISO config manifestVersion]
  ++ (if notFalse config create
      then [createTool IDEATE_API_URL fetch JSON_stringify toLowerCase nowISO
              config manifestVersion]
      else [])
  ++ (if notFalse config update
      then [updateTool IDEATE_API_URL fetch JSON_stringify toLowerCase nowISO
              config manifestVersion]
      else [])
  ++ (if notFalse config delete
      then [deleteTool IDEATE_API_URL fetch toLowerCase nowISO config]
      else [])
  ++ (if isTruthy config archive
      then [archiveTool IDEATE_API_URL fetch toLowerCase nowISO config;
            restoreTool IDEATE_API_URL fetch toLowerCase nowISO config]
      else []).

(** A run of [registerTool] calls. *)
Definition registerEach (tools : list Tool) : Registration :=
  inOrder (map registerTool tools).

(** ** Invocation and the backend *)

(** The arguments a tool is invoked with, after validation against its
    input contract. *)
Inductive Call : Type :=
| CallList (includeArchived archivedOnly : option bool)
| CallId (id : string)
| CallCreate (input : JSON)
| CallUpdate (id : string) (updates : JSON).

(** Invoking a handler; [None] when the arguments are not of its arity. *)
Definition invoke (h : Handler) (c : Call) : option (Outcome ToolResult) :=
  match h, c with
  | ListHandler run, CallList includeArchived archivedOnly =>
      Some (run includeArchived archivedOnly)
  | IdHandler run, CallId id => Some (run id)
  | CreateHandler run, CallCreate input => Some (run input)
  | UpdateHandler run, CallUpdate id updates => Some (run id updates)
  | _, _ => None
  end.

(** The status line [makeApiRequest] puts in its error. *)
Definition statusLine (r : Response) : string :=
  "API request failed: " +:+ pretty (status r) +:+ " " +:+ statusText r.

(** The request [makeApiRequest] sends. *)
Definition requestFor (IDEATE_API_URL : option string) (endpoint : string)
           (options : RequestInit) : Request :=
  {| url := IDEATE_API_BASE IDEATE_API_URL +:+ endpoint;
     init := {| headers := match headers options with
                           | Some hs => Some hs
                           | None => Some [("Content-Type", "application/json")]
                           end;
                method := method options;
                body := body options |} |}.

(** The request the list handler sends. *)
Definition listEndpoint (config : DomainConfig) (includeArchived archivedOnly : option bool)
  : string :=
  let qs := queryString (match includeArchived with Some b => b | None => false end)
                        (match archivedOnly with Some b => b | None => false end) in
  "/" +:+ domain config +:+ (if String.eqb qs "" then "" else "?" +:+ qs).

(** ** Loading *)

(** The four keys the basic validation looks at. *)
Definition requiredKeys : list string := ["domain"; "label"; "labelPlural"; "fields"].

(** A parsed descriptor lacks one of them. *)
Definition missingRequiredKey (data : JSON) : Prop :=
  exists k, In k requiredKeys /\ getProp data k = Return None.

(** [load] gets as far as reading [content] from the descriptor file. *)
Definition reads (resolve : string -> string) (w : World)
           (configPath : option string) (content : string) : Prop :=
  exists path,
    orString configPath (DOMAIN_CONFIG w) = Some path
    /\ path <> ""
    /\ files w !! resolve path = Some (Some content).

(** ** Sorting *)

(** The entity has a value under the sort key: what [entity[sortBy]] finds
    is neither [null] nor [undefined]. *)
Definition hasValue (sortBy : string) (e : GenericEntity) : Prop :=
  isNullish (readMember e sortBy) = false.

(** It has none. *)
Definition lacksValue (sortBy : string) (e : GenericEntity) : Prop :=
  isNullish (readMember e sortBy) = true.

(** Entities with a value first, the others after them. *)
Definition valuesFirst (sortBy : string) (l : list GenericEntity) : Prop :=
  exists withValue without,
    l = withValue ++ without
    /\ Forall (hasValue sortBy) withValue
    /\ Forall (lacksValue sortBy) without.

(** The own value of the entity under the sort key, if it has one, can be
    converted to a string. *)
Definition hasText (sortBy : string) (e : GenericEntity) : Prop :=
  match lookupProp e sortBy with
  | Some v => convertible v = true
  | None => True
  end.

(** No comparison of two elements of the list throws. *)
Definition neverThrows {A} (cmp : A -> A -> Outcome Q) (l : list A) : Prop :=
  forall x y, In x l -> In y l -> exists q, cmp x y = Return q.

(** The comparator sets the elements marked [high] apart from the others:
    whichever way round two such elements of the list are compared, the
    marked one is to go behind. *)
Definition setsApart {A} (cmp : A -> A -> Outcome Q) (high : A -> bool) (l : list A)
  : Prop :=
  forall x y, In x l -> In y l -> high x = false -> high y = true ->
    (exists q, cmp x y = Return q /\ (q < 0)%Q)
    /\ (exists r, cmp y x = Return r /\ (0 < r)%Q).

Definition markedLast {A} (high : A -> bool) (l : list A) : Prop :=
  exists lows highs,
    l = lows ++ highs
    /\ Forall (fun x => high x = false) lows
    /\ Forall (fun x => high x = true) highs.

(** What the statements ask of the engine's sort, and what the comparison
    sorts of the engines (insertion, merge and partition sorts alike) do
    whatever the comparator: they rearrange, they finish when no comparison
    throws, and they put behind the others a class of elements that every
    comparison across the two classes sends behind. *)
Record comparisonSort (sort : SortEngine) : Prop := {
  sort_permutes :
    forall A (cmp : A -> A -> Outcome Q) (l sorted : list A),
      sort A cmp l = Return sorted -> Permutation sorted l;
  sort_completes :
    forall A (cmp : A -> A -> Outcome Q) (l : list A),
      neverThrows cmp l -> exists sorted, sort A cmp l = Return sorted;
  sort_separates :
    forall A (cmp : A -> A -> Outcome Q) (high : A -> bool) (l sorted : list A),
      setsApart cmp high l ->
      sort A cmp l = Return sorted ->
      markedLast high sorted;
}.

(** ** Loader states *)

(** The loader holds nothing, or holds a truthy document: the states [load]
    and [reload] lead to. *)
Definition settled (self : Loader) : Prop :=
  config self = None \/ truthy (config self) = true.

Definition settledProcess (p : Process) : Prop :=
  match instance p with
  | Some l => settled l
  | None => True
  end.

(** What a loader holds after a [load] that returned [r]: [r] itself when
    [r] is a configuration; after [null], nothing, or else a validated
    document whose log line threw after it was stored. *)
Definition keptAfter (r : option JSON) (self : Loader) : Prop :=
  match r with
  | Some c => config self = Some c
  | None =>
      config self = None
      \/ exists data e,
           config self = Some data
           /\ basicValidation data = Return tt
           /\ logLoaded data = Throw e
  end.

(** The same world with another value of the environment variable. *)
Definition withEnv (w : World) (env : option string) : World :=
  {| DOMAIN_CONFIG := env; files := files w |}.

(** The four keys of an object literal are all truthy. *)
Definition requiredKeysTruthy (props : list (string * JSON)) : Prop :=
  truthy (lookupProp props "domain") = true
  /\ truthy (lookupProp props "label") = true
  /\ truthy (lookupProp props "labelPlural") = true
  /\ truthy (lookupProp props "fields") = true.

(** ** Requests and bodies *)

(** ** The request of each tool *)

Definition getRequest (IDEATE_API_URL : option string) (config : DomainConfig)
           (id : string) : Request :=
  requestFor IDEATE_API_URL ("/" +:+ domain config +:+ "/" +:+ id) noOptions.

Definition createRequest (IDEATE_API_URL : option string)
           (JSON_stringify : JSON -> string) (config : DomainConfig)
           (input : JSON) : Request :=
  requestFor IDEATE_API_URL ("/" +:+ domain config)
    {| method := Some "POST"; headers := None; body := Some (JSON_stringify input) |}.

Definition updateRequest (IDEATE_API_URL : option string)
           (JSON_stringify : JSON -> string) (config : DomainConfig)
           (id : string) (updates : JSON) : Request :=
  requestFor IDEATE_API_URL ("/" +:+ domain config +:+ "/" +:+ id)
    {| method := Some "PUT"; headers := None; body := Some (JSON_stringify updates) |}.

(** The three tools that answer [{success, message}]. *)
Inductive SuccessTool : Type := DeleteTool | ArchiveTool | RestoreTool.

Definition successSuffix (tool : SuccessTool) : string :=
  match tool with
  | DeleteTool => ""
  | ArchiveTool => "/archive"
  | RestoreTool => "/restore"
  end.

Definition successMethod (tool : SuccessTool) : string :=
  match tool with
  | DeleteTool => "DELETE"
  | ArchiveTool | RestoreTool => "POST"
  end.

Definition successWord (tool : SuccessTool) : string :=
  match tool with
  | DeleteTool => "deleted"
  | ArchiveTool => "archived"
  | RestoreTool => "restored"
  end.

Definition successRequest (IDEATE_API_URL : option string) (config : DomainConfig)
           (tool : SuccessTool) (id : string) : Request :=
  requestFor IDEATE_API_URL ("/" +:+ domain config +:+ "/" +:+ id +:+ successSuffix tool)
    {| method := Some (successMethod tool); headers := None; body := None |}.

Definition successToolHandler (IDEATE_API_URL : option string)
           (fetch : Request -> Outcome Response) (nowISO : string)
           (config : DomainConfig) (tool : SuccessTool) : string -> Outcome ToolResult :=
  match tool with
  | DeleteTool => deleteHandler IDEATE_API_URL fetch nowISO config
  | ArchiveTool => archiveHandler IDEATE_API_URL fetch nowISO config
  | RestoreTool => restoreHandler IDEATE_API_URL fetch nowISO config
  end.

(** An invocation of one of the seven tools with its arguments, the request
    its handler sends and the handler run. *)
Inductive Invocation : Type :=
| InvokeList (includeArchived archivedOnly : option bool)
| InvokeGet (id : string)
| InvokeCreate (input : JSON)
| InvokeUpdate (id : string) (updates : JSON)
| InvokeSuccess (tool : SuccessTool) (id : string).

Definition requestOf (IDEATE_API_URL : option string) (JSON_stringify : JSON -> string)
           (config : DomainConfig) (i : Invocation) : Request :=
  match i with
  | InvokeList includeArchived archivedOnly =>
      requestFor IDEATE_API_URL (listEndpoint config includeArchived archivedOnly) noOptions
  | InvokeGet id => getRequest IDEATE_API_URL config id
  | InvokeCreate input => createRequest IDEATE_API_URL JSON_stringify config input
  | InvokeUpdate id updates => updateRequest IDEATE_API_URL JSON_stringify config id updates
  | InvokeSuccess tool id => successRequest IDEATE_API_URL config tool id
  end.

Definition runTool (IDEATE_API_URL : option string)
           (fetch : Request -> Outcome Response)
           (JSON_stringify JS_String : JSON -> string)
           (toLowerCase : string -> string) (nowISO : string)
           (config : DomainConfig) (i : Invocation) : Outcome ToolResult :=
  match i with
  | InvokeList includeArchived archivedOnly =>
      listHandler IDEATE_API_URL fetch JS_String toLowerCase nowISO config
        includeArchived archivedOnly
  | InvokeGet id => getHandler IDEATE_API_URL fetch toLowerCase nowISO config id
  | InvokeCreate input =>
      createHandler IDEATE_API_URL fetch JSON_stringify toLowerCase nowISO config input
  | InvokeUpdate id updates =>
      updateHandler IDEATE_API_URL fetch JSON_stringify toLowerCase nowISO config id updates
  | InvokeSuccess tool id => successToolHandler IDEATE_API_URL fetch nowISO config tool id
  end.

(** The tool an invocation is of, by the name it is registered under, and
    the arguments its handler is called with. *)
Definition toolNameOf (config : DomainConfig) (i : Invocation) : string :=
  match i with
  | InvokeList _ _ => "list_" +:+ domain config
  | InvokeGet _ => "get_" +:+ domain config
  | InvokeCreate _ => "create_" +:+ domain config
  | InvokeUpdate _ _ => "update_" +:+ domain config
  | InvokeSuccess DeleteTool _ => "delete_" +:+ domain config
  | InvokeSuccess ArchiveTool _ => "archive_" +:+ domain config
  | InvokeSuccess RestoreTool _ => "restore_" +:+ domain config
  end.

Definition argumentsOf (i : Invocation) : Call :=
  match i with
  | InvokeList includeArchived archivedOnly => CallList includeArchived archivedOnly
  | InvokeGet id => CallId id
  | InvokeCreate input => CallCreate input
  | InvokeUpdate id updates => CallUpdate id updates
  | InvokeSuccess _ id => CallId id
  end.

(** The value under a key of a result's [_meta]. *)
Fixpoint lookupMeta (k : string) (meta : list (string * MetaValue)) : option MetaValue :=
  match meta with
  | [] => None
  | (k', v) :: rest => if String.eqb k' k then Some v else lookupMeta k rest
  end.

(** ** The widgets *)

(** The state after a click on the header of [sortField], the handler
    being the one of the render of the state it updates. *)
Definition click (sortField : string) (st : GenericWidgetState) : GenericWidgetState :=
  GenericList.handleSort (Some st) sortField st.

(** The calls the detail widget's menu can issue for an item. *)
Definition menuCall (openai confirmed : bool) (config : DomainConfig)
           (item : GenericEntity) (call : GenericDetail.ToolCall) : Prop :=
  GenericDetail.handleDeleteItem openai confirmed config item = Some call
  \/ GenericDetail.handleArchiveItem openai config item = Some call.

End Vocabulary.

(* ===================================================================== *)
(** * Registration on a server                                            *)
(* ===================================================================== *)

Module RegistrationFacts.
Import GenericTools Vocabulary.

Lemma registerTool_new (t : Tool) (server : list Tool) :
  ~ In (name t) (map name server) ->
  registerTool t server = (server ++ [t], Return tt).
Proof.
  intros Hnew. unfold registerTool.
  destruct (existsb _ server) eqn:E; [|reflexivity].
  exfalso. apply Hnew. apply existsb_exists in E as (u & Hu & Hn).
  apply String.eqb_eq in Hn. rewrite <- Hn. by apply in_map.
Qed.

Lemma registerTool_clash (t : Tool) (server : list Tool) :
  In (name t) (map name server) ->
  registerTool t server
  = (server, Throw (mkError ("Tool " +:+ name t +:+ " is already registered"))).
Proof.
  intros Hin. unfold registerTool.
  destruct (existsb _ server) eqn:E; [reflexivity|].
  exfalso. apply in_map_iff in Hin as (u & Hn & Hu).
  assert (existsb (fun u => String.eqb (name u) (name t)) server = true); [|congruence].
  apply existsb_exists. exists u. split; [exact Hu|]. by apply String.eqb_eq.
Qed.

(** Tools with new, pairwise distinct names are all added, in order. *)
Lemma registerEach_new (tools server : list Tool) :
  List.NoDup (map name tools) ->
  (forall t, In t tools -> ~ In (name t) (map name server)) ->
  registerEach tools server = (server ++ tools, Return tt).
Proof.
  revert server. induction tools as [|t tools IH]; intros server Hnd Hnew.
  - cbn. by rewrite app_nil_r.
  - inversion_clear Hnd as [|? ? Ht Hrest].
    unfold registerEach. cbn [map inOrder]. unfold andThen.
    rewrite registerTool_new by (apply Hnew; by left).
    fold (registerEach tools). rewrite IH.
    + by rewrite <- app_assoc.
    + exact Hrest.
    + intros u Hu. rewrite map_app, in_app_iff. cbn [map In].
      intros [H|[H|[]]].
      * apply (Hnew u); [by right|exact H].
      * apply Ht. rewrite H. by apply in_map.
Qed.

(** A name the server has stops the run where it stands. *)
Lemma registerEach_clash (t : Tool) (tools server : list Tool) :
  In (name t) (map name server) ->
  registerEach (t :: tools) server
  = (server, Throw (mkError ("Tool " +:+ name t +:+ " is already registered"))).
Proof.
  intros Hin. unfold registerEach. cbn [map inOrder]. unfold andThen.
  by rewrite registerTool_clash.
Qed.

Section Registration.

Variable IDEATE_API_URL : option string.
Variable fetch : Request -> Outcome Response.
Variables JSON_stringify JS_String : JSON -> string.
Variable toLowerCase : string -> string.
Variable nowISO : string.

Abbreviation register :=
  (registerGenericTools IDEATE_API_URL fetch JSON_stringify JS_String toLowerCase nowISO).
Abbreviation tools :=
  (domainTools IDEATE_API_URL fetch JSON_stringify JS_String toLowerCase nowISO).

(** The statements of [registerGenericTools] are a run of [registerTool]
    calls over the tools of the domain. *)
Lemma register_each config v server :
  register config v server = registerEach (tools config v) server.
Proof.
  unfold registerGenericTools, domainTools, registerEach.
  destruct (notFalse config create), (notFalse config update),
    (notFalse config delete), (isTruthy config archive);
    cbn [app map inOrder when]; unfold andThen;
    repeat match goal with
           | |- context [registerTool ?t ?s] =>
               destruct (registerTool t s) as [? [?|[]]]
           end;
    reflexivity.
Qed.

Lemma tools_names config v :
  map name (tools config v) =
    ["list_" +:+ domain config; "get_" +:+ domain config]
    ++ (if notFalse config create then ["create_" +:+ domain config] else [])
    ++ (if notFalse config update then ["update_" +:+ domain config] else [])
    ++ (if notFalse config delete then ["delete_" +:+ domain config] else [])
    ++ (if isTruthy config archive
        then ["archive_" +:+ domain config; "restore_" +:+ domain config] else []).
Proof.
  unfold domainTools.
  destruct (notFalse config create), (notFalse config update),
    (notFalse config delete), (isTruthy config archive); reflexivity.
Qed.

Lemma tools_names_distinct config v : List.NoDup (map name (tools config v)).
Proof.
  rewrite tools_names.
  destruct (notFalse config create), (notFalse config update),
    (notFalse config delete), (isTruthy config archive);
    cbn [app]; repeat constructor; cbn [In]; simpl;
    intuition discriminate.
Qed.

(** On a server without tools the whole domain is registered. *)
Lemma registered_new_server config v :
  registeredTools IDEATE_API_URL fetch JSON_stringify JS_String toLowerCase nowISO
    config v
  = tools config v.
Proof.
  unfold registeredTools. rewrite register_each, registerEach_new.
  - reflexivity.
  - apply tools_names_distinct.
  - intros t _ [].
Qed.

End Registration.

End RegistrationFacts.

(* ===================================================================== *)
(** * Properties of the derived contracts                                  *)
(* ===================================================================== *)

Module ContractProperties.
Import GenericTools Vocabulary.

(** [describe] and [optional] seen from [accepts]. *)
Lemma accepts_describe s d v : accepts (z_describe s d) v = accepts s v.
Proof. reflexivity. Qed.

Lemma accepts_optional_present s v :
  accepts (z_optional s) (Some v) = accepts s (Some v).
Proof. reflexivity. Qed.

Lemma accepts_optional_absent s : accepts (z_optional s) None = true.
Proof. reflexivity. Qed.

Lemma fieldToZodSchema_number f :
  type f = "number" ->
  fieldToZodSchema f =
    z_describe
      (if negb (truthyFlag (required f)) then z_optional (ZNumber (numberChecks f))
       else ZNumber (numberChecks f))
      (match orString (helpText f) (Some (label f)) with Some d => d | None => "" end).
Proof.
  intros Ht. unfold fieldToZodSchema, numberChecks. rewrite Ht. simpl.
  destruct (min f), (max f); reflexivity.
Qed.

Lemma numberChecks_hold f x :
  forallb (checkHolds x) (numberChecks f) = true <->
  (forall lo, min f = Some lo -> (lo <= x)%Q)
  /\ (forall hi, max f = Some hi -> (x <= hi)%Q).
Proof.
  unfold numberChecks. rewrite forallb_app, andb_true_iff.
  destruct (min f) as [lo|], (max f) as [hi|]; simpl;
    rewrite ?andb_true_r, ?Qle_bool_iff; split.
  all: try (intros [H1 H2]; split; intros ? [= <-]; assumption).
  all: try (intros [H1 H2]; split; auto; try (intros ? [=])).
Qed.

(** C4.  A field of type [number]: its contract, in the create input and
    (made optional) in the update input, accepts a present value exactly when
    the value is a number [x] with [min <= x <= max], both ends inclusive, an
    undeclared bound imposing nothing; every value that is not a number is
    rejected. *)
Theorem number_contract_accepts_exactly_the_range (f : FieldConfig) (v : JSON) :
  type f = "number" ->
  let inRange :=
    exists x, v = JNum x
      /\ (forall lo, min f = Some lo -> (lo <= x)%Q)
      /\ (forall hi, max f = Some hi -> (x <= hi)%Q) in
  (accepts (fieldToZodSchema f) (Some v) = true <-> inRange)
  /\ (accepts (z_optional (fieldToZodSchema f)) (Some v) = true <-> inRange).
Proof.
  intros Ht inRange. rewrite accepts_optional_present.
  assert (accepts (fieldToZodSchema f) (Some v) = true <-> inRange) as Hiff; [|tauto].
  rewrite (fieldToZodSchema_number f Ht), accepts_describe.
  assert (accepts (ZNumber (numberChecks f)) (Some v) = true <-> inRange) as Hnum.
  { unfold inRange. destruct v; simpl;
      try (split; [discriminate | intros (x0 & [=] & _)]).
    rewrite numberChecks_hold. split.
    - intros H. exists x. split; [reflexivity | exact H].
    - intros (x0 & [= <-] & H). exact H. }
  destruct (negb (truthyFlag (required f)));
    [rewrite accepts_optional_present|]; exact Hnum.
Qed.

Lemma number_contract_witness :
  type Samples.priceField = "number" /\
  let inRange :=
    exists x, JNum 25 = JNum x
      /\ (forall lo, min Samples.priceField = Some lo -> (lo <= x)%Q)
      /\ (forall hi, max Samples.priceField = Some hi -> (x <= hi)%Q) in
  (accepts (fieldToZodSchema Samples.priceField) (Some (JNum 25)) = true <-> inRange)
  /\ (accepts (z_optional (fieldToZodSchema Samples.priceField)) (Some (JNum 25)) = true
      <-> inRange).
Proof.
  split; [reflexivity|].
  apply (number_contract_accepts_exactly_the_range Samples.priceField (JNum 25)).
  reflexivity.
Defined.

(** ** Temporal fields *)

Lemma fieldToZodSchema_temporal f :
  type f = "date" \/ type f = "datetime" ->
  fieldToZodSchema f =
    z_describe
      (if negb (truthyFlag (required f)) then z_optional z_string else z_string)
      (match orString (helpText f) (Some (label f)) with Some d => d | None => "" end).
Proof.
  intros [Ht|Ht]; unfold fieldToZodSchema; rewrite Ht; reflexivity.
Qed.

Lemma accepts_string_iff v : accepts z_string (Some v) = true <-> exists s, v = JStr s.
Proof.
  destruct v; simpl; split; try discriminate; try (intros [s0 [=]]); eauto.
Qed.

(** C5, as the code has it.  A field of type [date] or [datetime] is given
    the plain string contract: in the create input and in the update input a
    present value is accepted exactly when it is a string, whatever the
    string spells; values of any other kind are rejected. *)
Theorem temporal_contract_accepts_exactly_the_strings (f : FieldConfig) (v : JSON) :
  type f = "date" \/ type f = "datetime" ->
  (accepts (fieldToZodSchema f) (Some v) = true <-> exists s, v = JStr s)
  /\ (accepts (z_optional (fieldToZodSchema f)) (Some v) = true <-> exists s, v = JStr s).
Proof.
  intros Ht. rewrite accepts_optional_present.
  rewrite (fieldToZodSchema_temporal f Ht), accepts_describe.
  destruct (negb (truthyFlag (required f)));
    rewrite ?accepts_optional_present; split; apply accepts_string_iff.
Qed.

Lemma temporal_contract_witness :
  (type Samples.releasedField = "date" \/ type Samples.releasedField = "datetime")
  /\ (accepts (fieldToZodSchema Samples.releasedField) (Some (JStr "2024-02-29")) = true
       <-> exists s, JStr "2024-02-29" = JStr s)
  /\ (accepts (z_optional (fieldToZodSchema Samples.releasedField))
         (Some (JStr "2024-02-29")) = true
       <-> exists s, JStr "2024-02-29" = JStr s).
Proof.
  split; [left; reflexivity|].
  apply (temporal_contract_accepts_exactly_the_strings Samples.releasedField).
  left; reflexivity.
Defined.

(** C5, as the claim words it, fails: the text [next tuesday] is neither a
    calendar date nor a full timestamp, and both a [date] field and a
    [datetime] field accept it in the create input. *)
Lemma temporal_contract_accepts_unparseable_text :
  Temporal.parsesAsCalendarDate "next tuesday" = false
  /\ Temporal.parsesAsFullTimestamp "next tuesday" = false
  /\ accepts (fieldToZodSchema Samples.releasedField) (Some (JStr "next tuesday")) = true
  /\ accepts (fieldToZodSchema (Samples.plainField "seenAt" "Seen at" "datetime"))
        (Some (JStr "next tuesday")) = true.
Proof. repeat split. Qed.

End ContractProperties.

(* ===================================================================== *)
(** * Field visibility                                                     *)
(* ===================================================================== *)

Module VisibilityProperties.
Import GenericTypes ConfigLoader.

Lemma lookupProp_app l1 l2 k :
  lookupProp (l1 ++ l2) k =
    match lookupProp l1 k with
    | Some v => Some v
    | None => lookupProp l2 k
    end.
Proof.
  induction l1 as [|[k' v] l1 IH]; simpl; [reflexivity|].
  destruct (String.eqb k' k); [reflexivity | exact IH].
Qed.

Lemma lookupProp_optProp {A} k' (g : A -> JSON) (o : option A) k :
  lookupProp (Encode.optProp k' g o) k = if String.eqb k' k then g <$> o else None.
Proof.
  destruct o as [a|]; simpl; [|destruct (String.eqb k' k); reflexivity].
  destruct (String.eqb k' k); reflexivity.
Qed.

Ltac lookup_encoded :=
  unfold getProp, Encode.field, Encode.domainConfig;
  repeat (rewrite lookupProp_app, ?lookupProp_optProp; simpl);
  rewrite ?lookupProp_optProp; simpl.

Lemma getProp_field_hidden f :
  getProp (Encode.field f) "hidden" = Return (JBool <$> hidden f).
Proof. lookup_encoded. destruct (required f), (hidden f); reflexivity. Qed.

Lemma getProp_field_showInList f :
  getProp (Encode.field f) "showInList" = Return (JBool <$> showInList f).
Proof.
  lookup_encoded. destruct (required f), (hidden f), (showInList f); reflexivity.
Qed.

Lemma getProp_field_showInDetail f :
  getProp (Encode.field f) "showInDetail" = Return (JBool <$> showInDetail f).
Proof.
  lookup_encoded.
  destruct (required f), (hidden f), (showInList f), (showInDetail f); reflexivity.
Qed.

Lemma getProp_domainConfig_fields c :
  getProp (Encode.domainConfig c) "fields"
  = Return (Some (JArr (map Encode.field (fields c)))).
Proof.
  lookup_encoded.
  destruct (icon c), (description c), (branding c), (features c); reflexivity.
Qed.

Lemma filterM_map_pure {A B} (g : A -> B) (p : B -> Outcome bool) (q : A -> bool) l :
  (forall x, p (g x) = Return (q x)) ->
  filterM p (map g l) = Return (map g (List.filter q l)).
Proof.
  intros Hp. induction l as [|x l IH]; simpl; [reflexivity|].
  rewrite Hp, IH. simpl. destruct (q x); reflexivity.
Qed.

Lemma truthy_domainConfig c : truthy (Some (Encode.domainConfig c)) = true.
Proof. reflexivity. Qed.

Lemma filterFields_encoded c (p : JSON -> Outcome bool) (q : FieldConfig -> bool) :
  (forall x, p (Encode.field x) = Return (q x)) ->
  filterFields (Encode.domainConfig c) p
  = Return (map Encode.field (List.filter q (fields c))).
Proof.
  intros Hp. unfold filterFields. rewrite getProp_domainConfig_fields. cbn [bind].
  apply filterM_map_pure, Hp.
Qed.

Lemma truthy_flag_encoded b : truthy (JBool <$> b) = truthyFlag b.
Proof. destruct b as [[]|]; reflexivity. Qed.

(** C10.  Visibility is resolved differently for the two views.  A field
    is selected for a view only if it is not hidden; beyond that, the list
    view selects it only when [showInList] is [true] (absent counts as
    excluded) and the detail view selects it unless [showInDetail] is
    [false] (absent counts as included).  The loader's [getListFields] and
    [getDetailFields] select, from a loaded configuration, exactly the
    fields [shouldShowField] selects for the list and the detail view. *)
Theorem field_visibility_is_asymmetric (f : FieldConfig) (c : DomainConfig) :
  (shouldShowField f ViewList = true <->
     hidden f <> Some true /\ showInList f = Some true)
  /\ (shouldShowField f ViewDetail = true <->
        hidden f <> Some true /\ showInDetail f <> Some false)
  /\ getListFields {| config := Some (Encode.domainConfig c) |}
       = Return (map Encode.field (getFieldsForView c ViewList))
  /\ getDetailFields {| config := Some (Encode.domainConfig c) |}
       = Return (map Encode.field (getFieldsForView c ViewDetail)).
Proof.
  split; [|split; [|split]].
  - unfold shouldShowField.
    destruct (hidden f) as [[]|], (showInList f) as [[]|]; simpl;
      split; try discriminate; try (intros [? ?]; congruence);
      intros _; split; congruence.
  - unfold shouldShowField.
    destruct (hidden f) as [[]|], (showInDetail f) as [[]|]; simpl;
      split; try discriminate; try (intros [? ?]; congruence);
      intros _; split; congruence.
  - unfold getListFields, getFieldsForView. cbn [config].
    rewrite truthy_domainConfig. cbn [negb].
    apply filterFields_encoded. intros x. unfold andNotHidden.
    rewrite getProp_field_showInList, getProp_field_hidden. cbn [bind].
    rewrite !truthy_flag_encoded. unfold shouldShowField.
    destruct (hidden x) as [[]|], (showInList x) as [[]|]; reflexivity.
  - unfold getDetailFields, getFieldsForView. cbn [config].
    rewrite truthy_domainConfig. cbn [negb].
    apply filterFields_encoded. intros x. unfold andNotHidden.
    rewrite getProp_field_showInDetail, getProp_field_hidden. cbn [bind].
    unfold shouldShowField.
    destruct (hidden x) as [[]|], (showInDetail x) as [[]|]; reflexivity.
Qed.

End VisibilityProperties.

(* ===================================================================== *)
(** * Which tools are registered                                           *)
(* ===================================================================== *)

Module GatingProperties.
Import GenericTools Vocabulary.

Lemma notFalse_declared config flag :
  notFalse config flag = true <-> declaredFlag config flag <> Some false.
Proof.
  unfold notFalse, declaredFlag.
  destruct (features config) as [fs|]; [destruct (flag fs) as [[]|]|];
    split; congruence.
Qed.

Lemma isTruthy_declared config flag :
  isTruthy config flag = true <-> declaredFlag config flag = Some true.
Proof.
  unfold isTruthy, declaredFlag.
  destruct (features config) as [fs|]; [destruct (flag fs) as [[]|]|];
    split; simpl; congruence.
Qed.

Section Registration.

Variable IDEATE_API_URL : option string.
Variable fetch : Request -> Outcome Response.
Variables JSON_stringify JS_String : JSON -> string.
Variable toLowerCase : string -> string.
Variable nowISO : string.

Abbreviation registered :=
  (registeredTools IDEATE_API_URL fetch JSON_stringify JS_String toLowerCase nowISO).

(** The names registered, in registration order. *)
Lemma registered_names config v :
  map name (registered config v) =
    ["list_" +:+ domain config; "get_" +:+ domain config]
    ++ (if notFalse config create then ["create_" +:+ domain config] else [])
    ++ (if notFalse config update then ["update_" +:+ domain config] else [])
    ++ (if notFalse config delete then ["delete_" +:+ domain config] else [])
    ++ (if isTruthy config archive
        then ["archive_" +:+ domain config; "restore_" +:+ domain config] else []).
Proof.
  unfold registeredTools, registerGenericTools.
  destruct (notFalse config create), (notFalse config update),
    (notFalse config delete), (isTruthy config archive); reflexivity.
Qed.

Ltac decide_name_membership :=
  repeat match goal with
         | |- context [if ?b then _ else _] => destruct b
         end;
  (cbn [app In]; split;
   [ intros H; repeat (destruct H as [H|H]; [simpl in H; try discriminate|]);
     try reflexivity; try contradiction
   | intros H; try discriminate;
     solve [repeat (first [left; reflexivity | right])] ]).

Lemma name_registered_iff config v (prefix : string) (b : bool) :
  (In (prefix +:+ domain config)
      (["list_" +:+ domain config; "get_" +:+ domain config]
       ++ (if notFalse config create then ["create_" +:+ domain config] else [])
       ++ (if notFalse config update then ["update_" +:+ domain config] else [])
       ++ (if notFalse config delete then ["delete_" +:+ domain config] else [])
       ++ (if isTruthy config archive
           then ["archive_" +:+ domain config; "restore_" +:+ domain config] else []))
   <-> b = true) ->
  In (prefix +:+ domain config) (map name (registered config v)) <-> b = true.
Proof. rewrite registered_names. tauto. Qed.


End Registration.

Example product_tools :
  map name (registeredTools None (fun _ => Throw (mkError "offline")) (fun _ => "")
              (fun _ => "") (fun s => s) "" Samples.products "1")
  = ["list_products"; "get_products"; "create_products"; "update_products";
     "delete_products"].
Proof. reflexivity. Qed.

Example ledger_tools :
  map name (registeredTools None (fun _ => Throw (mkError "offline")) (fun _ => "")
              (fun _ => "") (fun s => s) "" Samples.ledger "1")
  = ["list_ledger"; "get_ledger"; "update_ledger"; "delete_ledger";
     "archive_ledger"; "restore_ledger"].
Proof. reflexivity. Qed.

End GatingProperties.

(* ===================================================================== *)
(** * The input and output contracts derived from a descriptor             *)
(* ===================================================================== *)

Module SchemaProperties.
Import GenericTools Vocabulary.

Lemma isSystemField_spec k :
  isSystemField k = true <->
  k = "id" \/ k = "created_date" \/ k = "updated_date" \/ k = "archived".
Proof.
  unfold isSystemField, includes, systemFields. cbn [existsb].
  rewrite !orb_true_iff, !String.eqb_eq. intuition discriminate.
Qed.

Lemma isContractKey_spec k :
  isContractKey k = true <-> isSystemField k = false /\ k <> "__proto__".
Proof.
  unfold isContractKey. rewrite andb_true_iff, !negb_true_iff, String.eqb_neq. tauto.
Qed.

Lemma addField_spec acc f :
  addField acc f =
    if isContractKey (key f)
    then {| entitySchema := <[key f := fieldToZodSchema f]> (entitySchema acc);
            createSchema := <[key f := fieldToZodSchema f]> (createSchema acc) |}
    else acc.
Proof.
  unfold addField, assign, isContractKey, isSystemField.
  destruct acc, (includes systemFields (key f)), (String.eqb (key f) "__proto__");
    reflexivity.
Qed.

Lemma foldl_addField_system fs acc k :
  isContractKey k = false ->
  entitySchema (foldl addField acc fs) !! k = entitySchema acc !! k
  /\ createSchema (foldl addField acc fs) !! k = createSchema acc !! k.
Proof.
  intros Hk. revert acc. induction fs as [|f fs IH]; intros acc; [done|].
  cbn [foldl]. destruct (IH (addField acc f)) as [-> ->].
  rewrite addField_spec.
  destruct (isContractKey (key f)) eqn:Hf; cbn [entitySchema createSchema]; [|done].
  assert (key f <> k) by congruence.
  rewrite !lookup_insert_ne by done. done.
Qed.

Lemma isSystemField_no_contract_key k : isSystemField k = true -> isContractKey k = false.
Proof. unfold isContractKey. by intros ->. Qed.

Lemma foldl_addField_keys fs acc k :
  is_Some (createSchema (foldl addField acc fs) !! k) <->
  is_Some (createSchema acc !! k)
  \/ exists f, f ∈ fs /\ key f = k /\ isContractKey k = true.
Proof.
  revert acc. induction fs as [|f fs IH]; intros acc; cbn [foldl].
  - split; [auto|]. intros [H|(f & Hf & _)]; [done|]. by apply elem_of_nil in Hf.
  - rewrite IH. rewrite addField_spec.
    destruct (isContractKey (key f)) eqn:Hf; cbn [createSchema].
    + rewrite lookup_insert. split.
      * intros [H|(g & Hg & Hk & Hs)].
        -- case_decide as Hkey.
           ++ right. exists f. rewrite elem_of_cons. subst k. auto.
           ++ by left.
        -- right. exists g. rewrite elem_of_cons. auto.
      * intros [H|(g & Hg & Hk & Hs)].
        -- left. case_decide; [done|exact H].
        -- apply elem_of_cons in Hg as [->|Hg].
           ++ left. rewrite decide_True by done. done.
           ++ right. by exists g.
    + split.
      * intros [H|(g & Hg & Hk & Hs)]; [by left|].
        right. exists g. rewrite elem_of_cons. auto.
      * intros [H|(g & Hg & Hk & Hs)]; [by left|].
        apply elem_of_cons in Hg as [->|Hg]; [congruence|].
        right. by exists g.
Qed.

Lemma foldl_addField_field fs acc f :
  NoDup (map key fs) -> f ∈ fs -> isContractKey (key f) = true ->
  entitySchema (foldl addField acc fs) !! key f = Some (fieldToZodSchema f)
  /\ createSchema (foldl addField acc fs) !! key f = Some (fieldToZodSchema f).
Proof.
  intros Hnd Hin Hsys. revert acc.
  induction fs as [|g fs IH] using rev_ind; intros acc.
  - by apply elem_of_nil in Hin.
  - rewrite foldl_snoc. rewrite map_app in Hnd. cbn [map] in Hnd.
    apply NoDup_app in Hnd as (Hnd & Hfresh & _).
    rewrite addField_spec.
    apply elem_of_app in Hin as [Hin|Hin].
    + assert (key g <> key f) as Hne.
      { intros E. apply (Hfresh (key f)).
        - apply list_elem_of_In, in_map, list_elem_of_In, Hin.
        - rewrite <- E. apply list_elem_of_singleton. done. }
      destruct (isContractKey (key g)); cbn [entitySchema createSchema].
      * rewrite !lookup_insert_ne by done. by apply IH.
      * by apply IH.
    + apply list_elem_of_singleton in Hin as ->. rewrite Hsys.
      cbn [entitySchema createSchema]. by rewrite !lookup_insert_eq.
Qed.

Lemma updateInputSchema_lookup lower (cs : gmap string ZodSchema) k :
  updateInputSchema lower cs !! k =
    match cs !! k with
    | Some s => Some (z_optional s)
    | None =>
        if decide (k = "id")
        then Some (z_describe z_string ("The ID of the " +:+ lower +:+ " to update"))
        else None
    end.
Proof.
  unfold updateInputSchema. rewrite lookup_union, lookup_fmap.
  destruct (cs !! k) as [s|]; cbn.
  - by destruct (_ !! k).
  - case_decide as Hk.
    + subst k. by rewrite lookup_singleton_eq.
    + by rewrite lookup_singleton_ne.
Qed.

(** With one of the six type tokens the derived schema is mandatory exactly
    for a field declared required. *)
Lemma mandatory_iff_required f :
  validType (type f) = true ->
  mandatory (fieldToZodSchema f) = true <-> required f = Some true.
Proof.
  unfold validType, fieldTypes. intros Ht. cbn [existsb] in Ht.
  rewrite !orb_true_iff, !String.eqb_eq in Ht.
  unfold fieldToZodSchema, mandatory.
  destruct Ht as [Ht|[Ht|[Ht|[Ht|[Ht|[Ht|Ht]]]]]]; [..|discriminate];
    rewrite Ht; cbn -[accepts];
    destruct (min f), (max f), (required f) as [[]|]; cbn; split; congruence.
Qed.

Section Contracts.

Variable IDEATE_API_URL : option string.
Variable fetch : Request -> Outcome Response.
Variables JSON_stringify JS_String : JSON -> string.
Variable toLowerCase : string -> string.
Variable nowISO : string.

Abbreviation registered :=
  (registeredTools IDEATE_API_URL fetch JSON_stringify JS_String toLowerCase nowISO).

(** The shapes built from the descriptor are the ones the tools carry. *)
Lemma registered_tool_schemas config v t :
  In t (registered config v) ->
  (name t = "create_" +:+ domain config ->
     inputSchema t = createSchema (buildShapes config))
  /\ (name t = "update_" +:+ domain config ->
       inputSchema t =
         updateInputSchema (labelLower toLowerCase config)
           (createSchema (buildShapes config)))
  /\ (outputSchema t = OutList (entitySchema (buildShapes config))
      \/ outputSchema t = OutItem (entitySchema (buildShapes config))
      \/ outputSchema t = OutSuccess).
Proof.
  unfold registeredTools, registerGenericTools.
  destruct (notFalse config create), (notFalse config update),
    (notFalse config delete), (isTruthy config archive);
    cbn [app In]; intros H;
    repeat (destruct H as [<-|H]); try contradiction;
    cbn [name inputSchema outputSchema];
    (split; [intros E; simpl in E; try discriminate; reflexivity|]);
    (split; [intros E; simpl in E; try discriminate; reflexivity|]);
    auto.
Qed.

(** Outside the domain schemas the shapes still follow the code: a type
    token that is none of the six yields the [any] contract, which nothing
    makes mandatory, and of two fields with one key the later one is kept. *)
Example unknown_type_is_not_mandatory :
  mandatory (fieldToZodSchema
               {| key := "price"; label := "Price"; type := "currency";
                  required := Some true; hidden := None; showInList := None;
                  showInDetail := None; placeholder := None; helpText := None;
                  min := None; max := None; default := None |}) = false.
Proof. reflexivity. Qed.

Example later_duplicate_wins :
  createSchema (buildShapes Samples.clashing) !! "name"
  = Some (fieldToZodSchema (Samples.plainField "name" "Title" "string")).
Proof. vm_compute. reflexivity. Qed.

Example product_contracts :
  fieldToZodSchema Samples.priceField
  = ZDescribed (ZNumber [CheckMin 0; CheckMax 100000]) "Unit price"
  /\ fieldToZodSchema Samples.stockField
     = ZDescribed (ZOptional (ZNumber [CheckMin 0])) "Stock"
  /\ dom (createSchema (buildShapes Samples.products))
     = {[ "name"; "price"; "stock"; "released" ]}
  /\ dom (entitySchema (buildShapes Samples.products))
     = {[ "id"; "archived"; "created_date"; "updated_date";
          "name"; "price"; "stock"; "released" ]}.
Proof. repeat split; vm_compute; reflexivity. Qed.

(** X28.  For a domain schema (field keys unique, every type one of the six
    tokens) none of whose fields is keyed [__proto__]: the create-input
    contract has a key exactly for the fields of
    the descriptor that are not system fields, each carrying the schema of
    its field and mandatory iff the field is declared required; the
    update-input contract has a mandatory [id] that accepts exactly strings,
    and besides it the same keys, every one optional and otherwise accepting
    what the create contract accepts; no system field is a key of the create
    contract, none but [id] is a key of the update contract, and each of the
    four is a mandatory key of the entity contract.  These shapes are the
    ones the registered [create] and [update] tools take as input and the
    ones the tools' output contracts are built from. *)
Theorem contracts_follow_the_descriptor (config : DomainConfig) (manifestVersion : string) :
  isDomainSchema config ->
  (forall f, f ∈ fields config -> key f <> "__proto__") ->
  let createInput := createSchema (buildShapes config) in
  let updateInput := updateInputSchema (labelLower toLowerCase config) createInput in
  let entity := entitySchema (buildShapes config) in
  (forall k, is_Some (createInput !! k) <->
             exists f, f ∈ fields config /\ key f = k /\ isSystemField k = false)
  /\ (forall f, f ∈ fields config -> isSystemField (key f) = false ->
        createInput !! key f = Some (fieldToZodSchema f)
        /\ (mandatory (fieldToZodSchema f) = true <-> required f = Some true)
        /\ updateInput !! key f = Some (z_optional (fieldToZodSchema f))
        /\ mandatory (z_optional (fieldToZodSchema f)) = false
        /\ (forall v, accepts (z_optional (fieldToZodSchema f)) (Some v)
                      = accepts (fieldToZodSchema f) (Some v))
        /\ entity !! key f = Some (fieldToZodSchema f))
  /\ (exists idSchema, updateInput !! "id" = Some idSchema
        /\ mandatory idSchema = true
        /\ forall v, accepts idSchema (Some v) = true <-> exists s, v = JStr s)
  /\ (forall k, is_Some (updateInput !! k) <-> k = "id" \/ is_Some (createInput !! k))
  /\ (forall k, isSystemField k = true ->
        createInput !! k = None
        /\ (k <> "id" -> updateInput !! k = None)
        /\ exists s, entity !! k = Some s /\ mandatory s = true)
  /\ (forall t, In t (registered config manifestVersion) ->
        (name t = "create_" +:+ domain config -> inputSchema t = createInput)
        /\ (name t = "update_" +:+ domain config -> inputSchema t = updateInput)
        /\ (outputSchema t = OutList entity \/ outputSchema t = OutItem entity
            \/ outputSchema t = OutSuccess)).
Proof.
  intros [Hnd Hty] Hproto createInput updateInput entity.
  assert (forall k, isSystemField k = true -> createInput !! k = None) as Hsys.
  { intros k Hk. subst createInput. unfold buildShapes.
    destruct (foldl_addField_system (fields config) initialShapes k
                (isSystemField_no_contract_key k Hk)) as [_ ->].
    apply lookup_empty. }
  split; [|split; [|split; [|split; [|split]]]].
  - intros k. subst createInput. unfold buildShapes. rewrite foldl_addField_keys.
    cbn [initialShapes createSchema]. rewrite lookup_empty. split.
    + intros [[? [=]]|(f & Hf & Hk & Hc)].
      apply isContractKey_spec in Hc as [Hs _]. by exists f.
    + intros (f & Hf & Hk & Hs). right. exists f. split; [exact Hf|].
      split; [exact Hk|]. apply isContractKey_spec. split; [exact Hs|].
      rewrite <- Hk. by apply Hproto.
  - intros f Hf Hs.
    assert (isContractKey (key f) = true) as Hc.
    { apply isContractKey_spec. split; [exact Hs|by apply Hproto]. }
    destruct (foldl_addField_field (fields config) initialShapes f Hnd Hf Hc)
      as [Hent Hcre].
    fold (buildShapes config) in Hent, Hcre.
    split; [exact Hcre|]. split.
    { apply mandatory_iff_required.
      rewrite Forall_forall in Hty. apply Hty, Hf. }
    split.
    { subst updateInput. rewrite updateInputSchema_lookup.
      subst createInput. by rewrite Hcre. }
    repeat split; [exact Hent].
  - subst updateInput. eexists. rewrite updateInputSchema_lookup.
    rewrite (Hsys "id") by reflexivity. rewrite decide_True by reflexivity.
    split; [reflexivity|]. split; [reflexivity|].
    intros v. destruct v; cbn; split; try discriminate; try (intros [? [=]]); eauto.
  - intros k. subst updateInput. rewrite updateInputSchema_lookup.
    destruct (createInput !! k) as [s|] eqn:Hk.
    + split; [intros _; right; by eexists | intros _; by eexists].
    + case_decide as Hid; split.
      * auto.
      * intros _; by eexists.
      * intros [? [=]].
      * intros [?|[? [=]]]; contradiction.
  - intros k Hk. split; [by apply Hsys|]. split.
    + intros Hid. subst updateInput. rewrite updateInputSchema_lookup.
      rewrite (Hsys k Hk). by rewrite decide_False.
    + subst entity. unfold buildShapes.
      destruct (foldl_addField_system (fields config) initialShapes k
                  (isSystemField_no_contract_key k Hk)) as [-> _].
      apply isSystemField_spec in Hk as [ -> | [ -> | [ -> | -> ] ] ];
        vm_compute; eexists; split; reflexivity.
  - intros t Ht. exact (registered_tool_schemas config manifestVersion t Ht).
Qed.

End Contracts.

(** C1, at the input where the code misses it.  [protoKeyed] is a domain
    schema (unique keys, valid types) with a required field keyed
    [__proto__], which is no system key.  The assignment
    [createSchema[field.key] = ...] that is to add the field runs the
    prototype setter instead: the create, update and entity contracts have
    no such key, and the registered [create] tool takes only [name]. *)
Theorem proto_keyed_field_gets_no_contract :
  isDomainSchema Samples.protoKeyed
  /\ Samples.protoField ∈ fields Samples.protoKeyed
  /\ isSystemField (key Samples.protoField) = false
  /\ required Samples.protoField = Some true
  /\ createSchema (buildShapes Samples.protoKeyed) !! key Samples.protoField = None
  /\ updateInputSchema "product" (createSchema (buildShapes Samples.protoKeyed))
       !! key Samples.protoField = None
  /\ entitySchema (buildShapes Samples.protoKeyed) !! key Samples.protoField = None
  /\ dom (createSchema (buildShapes Samples.protoKeyed)) = ({[ "name" ]} : gset string)
  /\ (forall t,
        In t (registeredTools None (fun _ => Throw (mkError "offline")) (fun _ => "")
                (fun _ => "") (fun _ => "product") "" Samples.protoKeyed "1") ->
        name t = "create_products" ->
        dom (inputSchema t) = ({[ "name" ]} : gset string)).
Proof.
  split.
  { split.
    - apply NoDup_ListNoDup. repeat constructor; cbn; intuition discriminate.
    - repeat constructor. }
  split; [cbn; rewrite !elem_of_cons; auto|].
  do 5 (split; [vm_compute; reflexivity|]).
  split; [vm_compute; reflexivity|].
  intros t Ht Hn.
  destruct (registered_tool_schemas None (fun _ => Throw (mkError "offline"))
              (fun _ => "") (fun _ => "") (fun _ => "product") ""
              Samples.protoKeyed "1" t Ht) as [Hc _].
  rewrite (Hc Hn). vm_compute. reflexivity.
Qed.

(** The product catalogue is a domain schema; its price field is mandatory
    in the create input, optional in the update input. *)
Lemma contracts_witness :
  isDomainSchema Samples.products
  /\ (forall f, f ∈ fields Samples.products -> key f <> "__proto__")
  /\ createSchema (buildShapes Samples.products) !! "price"
      = Some (fieldToZodSchema Samples.priceField)
  /\ (mandatory (fieldToZodSchema Samples.priceField) = true
      <-> required Samples.priceField = Some true)
  /\ updateInputSchema "product" (createSchema (buildShapes Samples.products)) !! "price"
      = Some (z_optional (fieldToZodSchema Samples.priceField)).
Proof.
  assert (isDomainSchema Samples.products) as Hschema.
  { split.
    - apply NoDup_ListNoDup. repeat constructor; cbn; intuition discriminate.
    - repeat constructor. }
  assert (forall f, f ∈ fields Samples.products -> key f <> "__proto__") as Hproto.
  { intros f Hf. cbn in Hf. rewrite !elem_of_cons, elem_of_nil in Hf.
    destruct Hf as [ -> | [ -> | [ -> | [ -> | [] ] ] ] ]; discriminate. }
  split; [exact Hschema|]. split; [exact Hproto|].
  destruct (contracts_follow_the_descriptor None (fun _ => Throw (mkError "offline"))
              (fun _ => "") (fun _ => "") (fun _ => "product") "2024-01-01T00:00:00.000Z"
              Samples.products "1" Hschema Hproto) as (_ & Hfields & _).
  destruct (Hfields Samples.priceField) as (Hc & Hm & Hu & _).
  - cbn. rewrite !elem_of_cons. auto.
  - reflexivity.
  - auto.
Defined.

End SchemaProperties.

(* ===================================================================== *)
(** * What the handlers return                                             *)
(* ===================================================================== *)

Module HandlerProperties.
Import GenericTools Vocabulary Samples.

Section Handlers.

Variable IDEATE_API_URL : option string.
Variable fetch : Request -> Outcome Response.
Variables JSON_stringify JS_String : JSON -> string.
Variable toLowerCase : string -> string.
Variable nowISO : string.

Abbreviation makeApiRequest' := (makeApiRequest IDEATE_API_URL fetch).
Abbreviation registered :=
  (registeredTools IDEATE_API_URL fetch JSON_stringify JS_String toLowerCase nowISO).

Lemma makeApiRequest_outcome endpoint options :
  makeApiRequest' endpoint options =
    match fetch (requestFor IDEATE_API_URL endpoint options) with
    | Throw e => Throw e
    | Return resp =>
        if ok resp then response_json resp else Throw (mkError (statusLine resp))
    end.
Proof.
  unfold makeApiRequest, requestFor, statusLine.
  destruct (fetch _) as [e|resp]; cbn [bind]; [reflexivity|].
  destruct (ok resp); reflexivity.
Qed.

(** The name a tool is registered under and the arguments of a call fix
    the invocation. *)
Lemma invocation_unique config i j :
  toolNameOf config i = toolNameOf config j ->
  argumentsOf i = argumentsOf j ->
  i = j.
Proof.
  destruct i as [? ?|?|?|? ?|[] ?], j as [? ?|?|?|? ?|[] ?];
    cbn [toolNameOf argumentsOf]; intros Hn Hc;
    try discriminate Hc; try (simpl in Hn; discriminate Hn);
    injection Hc; intros; subst; reflexivity.
Qed.

(** A call of a registered tool is the run of the invocation that its name
    and the arguments of the call make. *)
Lemma registered_tool_runs
      (config : DomainConfig) (manifestVersion : string)
      (t : Tool) (call : Call) (result : Outcome ToolResult) :
  In t (registered config manifestVersion) ->
  invoke (handler t) call = Some result ->
  exists i,
    name t = toolNameOf config i
    /\ call = argumentsOf i
    /\ result = runTool IDEATE_API_URL fetch JSON_stringify JS_String toLowerCase nowISO
                  config i.
Proof.
  rewrite RegistrationFacts.registered_new_server.
  unfold domainTools, listTool, getTool, createTool, updateTool, deleteTool,
    archiveTool, restoreTool.
  destruct (notFalse config create), (notFalse config update),
    (notFalse config delete), (isTruthy config archive);
    cbn [app In]; intros H;
    repeat (destruct H as [<-|H]); try contradiction;
    cbn [handler name]; destruct call; cbn [invoke]; intros [= <-];
    first [ by eexists (InvokeList _ _)
          | by eexists (InvokeGet _)
          | by eexists (InvokeCreate _)
          | by eexists (InvokeUpdate _ _)
          | by eexists (InvokeSuccess DeleteTool _)
          | by eexists (InvokeSuccess ArchiveTool _)
          | by eexists (InvokeSuccess RestoreTool _) ].
Qed.

(** What a failing backend makes of a run. *)
Lemma run_failure (config : DomainConfig) (i : Invocation) :
  match fetch (requestOf IDEATE_API_URL JSON_stringify config i) with
  | Throw e =>
      runTool IDEATE_API_URL fetch JSON_stringify JS_String toLowerCase nowISO config i
      = Throw e
  | Return resp =>
      ok resp = false ->
      runTool IDEATE_API_URL fetch JSON_stringify JS_String toLowerCase nowISO config i
      = Throw (mkError (statusLine resp))
  end.
Proof.
  destruct i as [includeArchived archivedOnly|id|input|id updates|[] id];
    unfold runTool, requestOf, getRequest, createRequest, updateRequest, successRequest,
      successToolHandler, listHandler, getHandler, createHandler, updateHandler,
      deleteHandler, archiveHandler, restoreHandler, successHandler, listEndpoint;
    cbv zeta; cbn [successSuffix successMethod];
    rewrite makeApiRequest_outcome;
    (destruct (fetch _) as [e|resp]; [reflexivity|intros ->; reflexivity]).
Qed.

(** C6.  Whenever the backend answers a list request with an array, the
    structured content of the list tool's result is [{items, count}] with
    [items] the backend's array as it came, same elements in the same order,
    and [count] the number of its elements. *)
Theorem list_result_counts_the_backend_items
        (config : DomainConfig) (includeArchived archivedOnly : option bool)
        (resp : Response) (items : list JSON) :
  fetch (requestFor IDEATE_API_URL
           (listEndpoint config includeArchived archivedOnly) noOptions)
    = Return resp ->
  ok resp = true ->
  json_body resp = Some (JArr items) ->
  exists r,
    listHandler IDEATE_API_URL fetch JS_String toLowerCase nowISO config
      includeArchived archivedOnly = Return r
    /\ structuredContent r
       = SCList (JArr items) (Some (JNum (inject_Z (Z.of_nat (length items))))).
Proof.
  intros Hfetch Hok Hbody. unfold listHandler.
  fold (listEndpoint config includeArchived archivedOnly).
  rewrite makeApiRequest_outcome, Hfetch, Hok. unfold response_json. rewrite Hbody.
  cbn [bind getProp interpolate ToString convertible]. eexists. split; reflexivity.
Qed.

(** C7, as the code has it.  A call of a registered tool is the run of one
    invocation, fixed by the name of the tool and the arguments of the call,
    and that run sends one request to the backend.  A failure of that request
    comes back as a thrown [Error]: a rejected [fetch] is passed through
    unchanged, and a response whose status is outside 200..299 becomes
    [Error("API request failed: <status> <statusText>")], whatever the body
    of the response says. *)
Theorem failures_surface_as_status_line_errors
        (config : DomainConfig) (manifestVersion : string)
        (t : Tool) (call : Call) (result : Outcome ToolResult) :
  In t (registered config manifestVersion) ->
  invoke (handler t) call = Some result ->
  exists i,
    name t = toolNameOf config i
    /\ call = argumentsOf i
    /\ result = runTool IDEATE_API_URL fetch JSON_stringify JS_String toLowerCase nowISO
                  config i
    /\ match fetch (requestOf IDEATE_API_URL JSON_stringify config i) with
       | Throw e => result = Throw e
       | Return resp => ok resp = false -> result = Throw (mkError (statusLine resp))
       end.
Proof.
  intros Ht Hcall.
  destruct (registered_tool_runs config manifestVersion t call result Ht Hcall)
    as (i & Hn & Hc & ->).
  exists i. repeat split; try assumption. apply run_failure.
Qed.

End Handlers.

Lemma list_result_witness :
  exists r,
    listHandler None (answering twoProducts) (fun _ => "2") (fun s => s)
      "2024-01-01T00:00:00.000Z" Samples.products None (Some true) = Return r
    /\ structuredContent r = SCList (JArr [mouse; keyboard]) (Some (JNum 2)).
Proof.
  apply (list_result_counts_the_backend_items None (answering twoProducts)
           (fun _ => "2") (fun s => s) "2024-01-01T00:00:00.000Z"
           Samples.products None (Some true) twoProducts [mouse; keyboard]);
    reflexivity.
Defined.

(** The get tool of the product catalogue, asked for a product the backend
    does not have. *)
Lemma failures_witness :
  getHandler None (answering notFound) (fun s => s) "2024-01-01T00:00:00.000Z"
    Samples.products "p-404"
  = Throw (mkError (statusLine notFound)).
Proof.
  destruct (failures_surface_as_status_line_errors None (answering notFound)
              (fun _ => "{}") (fun _ => "2") (fun s => s) "2024-01-01T00:00:00.000Z"
              Samples.products "1"
              (getTool None (answering notFound) (fun s => s)
                 "2024-01-01T00:00:00.000Z" Samples.products "1")
              (CallId "p-404")
              (getHandler None (answering notFound) (fun s => s)
                 "2024-01-01T00:00:00.000Z" Samples.products "p-404"))
    as (i & Hn & Hc & Hr & Hm).
  - right; left; reflexivity.
  - reflexivity.
  - apply Hm. reflexivity.
Defined.

(** C7, as the claim words it, fails.  The backend answers with NotFound,
    ValidationError and FeatureDisabled, each carrying its code in the body;
    the get and create tools of the product catalogue and the archive tool of
    the ledger throw an [Error] whose whole message is the status line, and
    no result is returned. *)
Lemma failure_codes_are_not_surfaced :
  getHandler None (answering notFound) (fun s => s) "2024-01-01T00:00:00.000Z"
    Samples.products "p-404"
  = Throw (mkError "API request failed: 404 Not Found")
  /\ createHandler None (answering validationError) (fun _ => "{}") (fun s => s)
       "2024-01-01T00:00:00.000Z" Samples.products (JObj [("price", JNum (-1))])
     = Throw (mkError "API request failed: 422 Unprocessable Entity")
  /\ archiveHandler None (answering featureDisabled) "2024-01-01T00:00:00.000Z"
       Samples.ledger "p-1"
     = Throw (mkError "API request failed: 403 Forbidden").
Proof. repeat split. Qed.

End HandlerProperties.

(* ===================================================================== *)
(** * Loading a descriptor                                                 *)
(* ===================================================================== *)

Module LoaderProperties.
Import ConfigLoader Vocabulary Samples.

Section Loading.

Variable resolve : string -> string.
Variable JSON_parse : string -> Outcome JSON.

Lemma load_cached w configPath self :
  truthy (config self) = true ->
  load resolve JSON_parse w configPath self = (config self, self).
Proof. intros H. unfold load. rewrite H. reflexivity. Qed.

Lemma load_reads w configPath self content :
  truthy (config self) = false ->
  reads resolve w configPath content ->
  load resolve JSON_parse w configPath self =
    match bind (JSON_parse content)
            (fun data => bind (basicValidation data) (fun _ => Return data)) with
    | Return data =>
        match logLoaded data with
        | Return _ => (Some data, {| config := Some data |})
        | Throw _ => (None, {| config := Some data |})
        end
    | Throw _ => (None, self)
    end.
Proof.
  intros Hc (path & Hpath & Hne & Hfile). unfold load. rewrite Hc, Hpath.
  apply String.eqb_neq in Hne. rewrite Hne, Hfile. reflexivity.
Qed.

Lemma basicValidation_missing data :
  missingRequiredKey data -> exists e, basicValidation data = Throw e.
Proof.
  intros (k & Hk & Hget). unfold basicValidation.
  assert (forall k', exists o, getProp data k' = Return o) as Hany.
  { intros k'. destruct data; cbn in Hget |- *; try discriminate; eauto. }
  cbn in Hk. destruct Hk as [<-|[<-|[<-|[<-|[]]]]].
  - rewrite Hget. cbn. eauto.
  - destruct (Hany "domain") as [o ->]. cbn [bind].
    destruct (negb (truthy o)); [eauto|]. rewrite Hget. cbn. eauto.
  - destruct (Hany "domain") as [o ->]. cbn [bind].
    destruct (negb (truthy o)); [eauto|].
    destruct (Hany "label") as [o' ->]. cbn [bind].
    destruct (negb (truthy o')); [eauto|]. rewrite Hget. cbn. eauto.
  - destruct (Hany "domain") as [o ->]. cbn [bind].
    destruct (negb (truthy o)); [eauto|].
    destruct (Hany "label") as [o' ->]. cbn [bind].
    destruct (negb (truthy o')); [eauto|].
    destruct (Hany "labelPlural") as [o'' ->]. cbn [bind].
    destruct (negb (truthy o'')); [eauto|]. rewrite Hget. cbn. eauto.
Qed.

Lemma basicValidation_object data :
  basicValidation data = Return tt -> truthy (Some data) = true.
Proof.
  unfold basicValidation.
  destruct data; cbn; try discriminate; reflexivity.
Qed.

Lemma truthy_nonempty s : s <> "" -> truthy (Some (JStr s)) = true.
Proof. intros H. cbn. apply String.eqb_neq in H. by rewrite H. Qed.

Lemma basicValidation_encoded c :
  domain c <> "" -> labelSingular c <> "" -> labelPlural c <> "" ->
  basicValidation (Encode.domainConfig c) = Return tt.
Proof.
  intros Hd Hl Hp. unfold basicValidation.
  rewrite VisibilityProperties.getProp_domainConfig_fields.
  assert (getProp (Encode.domainConfig c) "domain" = Return (Some (JStr (domain c))))
    as -> by reflexivity.
  assert (getProp (Encode.domainConfig c) "label" = Return (Some (JStr (labelSingular c))))
    as -> by reflexivity.
  assert (getProp (Encode.domainConfig c) "labelPlural"
          = Return (Some (JStr (labelPlural c)))) as -> by reflexivity.
  cbn [bind]. rewrite !truthy_nonempty by assumption. reflexivity.
Qed.

(** The names of a typed descriptor are strings: the log line is written. *)
Lemma logLoaded_encoded c : logLoaded (Encode.domainConfig c) = Return tt.
Proof. reflexivity. Qed.

(** C2, as the code has it.  When the loader has no configuration yet and
    reads a descriptor file that parses to [data]: if [data] lacks one of
    the keys [domain], [label], [labelPlural], [fields], [load] returns
    [null] and the loader stays without a configuration; if [data] is a
    descriptor carrying the four keys with non-empty names, [load] returns it
    and keeps it, whatever its field keys and type tokens are: duplicate keys
    and unknown type tokens are not looked at. *)
Theorem load_checks_only_the_top_level_keys
        (w : World) (configPath : option string) (self : Loader)
        (content : string) (data : JSON) :
  config self = None ->
  reads resolve w configPath content ->
  JSON_parse content = Return data ->
  (missingRequiredKey data ->
     load resolve JSON_parse w configPath self = (None, self))
  /\ (forall c : DomainConfig,
        data = Encode.domainConfig c ->
        domain c <> "" -> labelSingular c <> "" -> labelPlural c <> "" ->
        load resolve JSON_parse w configPath self
        = (Some data, {| config := Some data |})).
Proof.
  intros Hnone Hreads Hparse.
  assert (truthy (config self) = false) as Hc by (rewrite Hnone; reflexivity).
  rewrite (load_reads w configPath self content Hc Hreads), Hparse. cbn [bind].
  split.
  - intros Hmiss. destruct (basicValidation_missing data Hmiss) as [e ->]. reflexivity.
  - intros c -> Hd Hl Hp. rewrite (basicValidation_encoded c Hd Hl Hp).
    cbn [bind]. rewrite logLoaded_encoded. reflexivity.
Qed.

(** A successful [load] leaves the loader holding what it returned, and
    what it holds is truthy. *)
Lemma load_success w configPath self c self' :
  load resolve JSON_parse w configPath self = (Some c, self') ->
  config self' = Some c /\ truthy (config self') = true.
Proof.
  unfold load. destruct (truthy (config self)) eqn:Hc.
  - intros [= Hcfg <-]. rewrite Hc. auto.
  - destruct (orString configPath (DOMAIN_CONFIG w)) as [path|]; [|discriminate].
    destruct (String.eqb path ""); [discriminate|].
    destruct (files w !! resolve path) as [entry|]; [|discriminate].
    destruct (readFileSync entry) as [e|content]; cbn [bind]; [discriminate|].
    destruct (JSON_parse content) as [e|data]; cbn [bind]; [discriminate|].
    destruct (basicValidation data) as [e|[]] eqn:Hv; cbn [bind]; [discriminate|].
    destruct (logLoaded data) as [e|[]]; [discriminate|].
    intros [= <- <-]. cbn [config]. split; [reflexivity|].
    by apply basicValidation_object.
Qed.

Lemma loadDomainConfig_cached w configPath l :
  truthy (config l) = true ->
  loadDomainConfig resolve JSON_parse w configPath {| instance := Some l |}
  = (config l, {| instance := Some l |}).
Proof.
  intros H. unfold loadDomainConfig. cbn [getInstance instance].
  rewrite (load_cached w configPath l H). reflexivity.
Qed.

(** C8.  Once a load on the process-wide loader has succeeded, every later
    load, with whatever path argument and whatever the environment and the
    files have become, returns that same configuration and leaves the loader
    as it is. *)
Theorem first_successful_load_wins
        (w : World) (configPath : option string) (p p' : Process) (c : JSON)
        (later : list (World * option string)) :
  loadDomainConfig resolve JSON_parse w configPath p = (Some c, p') ->
  loadAll resolve JSON_parse later p' = (map (fun _ => Some c) later, p').
Proof.
  unfold loadDomainConfig at 1.
  destruct (getInstance p) as [loader p0].
  destruct (load resolve JSON_parse w configPath loader) as [r loader'] eqn:Hload.
  intros [= -> <-].
  destruct (load_success w configPath loader c loader' Hload) as [Hcfg Htruthy].
  induction later as [|[w' path'] later IH]; [reflexivity|].
  cbn [loadAll map].
  rewrite (loadDomainConfig_cached w' path' loader' Htruthy), IH, Hcfg.
  reflexivity.
Qed.

End Loading.

Lemma load_checks_witness :
  config newLoader = None
  /\ reads absolute (oneFile "/config/product.json" descriptorText)
       (Some "/config/product.json") descriptorText
  /\ parseOnly descriptorText (Encode.domainConfig clashing) descriptorText
     = Return (Encode.domainConfig clashing)
  /\ load absolute (parseOnly descriptorText (Encode.domainConfig clashing))
       (oneFile "/config/product.json" descriptorText) (Some "/config/product.json")
       newLoader
     = (Some (Encode.domainConfig clashing),
        {| config := Some (Encode.domainConfig clashing) |}).
Proof.
  assert (reads absolute (oneFile "/config/product.json" descriptorText)
            (Some "/config/product.json") descriptorText) as Hreads.
  { exists "/config/product.json". split; [reflexivity|]. split; [discriminate|].
    reflexivity. }
  split; [reflexivity|]. split; [exact Hreads|]. split; [reflexivity|].
  destruct (load_checks_only_the_top_level_keys absolute
              (parseOnly descriptorText (Encode.domainConfig clashing))
              (oneFile "/config/product.json" descriptorText)
              (Some "/config/product.json") newLoader descriptorText
              (Encode.domainConfig clashing) eq_refl Hreads eq_refl) as [_ Hloads].
  apply (Hloads clashing); [reflexivity | discriminate | discriminate | discriminate].
Defined.

(** C2, as the claim words it, fails.  The descriptor [clashing] declares the
    key [name] twice and gives a field the type token [currency]; [load]
    returns it as the configuration and the loader keeps it. *)
Lemma duplicate_keys_and_unknown_types_are_loaded :
  map key (fields clashing) = ["name"; "name"; "price"]
  /\ map (fun f => validType (type f)) (fields clashing) = [true; true; false]
  /\ load absolute (parseOnly descriptorText (Encode.domainConfig clashing))
       (oneFile "/config/product.json" descriptorText) (Some "/config/product.json")
       newLoader
     = (Some (Encode.domainConfig clashing),
        {| config := Some (Encode.domainConfig clashing) |}).
Proof. repeat split. Qed.

(** A descriptor without [fields] is not loaded. *)
Example descriptor_without_fields_is_rejected :
  missingRequiredKey fieldless
  /\ load absolute (parseOnly descriptorText fieldless)
       (oneFile "/config/product.json" descriptorText) (Some "/config/product.json")
       newLoader
     = (None, newLoader).
Proof.
  split; [|reflexivity].
  exists "fields". split; [cbn; auto | reflexivity].
Qed.

Lemma first_load_witness :
  loadDomainConfig absolute
    (parseOnly descriptorText (Encode.domainConfig Samples.products))
    (oneFile "/config/product.json" descriptorText) (Some "/config/product.json")
    freshProcess
  = (Some (Encode.domainConfig Samples.products),
     {| instance := Some {| config := Some (Encode.domainConfig Samples.products) |} |})
  /\ loadAll absolute (parseOnly descriptorText (Encode.domainConfig Samples.products))
       [(emptyWorld, Some "/config/other.json");
        (oneFile "/config/other.json" descriptorText, None);
        (oneFile "/config/product.json" "{}", Some "/config/product.json")]
       {| instance := Some {| config := Some (Encode.domainConfig Samples.products) |} |}
     = ([Some (Encode.domainConfig Samples.products);
         Some (Encode.domainConfig Samples.products);
         Some (Encode.domainConfig Samples.products)],
        {| instance := Some {| config := Some (Encode.domainConfig Samples.products) |} |}).
Proof.
  assert (loadDomainConfig absolute
            (parseOnly descriptorText (Encode.domainConfig Samples.products))
            (oneFile "/config/product.json" descriptorText) (Some "/config/product.json")
            freshProcess
          = (Some (Encode.domainConfig Samples.products),
             {| instance :=
                  Some {| config := Some (Encode.domainConfig Samples.products) |} |}))
    as Hfirst by reflexivity.
  split; [exact Hfirst|].
  exact (first_successful_load_wins absolute _ _ _ _ _ _
           [(emptyWorld, Some "/config/other.json");
            (oneFile "/config/other.json" descriptorText, None);
            (oneFile "/config/product.json" "{}", Some "/config/product.json")]
           Hfirst).
Defined.

End LoaderProperties.

(* ===================================================================== *)
(** * Sorting entities                                                     *)
(* ===================================================================== *)

Module SortProperties.
Import GenericTypes Vocabulary Samples.

(** ** The engine of the examples is a comparison sort *)

Section Insertion.

Context {A : Type} (cmp : A -> A -> Outcome Q).

Lemma insertInto_Permutation x l r :
  insertInto cmp x l = Return r -> Permutation r (x :: l).
Proof.
  revert r. induction l as [|y l IH]; intros r; cbn [insertInto].
  - by intros [= <-].
  - destruct (cmp x y) as [e|c]; cbn [bind]; [discriminate|].
    destruct (isPositive c); [|by intros [= <-]].
    destruct (insertInto cmp x l) as [e|r']; cbn [bind]; [discriminate|].
    intros [= <-]. rewrite (IH r' eq_refl). apply perm_swap.
Qed.

Lemma insertionSort_Permutation l r :
  insertionSort cmp l = Return r -> Permutation r l.
Proof.
  revert r. induction l as [|x l IH]; intros r; cbn [insertionSort].
  - by intros [= <-].
  - destruct (insertionSort cmp l) as [e|s]; cbn [bind]; [discriminate|].
    intros Hr. rewrite (insertInto_Permutation x s r Hr). constructor. by apply IH.
Qed.

Lemma insertInto_completes x l :
  (forall y, In y l -> exists q, cmp x y = Return q) ->
  exists r, insertInto cmp x l = Return r.
Proof.
  induction l as [|y l IH]; intros Hx; cbn [insertInto]; [by eexists|].
  destruct (Hx y) as [c ->]; [by left|]. cbn [bind].
  destruct (isPositive c); [|by eexists].
  destruct IH as [r ->]; [intros z Hz; apply Hx; by right|].
  cbn [bind]. by eexists.
Qed.

Lemma insertionSort_completes l :
  neverThrows cmp l -> exists r, insertionSort cmp l = Return r.
Proof.
  induction l as [|x l IH]; intros Hl; cbn [insertionSort]; [by eexists|].
  destruct IH as [s Hs].
  { intros y z Hy Hz. apply Hl; by right. }
  rewrite Hs. cbn [bind]. apply insertInto_completes.
  intros y Hy. apply Hl; [by left|right].
  apply (Permutation_in _ (insertionSort_Permutation l s Hs) Hy).
Qed.

Lemma isPositive_negative q : (q < 0)%Q -> isPositive q = false.
Proof.
  intros Hq. unfold isPositive. apply negb_false_iff, Qle_bool_iff.
  by apply Qlt_le_weak.
Qed.

Lemma isPositive_positive q : (0 < q)%Q -> isPositive q = true.
Proof.
  intros Hq. unfold isPositive. apply negb_true_iff.
  destruct (Qle_bool q 0) eqn:E; [|reflexivity].
  apply Qle_bool_iff in E. exfalso. by apply (Qlt_not_le _ _ Hq).
Qed.

Lemma insertInto_markedLast (high : A -> bool) x lows highs r :
  setsApart cmp high (x :: lows ++ highs) ->
  Forall (fun y => high y = false) lows ->
  Forall (fun y => high y = true) highs ->
  insertInto cmp x (lows ++ highs) = Return r ->
  markedLast high r.
Proof.
  intros Hapart Hlows Hhighs. revert r.
  induction lows as [|y lows IH]; intros r; cbn [app].
  - destruct (high x) eqn:Hx.
    + intros Hr. exists [], r. split; [reflexivity|]. split; [constructor|].
      apply Forall_forall. intros z Hz.
      apply list_elem_of_In in Hz.
      apply (Permutation_in _ (insertInto_Permutation x highs r Hr)) in Hz.
      destruct Hz as [<-|Hz]; [exact Hx|].
      rewrite Forall_forall in Hhighs. by apply Hhighs, list_elem_of_In.
    + destruct highs as [|y highs]; cbn [insertInto].
      * intros [= <-]. exists [x], []. repeat split; by repeat constructor.
      * apply Forall_cons in Hhighs as Hy. destruct Hy as [Hy _].
        destruct (Hapart x y) as [(q & -> & Hq) _];
          [by left | right; by left | exact Hx | exact Hy |].
        cbn [bind]. rewrite (isPositive_negative q Hq). intros [= <-].
        exists [x], (y :: highs). repeat split; [by repeat constructor|exact Hhighs].
  - apply Forall_cons in Hlows as [Hy Hlows].
    cbn [insertInto]. destruct (cmp x y) as [e|c] eqn:Hc; cbn [bind]; [discriminate|].
    destruct (isPositive c) eqn:Hpos.
    + destruct (insertInto cmp x (lows ++ highs)) as [e|r'] eqn:Hr';
        cbn [bind]; [discriminate|].
      intros [= <-].
      destruct (IH) with (r := r') as (lows' & highs' & -> & Hl' & Hh');
        [|exact Hlows|reflexivity|].
      { intros a b Ha Hb. apply Hapart.
        - destruct Ha as [<-|Ha]; [by left|right; by right].
        - destruct Hb as [<-|Hb]; [by left|right; by right]. }
      exists (y :: lows'), highs'. repeat split; [by constructor|exact Hh'].
    + intros [= <-]. destruct (high x) eqn:Hx.
      * exfalso. destruct (Hapart y x) as [_ (q & Hq & Hpos')];
          [right; by left | by left | exact Hy | exact Hx |].
        rewrite Hc in Hq. injection Hq as ->.
        rewrite (isPositive_positive q Hpos') in Hpos. discriminate.
      * exists (x :: y :: lows), highs. repeat split; [by repeat constructor|exact Hhighs].
Qed.

Lemma insertionSort_markedLast (high : A -> bool) l r :
  setsApart cmp high l ->
  insertionSort cmp l = Return r ->
  markedLast high r.
Proof.
  revert r. induction l as [|x l IH]; intros r Hapart; cbn [insertionSort].
  - intros [= <-]. exists [], []. by repeat split.
  - destruct (insertionSort cmp l) as [e|s] eqn:Hs; cbn [bind]; [discriminate|].
    destruct (IH s) as (lows & highs & -> & Hlows & Hhighs); [|reflexivity|].
    { intros a b Ha Hb. apply Hapart; by right. }
    apply insertInto_markedLast; [|exact Hlows|exact Hhighs].
    intros a b Ha Hb. apply Hapart.
    + destruct Ha as [<-|Ha]; [by left|right].
      apply (Permutation_in _ (insertionSort_Permutation l _ Hs) Ha).
    + destruct Hb as [<-|Hb]; [by left|right].
      apply (Permutation_in _ (insertionSort_Permutation l _ Hs) Hb).
Qed.

End Insertion.

Lemma insertion_is_a_comparison_sort : comparisonSort insertionEngine.
Proof.
  split; unfold insertionEngine.
  - intros A cmp l sorted. apply insertionSort_Permutation.
  - intros A cmp l. apply insertionSort_completes.
  - intros A cmp high l sorted. apply insertionSort_markedLast.
Qed.

(** ** The comparator of [sortEntities] *)

Section Comparator.

Variable Array_sort : SortEngine.
Variable localeCompare : string -> string -> Z.
Variable JS_String : JSON -> string.
Variable inheritedText : string -> string.

Abbreviation compare := (compareEntities localeCompare JS_String inheritedText).

(** Whichever way round the two are compared, the comparator sends an
    entity without a value behind one with a value, and it does so before
    it converts anything. *)
Lemma compare_sets_apart sortBy order l :
  setsApart (compare sortBy order) (fun e => isNullish (readMember e sortBy)) l.
Proof.
  intros x y _ _ Hx Hy. unfold compareEntities. rewrite Hx, Hy. split.
  - exists (-1)%Q. split; reflexivity.
  - exists 1%Q. split; reflexivity.
Qed.

Lemma stringOf_member sortBy e m :
  hasText sortBy e -> readMember e sortBy = Some m ->
  exists text, stringOf JS_String inheritedText m = Return text.
Proof.
  unfold hasText, readMember. destruct (lookupProp e sortBy) as [v|].
  - intros Hv [= <-]. cbn [stringOf]. unfold ToString. rewrite Hv. by eexists.
  - intros _. destruct (GenericTools.includes objectPrototype sortBy); [|discriminate].
    intros [= <-]. by eexists.
Qed.

(** No comparison throws when the own values under the sort key have a
    text. *)
Lemma compare_never_throws sortBy order l :
  Forall (hasText sortBy) l -> neverThrows (compare sortBy order) l.
Proof.
  intros Hl x y Hx Hy. rewrite Forall_forall in Hl.
  pose proof (Hl x (proj2 (list_elem_of_In _ _) Hx)) as Htx.
  pose proof (Hl y (proj2 (list_elem_of_In _ _) Hy)) as Hty.
  unfold compareEntities.
  destruct (readMember x sortBy) as [mx|] eqn:Hmx; [|by eexists].
  destruct (isNullish (Some mx)); [by eexists|].
  destruct (readMember y sortBy) as [my|] eqn:Hmy; [|by eexists].
  destruct (isNullish (Some my)); [by eexists|].
  destruct (stringOf_member sortBy x mx Htx Hmx) as [tx Hsx].
  destruct (stringOf_member sortBy y my Hty Hmy) as [ty Hsy].
  destruct mx as [[]|], my as [[]|]; cbn [bind];
    rewrite ?Hsx, ?Hsy; cbn [bind]; by eexists.
Qed.


End Comparator.



(** What [entity[sortBy]] finds counts, inherited members too: under the
    sort key [constructor] an entity with a [null] of its own has no value,
    an entity without the key has the inherited function. *)
Example inherited_member_is_a_value :
  lacksValue "constructor" [("constructor", JNull)]
  /\ hasValue "constructor" sample
  /\ lacksValue "price" sample.
Proof. repeat split. Qed.

End SortProperties.


(* ===================================================================== *)
(** * More on the loader                                                    *)
(* ===================================================================== *)

Module LoaderExtras.
Import ConfigLoader Vocabulary Samples.

Section Loading.

Variable resolve : string -> string.
Variable JSON_parse : string -> Outcome JSON.

Abbreviation load' := (load resolve JSON_parse).

(** X1.  A loader that holds no configuration returns one exactly when the
    path (argument or environment) is non-empty, the resolved path is a
    readable file, its text parses, the parsed document passes the basic
    validation, and the log line that follows the assignment can be written
    (its [labelPlural] and [domain] have a text); the loader then holds that
    document. *)
Theorem fresh_load_succeeds_exactly_on_a_valid_file
        (w : World) (configPath : option string) (self self' : Loader) (data : JSON) :
  config self = None ->
  load' w configPath self = (Some data, self') <->
  self' = {| config := Some data |}
  /\ exists content,
       reads resolve w configPath content
       /\ JSON_parse content = Return data
       /\ basicValidation data = Return tt
       /\ logLoaded data = Return tt.
Proof.
  intros Hnone. unfold load. rewrite Hnone. cbn [truthy]. split.
  - destruct (orString configPath (DOMAIN_CONFIG w)) as [path|] eqn:Hpath; [|discriminate].
    destruct (String.eqb path "") eqn:Hne; [discriminate|].
    destruct (files w !! resolve path) as [entry|] eqn:Hfile; [|discriminate].
    destruct entry as [content|]; cbn [readFileSync bind]; [|discriminate].
    destruct (JSON_parse content) as [e|d] eqn:Hparse; cbn [bind]; [discriminate|].
    destruct (basicValidation d) as [e|[]] eqn:Hv; cbn [bind]; [discriminate|].
    destruct (logLoaded d) as [e|[]] eqn:Hlog; [discriminate|].
    intros [= <- <-]. split; [reflexivity|].
    exists content. split; [|repeat split; assumption].
    exists path. split; [exact Hpath|]. split; [by apply String.eqb_neq|exact Hfile].
  - intros [-> (content & (path & Hpath & Hne & Hfile) & Hparse & Hv & Hlog)].
    apply String.eqb_neq in Hne.
    rewrite Hpath, Hne, Hfile. cbn [readFileSync bind].
    rewrite Hparse. cbn [bind]. rewrite Hv. cbn [bind]. rewrite Hlog. reflexivity.
Qed.

(** The two ways [load] returns [null]: nothing happened to the loader, or
    the loader was empty and now holds a validated document whose log line
    threw. *)
Lemma load_None w configPath self self' :
  load' w configPath self = (None, self') ->
  self' = self
  \/ (truthy (config self) = false
      /\ exists data e,
           self' = {| config := Some data |}
           /\ basicValidation data = Return tt
           /\ logLoaded data = Throw e).
Proof.
  unfold load. destruct (truthy (config self)); [intros [= _ <-]; by left|].
  destruct (orString configPath (DOMAIN_CONFIG w)) as [path|];
    [|intros [= <-]; by left].
  destruct (String.eqb path ""); [intros [= <-]; by left|].
  destruct (files w !! resolve path) as [entry|]; [|intros [= <-]; by left].
  destruct (readFileSync entry) as [e|content]; cbn [bind]; [intros [= <-]; by left|].
  destruct (JSON_parse content) as [e|data]; cbn [bind]; [intros [= <-]; by left|].
  destruct (basicValidation data) as [e|[]] eqn:Hv; cbn [bind];
    [intros [= <-]; by left|].
  destruct (logLoaded data) as [e|[]] eqn:Hlog; [|discriminate].
  intros [= <-]. right. split; [reflexivity|]. by exists data, e.
Qed.

(** X2.  [load] is not all or nothing.  When it returns a configuration
    the loader holds it.  When it returns [null] the loader is as it was, or
    else it was empty and now holds a document that passed the basic
    validation and whose log line threw: the assignment comes before the
    log line, inside the same [try].  In that case every later [load]
    returns the document the first one answered [null] for. *)
Theorem load_stores_before_it_logs
        (w : World) (configPath : option string) (self self' : Loader)
        (r : option JSON) :
  load' w configPath self = (r, self') ->
  match r with
  | Some c => config self' = Some c
  | None =>
      self' = self
      \/ (truthy (config self) = false
          /\ exists data e,
               self' = {| config := Some data |}
               /\ basicValidation data = Return tt
               /\ logLoaded data = Throw e
               /\ forall w2 configPath2,
                    load' w2 configPath2 self' = (Some data, self'))
  end.
Proof.
  intros Hload. destruct r as [c|].
  - by destruct (LoaderProperties.load_success resolve JSON_parse _ _ _ _ _ Hload).
  - apply load_None in Hload as [->|(Hc & data & e & -> & Hv & Hlog)]; [by left|].
    right. split; [exact Hc|]. exists data, e. repeat split; try assumption.
    intros w2 configPath2.
    apply (LoaderProperties.load_cached resolve JSON_parse w2 configPath2
             {| config := Some data |}).
    by apply LoaderProperties.basicValidation_object.
Qed.

(** X3.  A non-empty path argument makes the environment variable
    irrelevant; with an absent or empty argument the variable is the path. *)
Theorem path_argument_wins_over_environment
        (w : World) (p : string) (env : option string) (self : Loader) :
  p <> "" ->
  load' w (Some p) self = load' (withEnv w env) (Some p) self
  /\ load' (withEnv w (Some p)) None self = load' w (Some p) self
  /\ load' (withEnv w (Some p)) (Some "") self = load' w (Some p) self.
Proof.
  intros Hne. apply String.eqb_neq in Hne.
  repeat split; unfold load, withEnv, orString; cbn [DOMAIN_CONFIG files];
    rewrite ?String.eqb_refl, ?Hne; reflexivity.
Qed.

(** X4.  The basic validation passes exactly the objects whose four keys
    hold truthy values: an empty name, [null], [0] or [false] count as
    missing, while any array (the empty one too) and any non-empty string or
    object passes as [fields]. *)
Theorem basicValidation_passes_exactly_truthy_keys (data : JSON) :
  basicValidation data = Return tt <->
  exists props, data = JObj props /\ requiredKeysTruthy props.
Proof.
  unfold basicValidation, requiredKeysTruthy. split.
  - destruct data as [| | | | |props]; cbn; try discriminate.
    intros H. exists props. split; [reflexivity|].
    destruct (truthy (lookupProp props "domain")); [|discriminate].
    destruct (truthy (lookupProp props "label")); [|discriminate].
    destruct (truthy (lookupProp props "labelPlural")); [|discriminate].
    destruct (truthy (lookupProp props "fields")); [|discriminate].
    auto.
  - intros (props & -> & Hd & Hl & Hp & Hf). cbn. rewrite Hd, Hl, Hp, Hf. reflexivity.
Qed.

Lemma load_settled w configPath self r self' :
  settled self ->
  load' w configPath self = (r, self') ->
  settled self' /\ keptAfter r self'.
Proof.
  intros Hs Hload. destruct (truthy (config self)) eqn:Ht.
  - rewrite (LoaderProperties.load_cached resolve JSON_parse w configPath self Ht) in Hload.
    injection Hload as <- <-. split; [exact Hs|].
    unfold keptAfter. destruct (config self); [reflexivity|discriminate].
  - destruct Hs as [Hnone|Htrue]; [|congruence].
    destruct r as [data|].
    + destruct (LoaderProperties.load_success resolve JSON_parse _ _ _ _ _ Hload)
        as [Hc Htruthy].
      split; [by right|exact Hc].
    + apply load_None in Hload as [->|(_ & data & e & -> & Hv & Hlog)].
      * split; [by left|by left].
      * split.
        -- right. by apply LoaderProperties.basicValidation_object.
        -- right. by exists data, e.
Qed.

(** X5.  On the process-wide loader, [getDomainConfig] returns what the
    loader holds and does not change the process.  After a
    [loadDomainConfig] that returned a configuration it returns that
    configuration; after one that returned [null] it returns [null], or the
    validated document whose log line threw after it was stored. *)
Theorem getDomainConfig_returns_what_the_loader_kept
        (w : World) (configPath : option string) (p p' : Process) (r : option JSON) :
  settledProcess p ->
  loadDomainConfig resolve JSON_parse w configPath p = (r, p') ->
  settledProcess p'
  /\ exists loader,
       p' = {| instance := Some loader |}
       /\ keptAfter r loader
       /\ getDomainConfig p' = (config loader, p').
Proof.
  intros Hp. unfold loadDomainConfig.
  assert (settled (getInstance p).1) as Hl.
  { unfold getInstance, settledProcess in *.
    destruct (instance p); [exact Hp|by left]. }
  destruct (getInstance p) as [loader p0]. cbn [fst] in Hl.
  destruct (load' w configPath loader) as [r0 loader'] eqn:Hload.
  intros [= <- <-].
  destruct (load_settled w configPath loader r0 loader' Hl Hload) as [Hs Hc].
  split; [exact Hs|]. exists loader'. split; [reflexivity|]. split; [exact Hc|].
  reflexivity.
Qed.

(** X6.  [reload] forgets what the loader held and then loads as a new
    loader would.  After a reload that returned a configuration [get]
    returns it; after one that returned [null] the former configuration is
    gone, and [get] returns [null] or the validated document whose log line
    threw after it was stored. *)
Theorem reload_replaces_the_configuration
        (w : World) (configPath : option string) (self self' : Loader)
        (r : option JSON) :
  reload resolve JSON_parse w configPath self = (r, self') ->
  keptAfter r self'
  /\ settled self'
  /\ reload resolve JSON_parse w configPath self = load' w configPath newLoader.
Proof.
  unfold reload. intros Hload.
  assert (settled {| config := None |}) as Hnew by (by left).
  destruct (load_settled w configPath _ r self' Hnew Hload) as [Hs Hc].
  split; [exact Hc|]. split; [exact Hs|reflexivity].
Qed.

End Loading.

Lemma getProp_field_required f :
  getProp (Encode.field f) "required" = Return (JBool <$> required f).
Proof. VisibilityProperties.lookup_encoded. destruct (required f); reflexivity. Qed.

(** X7.  From a loaded configuration [getRequiredFields] selects, in
    descriptor order, the fields declared required and not hidden; with
    nothing loaded the three selectors return the empty list. *)
Theorem getRequiredFields_selects_required_visible_fields (c : DomainConfig) :
  getRequiredFields {| config := Some (Encode.domainConfig c) |}
  = Return (map Encode.field
              (List.filter (fun f => truthyFlag (required f)
                                     && negb (truthyFlag (hidden f))) (fields c)))
  /\ getRequiredFields newLoader = Return []
  /\ getListFields newLoader = Return []
  /\ getDetailFields newLoader = Return [].
Proof.
  split; [|repeat split].
  unfold getRequiredFields. cbn [config].
  rewrite VisibilityProperties.truthy_domainConfig. cbn [negb].
  apply VisibilityProperties.filterFields_encoded. intros x. unfold andNotHidden.
  rewrite getProp_field_required, VisibilityProperties.getProp_field_hidden.
  cbn [bind]. rewrite !VisibilityProperties.truthy_flag_encoded.
  destruct (truthyFlag (required x)); reflexivity.
Qed.

(** X8.  The basic validation does not look at what [fields] is: a
    document that passed it with a [fields] that is not an array makes the
    three selectors throw. *)
Theorem selectors_throw_when_fields_is_not_an_array (self : Loader) (c v : JSON) :
  config self = Some c ->
  basicValidation c = Return tt ->
  getProp c "fields" = Return (Some v) ->
  (forall items, v <> JArr items) ->
  exists e,
    getRequiredFields self = Throw e
    /\ getListFields self = Throw e
    /\ getDetailFields self = Throw e.
Proof.
  intros Hc Hv Hf Hna.
  pose proof (LoaderProperties.basicValidation_object c Hv) as Ht.
  exists (mkError "this.config.fields.filter is not a function").
  unfold getRequiredFields, getListFields, getDetailFields, filterFields.
  rewrite Hc, Ht, Hf. cbn [negb bind].
  destruct v; try (repeat split; reflexivity).
  exfalso. by eapply Hna.
Qed.

(** The product catalogue is loaded from its file. *)
Lemma fresh_load_witness :
  config newLoader = None
  /\ load absolute (parseOnly descriptorText (Encode.domainConfig products))
       (oneFile "/config/product.json" descriptorText) (Some "/config/product.json")
       newLoader
     = (Some (Encode.domainConfig products),
        {| config := Some (Encode.domainConfig products) |}).
Proof.
  split; [reflexivity|].
  apply (fresh_load_succeeds_exactly_on_a_valid_file absolute
           (parseOnly descriptorText (Encode.domainConfig products))
           (oneFile "/config/product.json" descriptorText)
           (Some "/config/product.json") newLoader); [reflexivity|].
  split; [reflexivity|]. exists descriptorText.
  split; [|repeat split].
  exists "/config/product.json". split; [reflexivity|]. split; [discriminate|].
  reflexivity.
Defined.

(** A descriptor whose [labelPlural] has no text: [load] answers [null],
    the loader holds the descriptor, and the next [load] returns it. *)
Lemma stores_before_it_logs_witness :
  load absolute (parseOnly descriptorText unloggable)
    (oneFile "/config/product.json" descriptorText) (Some "/config/product.json")
    newLoader
  = (None, {| config := Some unloggable |})
  /\ load absolute (parseOnly descriptorText unloggable) emptyWorld None
       {| config := Some unloggable |}
     = (Some unloggable, {| config := Some unloggable |}).
Proof.
  assert (load absolute (parseOnly descriptorText unloggable)
            (oneFile "/config/product.json" descriptorText)
            (Some "/config/product.json") newLoader
          = (None, {| config := Some unloggable |})) as Hload by reflexivity.
  split; [exact Hload|].
  destruct (load_stores_before_it_logs absolute (parseOnly descriptorText unloggable)
              (oneFile "/config/product.json" descriptorText)
              (Some "/config/product.json") newLoader {| config := Some unloggable |}
              None Hload) as [Hsame|(_ & data & e & Hd & _ & _ & Hlater)].
  - discriminate Hsame.
  - injection Hd as <-. apply Hlater.
Defined.

Lemma path_argument_witness :
  "/config/product.json" <> ""
  /\ load absolute (parseOnly descriptorText noFields)
       (oneFile "/config/product.json" descriptorText) (Some "/config/product.json")
       newLoader
     = load absolute (parseOnly descriptorText noFields)
         (withEnv (oneFile "/config/product.json" descriptorText)
            (Some "/config/other.json"))
         (Some "/config/product.json") newLoader.
Proof.
  split; [discriminate|].
  apply (path_argument_wins_over_environment absolute (parseOnly descriptorText noFields)
           (oneFile "/config/product.json" descriptorText) "/config/product.json"
           (Some "/config/other.json") newLoader).
  discriminate.
Defined.

Lemma getDomainConfig_witness :
  settledProcess freshProcess
  /\ settledProcess {| instance := Some {| config := Some unloggable |} |}
  /\ exists loader,
       {| instance := Some {| config := Some unloggable |} |}
       = {| instance := Some loader |}
       /\ keptAfter None loader
       /\ getDomainConfig {| instance := Some {| config := Some unloggable |} |}
          = (config loader, {| instance := Some {| config := Some unloggable |} |}).
Proof.
  split; [exact I|].
  apply (getDomainConfig_returns_what_the_loader_kept absolute
           (parseOnly descriptorText unloggable)
           (oneFile "/config/product.json" descriptorText)
           (Some "/config/product.json") freshProcess); [exact I|reflexivity].
Defined.

(** A reload from a path that no longer exists: the product catalogue the
    loader held is gone. *)
Lemma reload_witness :
  reload absolute (parseOnly descriptorText noFields) emptyWorld
    (Some "/config/product.json")
    {| config := Some (Encode.domainConfig products) |}
  = (None, newLoader)
  /\ keptAfter None newLoader.
Proof.
  split; [reflexivity|].
  apply (reload_replaces_the_configuration absolute (parseOnly descriptorText noFields)
           emptyWorld (Some "/config/product.json")
           {| config := Some (Encode.domainConfig products) |} newLoader None).
  reflexivity.
Defined.

(** After the descriptor without a text was stored, [getDomainConfig]
    returns it although the load answered [null]. *)
Example null_answer_document_kept :
  loadDomainConfig absolute (parseOnly descriptorText unloggable)
    (oneFile "/config/product.json" descriptorText) (Some "/config/product.json")
    freshProcess
  = (None, {| instance := Some {| config := Some unloggable |} |})
  /\ getDomainConfig {| instance := Some {| config := Some unloggable |} |}
     = (Some unloggable, {| instance := Some {| config := Some unloggable |} |}).
Proof. split; reflexivity. Qed.

Lemma selectors_throw_witness :
  basicValidation fieldsAsText = Return tt
  /\ exists e,
       getRequiredFields {| config := Some fieldsAsText |} = Throw e
       /\ getListFields {| config := Some fieldsAsText |} = Throw e
       /\ getDetailFields {| config := Some fieldsAsText |} = Throw e.
Proof.
  split; [reflexivity|].
  apply (selectors_throw_when_fields_is_not_an_array
           {| config := Some fieldsAsText |} fieldsAsText (JStr "name,price"));
    [reflexivity | reflexivity | reflexivity | discriminate].
Defined.

(** Evaluated: an empty [fields] array loads, an empty name does not. *)
Example empty_fields_array_passes :
  basicValidation noFields = Return tt
  /\ basicValidation (JObj [("domain", JStr ""); ("label", JStr "Product");
                            ("labelPlural", JStr "Products"); ("fields", JArr [])])
     = Throw (mkError "Invalid config: missing required fields").
Proof. split; reflexivity. Qed.

End LoaderExtras.


(* ===================================================================== *)
(** * More on the tools                                                     *)
(* ===================================================================== *)

Module StringFacts.

Lemma append_assoc (a b c : string) : (a +:+ b) +:+ c = a +:+ (b +:+ c).
Proof.
  induction a as [|x a IH]; [reflexivity|].
  change (String x ((a +:+ b) +:+ c) = String x (a +:+ (b +:+ c))). by f_equal.
Qed.

Lemma append_empty_r (a : string) : a +:+ "" = a.
Proof.
  induction a as [|x a IH]; [reflexivity|].
  change (String x (a +:+ "") = String x a). by f_equal.
Qed.

Lemma prefix_append (a b : string) : String.prefix a (a +:+ b) = true.
Proof.
  induction a as [|x a IH]; [by destruct b|].
  change (String.prefix (String x a) (String x (a +:+ b)) = true).
  cbn [String.prefix]. destruct (Ascii.ascii_dec x x); [exact IH|congruence].
Qed.

Lemma prefix_refl (a : string) : String.prefix a a = true.
Proof. rewrite <- (append_empty_r a) at 2. apply prefix_append. Qed.

Lemma prefix_append_both (b r e : string) :
  String.prefix r e = true -> String.prefix (b +:+ r) (b +:+ e) = true.
Proof.
  intros H. induction b as [|x b IH]; [exact H|].
  change (String.prefix (String x (b +:+ r)) (String x (b +:+ e)) = true).
  cbn [String.prefix]. destruct (Ascii.ascii_dec x x); [exact IH|congruence].
Qed.

Lemma length_append (a b : string) :
  String.length (a +:+ b) = String.length a + String.length b.
Proof.
  induction a as [|x a IH]; [reflexivity|].
  change (S (String.length (a +:+ b)) = S (String.length a + String.length b)).
  by f_equal.
Qed.

End StringFacts.

Module ToolExtras.
Import GenericTools Vocabulary Samples.

Lemma accepts_boolean_iff v : accepts z_boolean (Some v) = true <-> exists b, v = JBool b.
Proof.
  destruct v; simpl; split; try discriminate; try (intros [b0 [=]]); eauto.
Qed.

(** X9.  A field of type [string] or [text] accepts exactly the strings and
    a field of type [boolean] exactly [true] and [false], in the create
    input and in its optional form; bounds declared on such a field play no
    part. *)
Theorem text_and_boolean_contracts (f : FieldConfig) (v : JSON) :
  type f = "string" \/ type f = "text" \/ type f = "boolean" ->
  let expected :=
    if String.eqb (type f) "boolean" then exists b, v = JBool b
    else exists s, v = JStr s in
  (accepts (fieldToZodSchema f) (Some v) = true <-> expected)
  /\ (accepts (z_optional (fieldToZodSchema f)) (Some v) = true <-> expected).
Proof.
  intros Ht expected. rewrite ContractProperties.accepts_optional_present.
  assert (accepts (fieldToZodSchema f) (Some v) = true <-> expected) as H; [|tauto].
  subst expected. unfold fieldToZodSchema.
  destruct Ht as [Ht|[Ht|Ht]]; rewrite Ht; cbn -[accepts];
    destruct (negb (truthyFlag (required f)));
    rewrite ?ContractProperties.accepts_describe,
            ?ContractProperties.accepts_optional_present;
    first [apply ContractProperties.accepts_string_iff | apply accepts_boolean_iff].
Qed.

(** X10.  A field whose type is none of the six tokens gets the [any]
    contract: every value is accepted, and so is the absence of the key, even
    when the field is declared required. *)
Theorem unknown_type_accepts_everything (f : FieldConfig) (v : option JSON) :
  validType (type f) = false ->
  accepts (fieldToZodSchema f) v = true.
Proof.
  unfold validType, fieldTypes. cbn [existsb]. intros Ht.
  repeat (apply orb_false_elim in Ht as [? Ht]).
  unfold fieldToZodSchema.
  repeat match goal with H : String.eqb _ _ = false |- _ => rewrite H; clear H end.
  cbn -[accepts]. destruct (negb (truthyFlag (required f))); cbn; [by destruct v|done].
Qed.

Lemma foldl_addField_entity_keys fs acc k :
  is_Some (entitySchema (foldl addField acc fs) !! k) <->
  is_Some (entitySchema acc !! k)
  \/ exists f, f ∈ fs /\ key f = k /\ isContractKey k = true.
Proof.
  revert acc. induction fs as [|f fs IH]; intros acc; cbn [foldl].
  - split; [auto|]. intros [H|(f & Hf & _)]; [done|]. by apply elem_of_nil in Hf.
  - rewrite IH. rewrite SchemaProperties.addField_spec.
    destruct (isContractKey (key f)) eqn:Hf; cbn [entitySchema].
    + rewrite lookup_insert. split.
      * intros [H|(g & Hg & Hk & Hs)].
        -- case_decide as Hkey.
           ++ right. exists f. rewrite elem_of_cons. subst k. auto.
           ++ by left.
        -- right. exists g. rewrite elem_of_cons. auto.
      * intros [H|(g & Hg & Hk & Hs)].
        -- left. case_decide; [done|exact H].
        -- apply elem_of_cons in Hg as [->|Hg].
           ++ left. rewrite decide_True by done. done.
           ++ right. by exists g.
    + split.
      * intros [H|(g & Hg & Hk & Hs)]; [by left|].
        right. exists g. rewrite elem_of_cons. auto.
      * intros [H|(g & Hg & Hk & Hs)]; [by left|].
        apply elem_of_cons in Hg as [->|Hg]; [congruence|].
        right. by exists g.
Qed.

(** X11.  For a descriptor none of whose fields is keyed [__proto__], the
    entity contract has a key exactly for the four system fields and for the
    fields of the descriptor.  A descriptor field that uses a system key is
    dropped, so the four system entries are always the built-in ones ([id],
    [created_date], [updated_date] strings, [archived] a boolean), and such a
    field is no key of the create contract either. *)
Theorem entity_contract_keys (config : DomainConfig) (k : string) :
  (forall f, f ∈ fields config -> key f <> "__proto__") ->
  let entity := entitySchema (buildShapes config) in
  (is_Some (entity !! k) <->
     isSystemField k = true \/ exists f, f ∈ fields config /\ key f = k)
  /\ (isSystemField k = true ->
        entity !! k = entitySchema initialShapes !! k
        /\ createSchema (buildShapes config) !! k = None)
  /\ entitySchema initialShapes !! "id" = Some z_string
  /\ entitySchema initialShapes !! "archived" = Some z_boolean
  /\ entitySchema initialShapes !! "created_date" = Some z_string
  /\ entitySchema initialShapes !! "updated_date" = Some z_string.
Proof.
  intros Hproto entity. subst entity. unfold buildShapes.
  assert (is_Some (entitySchema initialShapes !! k) <-> isSystemField k = true) as Hinit.
  { rewrite <- elem_of_dom, SchemaProperties.isSystemField_spec.
    assert (dom (entitySchema initialShapes)
            = ({[ "id"; "created_date"; "updated_date"; "archived" ]} : gset string))
      as -> by (vm_compute; reflexivity).
    rewrite !elem_of_union, !elem_of_singleton. tauto. }
  split; [|split; [|repeat split]].
  - rewrite foldl_addField_entity_keys, Hinit. split.
    + intros [H|(f & Hf & Hk & Hc)]; [by left|]. right. by exists f.
    + intros [H|(f & Hf & Hk)]; [by left|].
      destruct (isSystemField k) eqn:Hs; [by left|]. right. exists f.
      split; [exact Hf|]. split; [exact Hk|].
      apply SchemaProperties.isContractKey_spec. split; [exact Hs|].
      rewrite <- Hk. by apply Hproto.
  - intros Hs.
    destruct (SchemaProperties.foldl_addField_system (fields config) initialShapes k
                (SchemaProperties.isSystemField_no_contract_key k Hs)) as [-> ->].
    split; [reflexivity|apply lookup_empty].
Qed.

Section Runtime.

Variable IDEATE_API_URL : option string.
Variable fetch : Request -> Outcome Response.
Variables JSON_stringify JS_String : JSON -> string.
Variable toLowerCase : string -> string.
Variable nowISO : string.

Abbreviation registered :=
  (registeredTools IDEATE_API_URL fetch JSON_stringify JS_String toLowerCase nowISO).
Abbreviation register :=
  (registerGenericTools IDEATE_API_URL fetch JSON_stringify JS_String toLowerCase nowISO).

(** X12.  For a descriptor none of whose fields is keyed [__proto__]:
    registering the domain on a server that has none of its tool names
    adds the tools of the domain after the tools the server had, in order,
    and does not throw.  On a server that has [list_<domain>] (after a first
    registration of the domain, say) it throws at once and adds nothing; on
    one that lacks [list_<domain>] but has [get_<domain>] it throws after
    [list_<domain>] was added, and the addition stays. *)
Theorem registration_on_a_server
        (server : list Tool) (config : DomainConfig) (manifestVersion : string) :
  (forall f, f ∈ fields config -> key f <> "__proto__") ->
  let already (n : string) := mkError ("Tool " +:+ n +:+ " is already registered") in
  ((forall n, In n (map name (registered config manifestVersion)) ->
              ~ In n (map name server)) ->
     register config manifestVersion server
     = (server ++ registered config manifestVersion, Return tt))
  /\ (In ("list_" +:+ domain config) (map name server) ->
        register config manifestVersion server
        = (server, Throw (already ("list_" +:+ domain config))))
  /\ (~ In ("list_" +:+ domain config) (map name server) ->
      In ("get_" +:+ domain config) (map name server) ->
        register config manifestVersion server
        = (server ++ [listTool IDEATE_API_URL fetch JS_String toLowerCase nowISO
                        config manifestVersion],
           Throw (already ("get_" +:+ domain config))))
  /\ register config manifestVersion (registered config manifestVersion)
     = (registered config manifestVersion, Throw (already ("list_" +:+ domain config))).
Proof.
  intros _. cbv zeta.
  assert (forall server',
            In ("list_" +:+ domain config) (map name server') ->
            register config manifestVersion server'
            = (server', Throw (mkError ("Tool " +:+ ("list_" +:+ domain config)
                                          +:+ " is already registered")))) as Hclash.
  { intros server' Hin. rewrite RegistrationFacts.register_each. unfold domainTools.
    cbn [app]. by rewrite RegistrationFacts.registerEach_clash. }
  split; [|split; [|split]].
  - intros Hnew. rewrite RegistrationFacts.register_each.
    rewrite RegistrationFacts.registered_new_server in *.
    apply RegistrationFacts.registerEach_new.
    + apply RegistrationFacts.tools_names_distinct.
    + intros t Ht. apply Hnew. by apply in_map.
  - apply Hclash.
  - intros Hlist Hget. rewrite RegistrationFacts.register_each. unfold domainTools.
    cbn [app]. unfold registerEach. cbn [map inOrder]. unfold andThen.
    rewrite RegistrationFacts.registerTool_new by exact Hlist.
    rewrite RegistrationFacts.registerTool_clash; [reflexivity|].
    rewrite map_app, in_app_iff. by left.
  - apply Hclash. rewrite GatingProperties.registered_names. by left.
Qed.


Lemma describe_string_accepts d v :
  accepts (z_describe z_string d) (Some v) = true <-> exists s, v = JStr s.
Proof. apply ContractProperties.accepts_string_iff. Qed.

Lemma idInputSchema_spec lower verb :
  dom (idInputSchema lower verb) = ({[ "id" ]} : gset string)
  /\ exists s, idInputSchema lower verb !! "id" = Some s
       /\ mandatory s = true
       /\ forall x, accepts s (Some x) = true <-> exists str, x = JStr str.
Proof.
  unfold idInputSchema. split; [apply dom_singleton_L|].
  eexists. rewrite lookup_singleton_eq. split; [reflexivity|].
  split; [reflexivity|]. intros x. apply describe_string_accepts.
Qed.

(** X14.  Of the registered tools, [list] takes two keys, [includeArchived]
    and [archivedOnly], both optional booleans; every tool other than
    [list], [create] and [update] takes exactly one key, [id], a mandatory
    string. *)
Theorem list_and_id_tools_inputs
        (config : DomainConfig) (manifestVersion : string) (t : Tool) :
  In t (registered config manifestVersion) ->
  (name t = "list_" +:+ domain config ->
     dom (inputSchema t) = ({[ "includeArchived"; "archivedOnly" ]} : gset string)
     /\ forall k s, inputSchema t !! k = Some s ->
          mandatory s = false
          /\ forall x, accepts s (Some x) = true <-> exists b, x = JBool b)
  /\ (name t <> "list_" +:+ domain config ->
      name t <> "create_" +:+ domain config ->
      name t <> "update_" +:+ domain config ->
      dom (inputSchema t) = ({[ "id" ]} : gset string)
      /\ exists s, inputSchema t !! "id" = Some s
           /\ mandatory s = true
           /\ forall x, accepts s (Some x) = true <-> exists str, x = JStr str).
Proof.
  rewrite RegistrationFacts.registered_new_server.
  unfold domainTools, listTool, getTool, createTool, updateTool, deleteTool,
    archiveTool, restoreTool.
  destruct (notFalse config create), (notFalse config update),
    (notFalse config delete), (isTruthy config archive);
    cbn [app In]; intros H;
    repeat (destruct H as [<-|H]); try contradiction;
    cbn [name inputSchema];
    (split;
     [ intros E; simpl in E; try discriminate
     | intros H1 H2 H3; try (by exfalso; first [apply H1|apply H2|apply H3]);
       apply idInputSchema_spec ]).
  all: split;
    [ rewrite !dom_insert_L, dom_empty_L;
      apply set_eq; intros k;
      rewrite !elem_of_union, !elem_of_singleton, elem_of_empty; tauto
    | intros k s Hk;
      apply lookup_insert_Some in Hk as [[_ <-]|[_ Hk]];
      [|apply lookup_insert_Some in Hk as [[_ <-]|[_ Hk]];
        [|by rewrite lookup_empty in Hk]];
      (split; [reflexivity|intros x; apply accepts_boolean_iff]) ].
Qed.

(** X15.  [makeApiRequest] returns a value exactly when [fetch] resolves
    the request with a status in 200..299 and a JSON body, and the value is
    that body. *)
Theorem makeApiRequest_returns_exactly_an_ok_json_body
        (endpoint : string) (options : RequestInit) (v : JSON) :
  makeApiRequest IDEATE_API_URL fetch endpoint options = Return v <->
  exists resp,
    fetch (requestFor IDEATE_API_URL endpoint options) = Return resp
    /\ ok resp = true
    /\ json_body resp = Some v.
Proof.
  rewrite HandlerProperties.makeApiRequest_outcome. unfold response_json. split.
  - destruct (fetch _) as [e|resp]; [discriminate|].
    destruct (ok resp) eqn:Hok; [|discriminate].
    destruct (json_body resp) as [b|] eqn:Hb; [|discriminate].
    intros [= <-]. by exists resp.
  - intros (resp & -> & -> & ->). reflexivity.
Qed.

Lemma bound_request endpoint options :
  makeApiRequest IDEATE_API_URL fetch endpoint options =
    match fetch (requestFor IDEATE_API_URL endpoint options) with
    | Throw e => Throw e
    | Return resp =>
        if ok resp then response_json resp else Throw (mkError (statusLine resp))
    end.
Proof. apply HandlerProperties.makeApiRequest_outcome. Qed.

Ltac open_run i :=
  destruct i as [includeArchived archivedOnly|id|input|id updates|[] id];
  unfold runTool, requestOf, getRequest, createRequest, updateRequest, successRequest,
    successToolHandler, listHandler, getHandler, createHandler, updateHandler,
    deleteHandler, archiveHandler, restoreHandler, successHandler, listEndpoint;
  cbv zeta; cbn [successSuffix successMethod].

(** X16.  Every tool reads the body of a successful answer as JSON, the
    tools that make no use of it included: an ok answer to its request
    without a JSON body (a [204 No Content] to a delete, say) makes the tool
    throw the error of the failed read. *)
Theorem every_tool_needs_a_json_body
        (config : DomainConfig) (i : Invocation) (resp : Response) :
  fetch (requestOf IDEATE_API_URL JSON_stringify config i) = Return resp ->
  ok resp = true ->
  json_body resp = None ->
  exists e,
    response_json resp = Throw e
    /\ runTool IDEATE_API_URL fetch JSON_stringify JS_String toLowerCase nowISO config i
       = Throw e.
Proof.
  intros Hf Hok Hb.
  assert (exists e, response_json resp = Throw e) as [e He].
  { unfold response_json. rewrite Hb. by eexists. }
  exists e. split; [exact He|]. revert Hf. open_run i; intros Hf.
  all: rewrite bound_request, Hf, Hok, He; reflexivity.
Qed.

(** X17.  [delete], [archive] and [restore] do not look at what the
    backend answered beyond its being ok and JSON: the result is
    [{success: true, message}] with the message built from the label, the id
    and the verb. *)
Theorem success_tools_ignore_the_body
        (config : DomainConfig) (tool : SuccessTool) (id : string)
        (resp : Response) (answer : JSON) :
  fetch (successRequest IDEATE_API_URL config tool id) = Return resp ->
  ok resp = true ->
  json_body resp = Some answer ->
  exists r,
    successToolHandler IDEATE_API_URL fetch nowISO config tool id = Return r
    /\ structuredContent r
       = SCSuccess true (labelSingular config +:+ " " +:+ id +:+ " has been "
                           +:+ successWord tool)
    /\ text r = labelSingular config +:+ " " +:+ id +:+ " has been " +:+ successWord tool.
Proof.
  intros Hf Hok Hb.
  destruct tool; cbn [successToolHandler];
    unfold deleteHandler, archiveHandler, restoreHandler, successHandler;
    unfold successRequest in Hf; cbn [successSuffix successMethod] in Hf;
    rewrite HandlerProperties.makeApiRequest_outcome, Hf, Hok;
    unfold response_json; rewrite Hb; cbn [bind];
    eexists; repeat split.
Qed.

(** X18.  [get], [create], [update] and [list] hand the body of an ok
    answer on without checking its shape.  [get] returns whatever JSON came,
    [null] too.  [create] and [update] return it as the item and report its
    [id] member, and throw when the body is [null].  [list] returns the body
    as [items] with its [length] member (if any) as [count]; it throws when the
    body is [null], and when that member is an object or array that has no
    text to put into the message. *)
Theorem handlers_pass_the_body_on_unchecked
        (config : DomainConfig) (resp : Response) (answer : JSON) :
  ok resp = true ->
  json_body resp = Some answer ->
  (forall id,
     fetch (getRequest IDEATE_API_URL config id) = Return resp ->
     exists r, getHandler IDEATE_API_URL fetch toLowerCase nowISO config id = Return r
               /\ structuredContent r = SCItem answer)
  /\ (forall input,
        fetch (createRequest IDEATE_API_URL JSON_stringify config input) = Return resp ->
        match getProp answer "id" with
        | Throw e =>
            answer = JNull
            /\ createHandler IDEATE_API_URL fetch JSON_stringify toLowerCase nowISO
                 config input = Throw e
        | Return itemId =>
            exists r,
              createHandler IDEATE_API_URL fetch JSON_stringify toLowerCase nowISO
                config input = Return r
              /\ structuredContent r = SCItem answer
              /\ lookupMeta "itemId" (result_meta r) = Some (MAny itemId)
        end)
  /\ (forall id updates,
        fetch (updateRequest IDEATE_API_URL JSON_stringify config id updates)
          = Return resp ->
        match getProp answer "id" with
        | Throw e =>
            answer = JNull
            /\ updateHandler IDEATE_API_URL fetch JSON_stringify toLowerCase nowISO
                 config id updates = Throw e
        | Return itemId =>
            exists r,
              updateHandler IDEATE_API_URL fetch JSON_stringify toLowerCase nowISO
                config id updates = Return r
              /\ structuredContent r = SCItem answer
              /\ lookupMeta "itemId" (result_meta r) = Some (MAny itemId)
        end)
  /\ (forall includeArchived archivedOnly,
        fetch (requestFor IDEATE_API_URL
                 (listEndpoint config includeArchived archivedOnly) noOptions)
          = Return resp ->
        match getProp answer "length" with
        | Throw e =>
            answer = JNull
            /\ listHandler IDEATE_API_URL fetch JS_String toLowerCase nowISO
                 config includeArchived archivedOnly = Throw e
        | Return len =>
            match interpolates len with
            | Throw e =>
                listHandler IDEATE_API_URL fetch JS_String toLowerCase nowISO
                  config includeArchived archivedOnly = Throw e
            | Return _ =>
                exists r,
                  listHandler IDEATE_API_URL fetch JS_String toLowerCase nowISO
                    config includeArchived archivedOnly = Return r
                  /\ structuredContent r = SCList answer len
            end
        end).
Proof.
  intros Hok Hb.
  assert (forall endpoint options,
            fetch (requestFor IDEATE_API_URL endpoint options) = Return resp ->
            makeApiRequest IDEATE_API_URL fetch endpoint options = Return answer) as Hreq.
  { intros endpoint options Hf.
    rewrite HandlerProperties.makeApiRequest_outcome, Hf, Hok.
    unfold response_json. by rewrite Hb. }
  split; [|split; [|split]].
  - intros id Hf. unfold getHandler. unfold getRequest in Hf.
    rewrite (Hreq _ _ Hf). cbn [bind]. eexists. split; reflexivity.
  - intros input Hf. unfold createHandler. unfold createRequest in Hf.
    rewrite (Hreq _ _ Hf). cbn [bind].
    destruct answer; cbn [getProp bind];
      first [ split; reflexivity | eexists; repeat split; reflexivity ].
  - intros id updates Hf. unfold updateHandler. unfold updateRequest in Hf.
    rewrite (Hreq _ _ Hf). cbn [bind].
    destruct answer; cbn [getProp bind];
      first [ split; reflexivity | eexists; repeat split; reflexivity ].
  - intros includeArchived archivedOnly Hf. unfold listHandler.
    fold (listEndpoint config includeArchived archivedOnly).
    rewrite (Hreq _ _ Hf). cbn [bind].
    destruct (getProp answer "length") as [e|len] eqn:Hlen; cbn [bind].
    + split; [|reflexivity]. by destruct answer.
    + unfold interpolate, interpolates, ToString.
      destruct len as [len|]; [destruct (convertible len)|]; cbn [bind];
        first [ reflexivity | eexists; split; reflexivity ].
Qed.

(** X19.  Whatever tool is invoked, the one request it sends goes to a URL
    below [<base>/<domain>] and carries the header [Content-Type:
    application/json]; if [fetch] rejects it, the tool throws the same
    error. *)
Theorem every_tool_stays_below_its_domain (config : DomainConfig) (i : Invocation) :
  let req := requestOf IDEATE_API_URL JSON_stringify config i in
  String.prefix (IDEATE_API_BASE IDEATE_API_URL +:+ "/" +:+ domain config) (url req) = true
  /\ headers (init req) = Some [("Content-Type", "application/json")]
  /\ (forall e, fetch req = Throw e ->
        runTool IDEATE_API_URL fetch JSON_stringify JS_String toLowerCase nowISO config i
        = Throw e).
Proof.
  assert (forall rest : string,
            "/" +:+ domain config +:+ rest = ("/" +:+ domain config) +:+ rest) as Hassoc.
  { intros rest. by rewrite StringFacts.append_assoc. }
  open_run i.
  all: split;
    [ unfold requestFor; cbn [url]; apply StringFacts.prefix_append_both;
      first [ apply StringFacts.prefix_refl
            | rewrite Hassoc; apply StringFacts.prefix_append ]
    | split; [reflexivity|];
      intros e He; rewrite bound_request, He; reflexivity ].
Qed.

End Runtime.

Lemma text_contract_witness :
  (type nameField = "string" \/ type nameField = "text" \/ type nameField = "boolean")
  /\ (accepts (fieldToZodSchema nameField) (Some (JStr "Mouse")) = true
      <-> exists s, JStr "Mouse" = JStr s).
Proof.
  split; [by left|].
  apply (text_and_boolean_contracts nameField (JStr "Mouse")). by left.
Defined.

Lemma unknown_type_witness :
  validType (type (plainField "price" "Price" "currency")) = false
  /\ accepts (fieldToZodSchema (plainField "price" "Price" "currency")) None = true.
Proof.
  split; [reflexivity|].
  apply (unknown_type_accepts_everything (plainField "price" "Price" "currency") None).
  reflexivity.
Defined.

(** The entity contract of the product catalogue has the key [price] and
    has no key [colour]. *)
Lemma entity_contract_witness :
  (forall f, f ∈ fields products -> key f <> "__proto__")
  /\ is_Some (entitySchema (buildShapes products) !! "price")
  /\ entitySchema (buildShapes products) !! "colour" = None.
Proof.
  assert (forall f, f ∈ fields products -> key f <> "__proto__") as Hproto.
  { intros f Hf. cbn in Hf. rewrite !elem_of_cons, elem_of_nil in Hf.
    destruct Hf as [ -> | [ -> | [ -> | [ -> | [] ] ] ] ]; discriminate. }
  split; [exact Hproto|]. split.
  - apply (entity_contract_keys products "price" Hproto). right.
    exists priceField. split; [|reflexivity]. cbn. rewrite !elem_of_cons. auto.
  - vm_compute. reflexivity.
Defined.

(** Registering the product catalogue a second time. *)
Lemma registration_witness :
  (forall f, f ∈ fields products -> key f <> "__proto__")
  /\ registerGenericTools None (answering noContent) (fun _ => "") (fun _ => "")
       (fun s => s) "" products "1"
       (registeredTools None (answering noContent) (fun _ => "") (fun _ => "")
          (fun s => s) "" products "1")
     = (registeredTools None (answering noContent) (fun _ => "") (fun _ => "")
          (fun s => s) "" products "1",
        Throw (mkError "Tool list_products is already registered")).
Proof.
  assert (forall f, f ∈ fields products -> key f <> "__proto__") as Hproto.
  { intros f Hf. cbn in Hf. rewrite !elem_of_cons, elem_of_nil in Hf.
    destruct Hf as [ -> | [ -> | [ -> | [ -> | [] ] ] ] ]; discriminate. }
  split; [exact Hproto|].
  apply (registration_on_a_server None (answering noContent) (fun _ => "")
           (fun _ => "") (fun s => s) "" [] products "1" Hproto).
Defined.

Lemma delete_tool_input_witness :
  exists s, idInputSchema "product" "delete" !! "id" = Some s /\ mandatory s = true.
Proof.
  edestruct (list_and_id_tools_inputs None (answering noContent) (fun _ => "")
               (fun _ => "") (fun _ => "product") "" products "1") as [_ Hid].
  - do 4 right. left. reflexivity.
  - destruct Hid as [_ (s & Hs & Hm & _)]; [discriminate..|].
    exists s. split; [exact Hs|exact Hm].
Defined.

(** A backend that deletes and answers [204 No Content]: the delete tool
    throws. *)
Lemma json_body_witness :
  exists e,
    response_json noContent = Throw e
    /\ deleteHandler None (answering noContent) "2024-01-01T00:00:00.000Z" products "p-1"
       = Throw e.
Proof.
  apply (every_tool_needs_a_json_body None (answering noContent) (fun _ => "")
           (fun _ => "") (fun s => s) "2024-01-01T00:00:00.000Z" products
           (InvokeSuccess DeleteTool "p-1") noContent); reflexivity.
Defined.

Example delete_after_no_content :
  deleteHandler None (answering noContent) "2024-01-01T00:00:00.000Z" products "p-1"
  = Throw (mkError "Unexpected end of JSON input").
Proof. reflexivity. Qed.

Lemma success_tool_witness :
  exists r,
    successToolHandler None (answering (okWith mouse)) "2024-01-01T00:00:00.000Z"
      products ArchiveTool "p-1" = Return r
    /\ structuredContent r = SCSuccess true "Product p-1 has been archived"
    /\ text r = "Product p-1 has been archived".
Proof.
  apply (success_tools_ignore_the_body None (answering (okWith mouse))
           "2024-01-01T00:00:00.000Z" products ArchiveTool "p-1" (okWith mouse) mouse);
    reflexivity.
Defined.

(** A backend that answers [null]: [get] returns it, [create] throws. *)
Lemma null_body_witness :
  (exists r, getHandler None (answering (okWith JNull)) (fun s => s)
               "2024-01-01T00:00:00.000Z" products "p-1" = Return r
             /\ structuredContent r = SCItem JNull)
  /\ createHandler None (answering (okWith JNull)) (fun _ => "{}") (fun s => s)
       "2024-01-01T00:00:00.000Z" products (JObj [])
     = Throw (mkError "Cannot read properties of null (reading 'id')").
Proof.
  destruct (handlers_pass_the_body_on_unchecked None (answering (okWith JNull))
              (fun _ => "{}") (fun _ => "") (fun s => s) "2024-01-01T00:00:00.000Z"
              products (okWith JNull) JNull eq_refl eq_refl) as (Hget & Hcreate & _).
  split.
  - apply Hget. reflexivity.
  - apply (Hcreate (JObj [])). reflexivity.
Defined.

(** Evaluated: the system key [id] stays a string in the entity contract of
    a descriptor that declares a numeric [id], and the default base URL. *)
Example shadowed_id_stays_a_string :
  entitySchema (buildShapes shadowing) !! "id" = Some z_string
  /\ createSchema (buildShapes shadowing) !! "id" = None.
Proof. split; vm_compute; reflexivity. Qed.

Example default_base :
  IDEATE_API_BASE None = "http://localhost:5055"
  /\ IDEATE_API_BASE (Some "") = "http://localhost:5055"
  /\ IDEATE_API_BASE (Some "https://api.example.test") = "https://api.example.test".
Proof. repeat split. Qed.

End ToolExtras.

(* ===================================================================== *)
(** * The widgets: favourites, sorting, shown fields, menu and tool calls  *)
(* ===================================================================== *)

Module WidgetExtras.
Import GenericTools GenericTypes GenericList Vocabulary Samples.

Lemma includes_In (l : list string) (k : string) : includes l k = true <-> In k l.
Proof.
  unfold includes. rewrite existsb_exists. split.
  - intros (x & Hx & E). apply String.eqb_eq in E. by subst.
  - intros H. exists k. split; [exact H|apply String.eqb_refl].
Qed.

Lemma includes_false (l : list string) (k : string) : includes l k = false <-> ~ In k l.
Proof.
  rewrite <- includes_In. destruct (includes l k); split; congruence.
Qed.

Lemma In_without (id id' : string) (l : list string) :
  In id' (List.filter (fun x => negb (String.eqb x id)) l) <-> In id' l /\ id' <> id.
Proof.
  rewrite filter_In, negb_true_iff, String.eqb_neq. tauto.
Qed.

Lemma filter_absent (id : string) (l : list string) :
  ~ In id l -> List.filter (fun x => negb (String.eqb x id)) l = l.
Proof.
  induction l as [|x l IH]; [reflexivity|]. intros H. cbn.
  destruct (String.eqb_spec x id) as [->|_]; cbn.
  - exfalso. apply H. by left.
  - f_equal. apply IH. intros H'. apply H. by right.
Qed.

Lemma toggleFavorite_self (favs : list string) (id : string) :
  In id (toggleFavorite favs id) <-> ~ In id favs.
Proof.
  unfold toggleFavorite. destruct (includes favs id) eqn:E.
  - apply includes_In in E. rewrite In_without. tauto.
  - apply includes_false in E. rewrite in_app_iff. cbn. tauto.
Qed.

Lemma toggleFavorite_other (favs : list string) (id id' : string) :
  id' <> id -> In id' (toggleFavorite favs id) <-> In id' favs.
Proof.
  intros Hne. unfold toggleFavorite. destruct (includes favs id).
  - rewrite In_without. tauto.
  - rewrite in_app_iff. cbn. split; [intros [H|[H|[]]]; [exact H|congruence]|tauto].
Qed.

Lemma toggleFavorite_NoDup (favs : list string) (id : string) :
  List.NoDup favs -> List.NoDup (toggleFavorite favs id).
Proof.
  intros Hnd. unfold toggleFavorite. destruct (includes favs id) eqn:E.
  - by apply List.NoDup_filter.
  - apply includes_false in E.
    apply NoDup_ListNoDup, NoDup_app. split; [by apply NoDup_ListNoDup|].
    split; [|apply NoDup_singleton].
    intros x Hx Hx'. apply list_elem_of_singleton in Hx'. subst x.
    apply E. by apply list_elem_of_In.
Qed.

(** X20.  Toggling an item in the list widget flips the membership of that
    one id among the favourites and of no other, never introduces a
    duplicate, and leaves the rest of the widget state as it was.  The new
    favourites are computed from the favourites of the render the handler
    belongs to, not from the state the update is applied to. *)
Theorem toggling_flips_one_favourite
        (widgetState : option GenericWidgetState) (itemId : string)
        (prev : GenericWidgetState) :
  let next := handleToggleFavorite widgetState itemId prev in
  exists newFavorites,
    favorites next = Some newFavorites
    /\ (In itemId newFavorites <-> ~ In itemId (favoritesOf widgetState))
    /\ (forall id, id <> itemId ->
          In id newFavorites <-> In id (favoritesOf widgetState))
    /\ (List.NoDup (favoritesOf widgetState) -> List.NoDup newFavorites)
    /\ selectedItem next = selectedItem prev
    /\ viewMode next = viewMode prev
    /\ sortBy next = sortBy prev
    /\ sortOrder next = sortOrder prev.
Proof.
  cbn. eexists. split; [reflexivity|].
  split; [apply toggleFavorite_self|].
  split; [intros id Hne; by apply toggleFavorite_other|].
  split; [apply toggleFavorite_NoDup|].
  repeat split.
Qed.

(** X21.  Toggling an item twice: an item that was no favourite leaves the
    favourites as they were; an item that was one comes back at the end of
    the list, once, whatever its position and multiplicity before.  So the
    favourites are as they were exactly when the item was no favourite, or
    was the last of them and listed once. *)
Theorem toggling_twice (favs : list string) (itemId : string) :
  let twice := toggleFavorite (toggleFavorite favs itemId) itemId in
  (~ In itemId favs -> twice = favs)
  /\ (In itemId favs ->
        twice = List.filter (fun id => negb (String.eqb id itemId)) favs ++ [itemId])
  /\ (twice = favs
      <-> ~ In itemId favs
          \/ exists rest, favs = rest ++ [itemId] /\ ~ In itemId rest).
Proof.
  cbv zeta.
  assert (~ In itemId favs ->
          toggleFavorite (toggleFavorite favs itemId) itemId = favs) as Hout.
  { intros H. unfold toggleFavorite at 2.
    replace (includes favs itemId) with false
      by (symmetry; by apply includes_false).
    unfold toggleFavorite.
    replace (includes (favs ++ [itemId]) itemId) with true
      by (symmetry; apply includes_In, in_app_iff; right; by left).
    rewrite List.filter_app, filter_absent by exact H.
    cbn. rewrite String.eqb_refl. cbn. apply app_nil_r. }
  assert (In itemId favs ->
          toggleFavorite (toggleFavorite favs itemId) itemId
          = List.filter (fun id => negb (String.eqb id itemId)) favs ++ [itemId]) as Hin.
  { intros H. unfold toggleFavorite at 2.
    replace (includes favs itemId) with true
      by (symmetry; by apply includes_In).
    unfold toggleFavorite.
    replace (includes (List.filter (fun id => negb (String.eqb id itemId)) favs) itemId)
      with false; [reflexivity|].
    symmetry. apply includes_false. rewrite In_without. tauto. }
  split; [exact Hout|]. split; [exact Hin|]. split.
  - intros Hsame. destruct (includes favs itemId) eqn:E.
    + apply includes_In in E. right.
      exists (List.filter (fun id => negb (String.eqb id itemId)) favs).
      split; [by rewrite <- (Hin E)|]. rewrite In_without. tauto.
    + left. by apply includes_false.
  - intros [H|(rest & -> & Hrest)]; [by apply Hout|].
    rewrite Hin by (apply in_app_iff; right; by left).
    rewrite List.filter_app, filter_absent by exact Hrest.
    cbn. rewrite String.eqb_refl. cbn. by rewrite app_nil_r.
Qed.

Lemma handleSort_order (widgetState : option GenericWidgetState) (sortField : string)
      (prev : GenericWidgetState) :
  sortOrder (handleSort widgetState sortField prev) = Some Asc
  <-> exists st, widgetState = Some st /\ sortBy st = Some sortField
                 /\ sortOrder st = Some Desc.
Proof.
  unfold handleSort. cbn [sortOrder]. split.
  - destruct widgetState as [st|]; [|discriminate].
    destruct (sortBy st) as [s|] eqn:Hs; [|discriminate].
    destruct (String.eqb_spec s sortField) as [->|]; [|discriminate].
    destruct (sortOrder st) as [[]|] eqn:Ho; try discriminate.
    intros _. by exists st.
  - intros (st & -> & -> & ->). by rewrite String.eqb_refl.
Qed.

(** X22.  A click on a column header sorts by that column and keeps the
    rest of the state.  The order is descending, unless the list is already
    sorted by that column in descending order, in which case it becomes
    ascending: repeated clicks on one header alternate between the two
    orders, and a click on another header always starts descending. *)
Theorem clicking_a_header_alternates (sortField : string) (st : GenericWidgetState) :
  let once := click sortField st in
  let twice := click sortField once in
  sortBy once = Some sortField
  /\ (sortOrder once = Some Asc
      <-> sortBy st = Some sortField /\ sortOrder st = Some Desc)
  /\ (sortOrder once <> Some Asc -> sortOrder once = Some Desc)
  /\ sortOrder twice <> sortOrder once
  /\ click sortField twice = once
  /\ (forall other, other <> sortField ->
        sortOrder (click other once) = Some Desc)
  /\ selectedItem once = selectedItem st
  /\ viewMode once = viewMode st
  /\ favorites once = favorites st.
Proof.
  cbv zeta. split; [reflexivity|].
  split.
  { unfold click. rewrite handleSort_order. split.
    - intros (st' & [= <-] & H1 & H2). by split.
    - intros [H1 H2]. by exists st. }
  unfold click, handleSort. cbn [sortBy sortOrder selectedItem viewMode favorites].
  rewrite !String.eqb_refl.
  destruct (match sortBy st with Some s => String.eqb s sortField | None => false end),
    (match sortOrder st with Some Desc => true | _ => false end);
    cbn; repeat split; try congruence;
    intros other Hne; apply String.eqb_neq in Hne;
    rewrite String.eqb_sym in Hne; by rewrite Hne.
Qed.

Lemma withoutFirst_In {A} (p : A -> bool) (l : list A) (x : A) :
  In x (withoutFirst p l) -> In x l.
Proof.
  induction l as [|y l IH]; [done|]. cbn. destruct (p y).
  - by right.
  - intros [->|H]; [by left|right; by apply IH].
Qed.

Lemma withoutFirst_none {A} (p : A -> bool) (l : list A) :
  List.find p l = None -> withoutFirst p l = l.
Proof.
  induction l as [|y l IH]; [done|]. cbn. destruct (p y); [discriminate|].
  intros H. f_equal. by apply IH.
Qed.

Lemma withoutFirst_found {A} (p : A -> bool) (l : list A) (x : A) :
  List.NoDup l -> List.find p l = Some x -> ~ In x (withoutFirst p l).
Proof.
  induction l as [|y l IH]; [done|]. intros Hnd. inversion_clear Hnd as [|? ? Hy Hl].
  cbn. destruct (p y) eqn:Hp.
  - intros [= <-]. exact Hy.
  - intros Hf [->|H].
    + apply List.find_some in Hf. destruct Hf as [_ Hx]. congruence.
    + by apply (IH Hl Hf).
Qed.

Lemma take_In {A} (n : nat) (l : list A) (x : A) : In x (take n l) -> In x l.
Proof.
  revert l. induction n as [|n IH]; intros [|y l]; cbn; try done.
  intros [->|H]; [by left|right; by apply IH].
Qed.

(** X23.  A card of the list widget shows at most two fields as title and
    subtitle.  They are fields of the descriptor that are visible in the
    list; when no field has a priority-like key they are the first two
    list fields; and when the descriptor repeats no field, the field chosen
    as priority is not among them. *)
Theorem card_shows_at_most_two_list_fields
        (toLowerCase : string -> string) (config : DomainConfig) :
  let shown := displayFields toLowerCase config in
  length shown <= 2
  /\ (forall f, In f shown ->
        In f (fields config) /\ shouldShowField f ViewList = true)
  /\ (priorityField toLowerCase config = None ->
        shown = take 2 (getFieldsForView config ViewList))
  /\ (List.NoDup (fields config) ->
      forall p, priorityField toLowerCase config = Some p -> ~ In p shown).
Proof.
  cbv zeta. unfold displayFields, priorityField.
  split; [apply firstn_le_length|].
  split.
  { intros f Hf. apply take_In, withoutFirst_In in Hf.
    unfold getFieldsForView in Hf. by apply filter_In in Hf. }
  split.
  { intros H. by rewrite withoutFirst_none. }
  intros Hnd p Hp Hin. apply take_In in Hin.
  revert Hin. apply withoutFirst_found; [|exact Hp].
  unfold getFieldsForView. by apply List.NoDup_filter.
Qed.

(** X24.  The fields the detail widget lists below the headline are
    exactly the fields visible in the detail view whose key is no system
    key and is not the key of the title, description or priority field. *)
Theorem other_fields_leave_out_headline_and_system_keys
        (toLowerCase : string -> string) (config : DomainConfig) (f : FieldConfig) :
  In f (GenericDetail.otherFields toLowerCase config)
  <-> In f (fields config)
      /\ shouldShowField f ViewDetail = true
      /\ ~ In (key f) ["id"; "archived"; "created_date"; "updated_date"]
      /\ (forall t, GenericDetail.titleField config = Some t -> key f <> key t)
      /\ (forall d, GenericDetail.descField config = Some d -> key f <> key d)
      /\ (forall p, GenericDetail.priorityField toLowerCase config = Some p ->
            key f <> key p).
Proof.
  unfold GenericDetail.otherFields, GenericDetail.detailFields, getFieldsForView.
  rewrite !filter_In, negb_true_iff, includes_false.
  unfold GenericDetail.excludedKeys, GenericDetail.systemFields.
  rewrite !in_app_iff.
  destruct (GenericDetail.titleField config) as [t|],
    (GenericDetail.descField config) as [d|],
    (GenericDetail.priorityField toLowerCase config) as [p|];
    cbn [GenericDetail.keyOf In]; split.
  all: try (intros ([Hf Hs] & Hk); split; [exact Hf|]; split; [exact Hs|];
            split; [tauto|]; repeat split; intros ? [= <-] E; apply Hk;
            rewrite E; tauto).
  all: intros (Hf & Hs & Hsys & Ht & Hd & Hp); split; [by split|];
    intros H;
    repeat match goal with
           | H : _ \/ _ |- _ => destruct H as [H|H]
           | H : False |- _ => destruct H
           end;
    first [ by eapply Ht | by eapply Hd | by eapply Hp | apply Hsys; tauto ].
Qed.

Ltac listed :=
  cbn [app In]; solve [repeat (first [left; reflexivity | right])].

Ltac not_listed H :=
  exfalso; cbn [app In] in H;
  repeat (destruct H as [H|H]; [simpl in H; discriminate|]); contradiction.

Section Tools.

Variable IDEATE_API_URL : option string.
Variable fetch : Request -> Outcome Response.
Variables JSON_stringify JS_String : JSON -> string.
Variable toLowerCase : string -> string.
Variable nowISO : string.

Abbreviation registered :=
  (registeredTools IDEATE_API_URL fetch JSON_stringify JS_String toLowerCase nowISO).


Lemma domain_id_is_not_id (d : string) : String.eqb (d +:+ "_id") "id" = false.
Proof.
  apply String.eqb_neq. intros E.
  apply (f_equal String.length) in E.
  rewrite StringFacts.length_append in E. cbn in E. lia.
Qed.

Lemma idArgs_has_no_id (config : DomainConfig) (item : GenericEntity) :
  lookupProp (GenericDetail.idArgs config item) "id" = None.
Proof.
  unfold GenericDetail.idArgs. destruct (lookupProp item "id"); [|reflexivity].
  cbn [lookupProp]. by rewrite domain_id_is_not_id.
Qed.

(** X26.  The delete, archive and restore calls of the detail widget name
    the item under the key [<domain>_id].  The tool of that name on the
    server takes its item under the key [id], a mandatory string, and the
    call carries no member [id]. *)
Theorem menu_calls_lack_the_mandatory_id
        (openai confirmed : bool) (config : DomainConfig) (manifestVersion : string)
        (item : GenericEntity) (call : GenericDetail.ToolCall) (t : Tool) :
  menuCall openai confirmed config item call ->
  In t (registered config manifestVersion) ->
  name t = GenericDetail.toolName call ->
  dom (inputSchema t) = ({[ "id" ]} : gset string)
  /\ (exists s, inputSchema t !! "id" = Some s /\ mandatory s = true)
  /\ lookupProp (GenericDetail.args call) "id" = None
  /\ (forall v, lookupProp item "id" = Some v ->
        GenericDetail.args call = [(domain config +:+ "_id", v)]).
Proof.
  intros Hcall Ht Hname.
  assert (GenericDetail.args call = GenericDetail.idArgs config item
          /\ (GenericDetail.toolName call = "delete_" +:+ domain config
              \/ GenericDetail.toolName call = "archive_" +:+ domain config
              \/ GenericDetail.toolName call = "restore_" +:+ domain config))
    as [Hargs Hn].
  { destruct Hcall as [H|H].
    - unfold GenericDetail.handleDeleteItem in H.
      destruct (openai && confirmed); [|discriminate]. injection H as <-. cbn. tauto.
    - unfold GenericDetail.handleArchiveItem in H.
      destruct (openai && isTruthy config archive); [|discriminate].
      injection H as <-. cbn.
      destruct (truthy (lookupProp item "archived")); cbn; tauto. }
  rewrite Hargs. rewrite idArgs_has_no_id.
  assert (dom (inputSchema t) = ({[ "id" ]} : gset string)
          /\ exists s, inputSchema t !! "id" = Some s /\ mandatory s = true) as [Hd Hs].
  { rewrite <- Hname in Hn. clear Hname Hargs Hcall.
    rewrite RegistrationFacts.registered_new_server in Ht.
    unfold domainTools, listTool, getTool, createTool, updateTool, deleteTool,
      archiveTool, restoreTool in Ht.
    destruct (notFalse config create), (notFalse config update),
      (notFalse config delete), (isTruthy config archive);
      cbn [app In] in Ht;
      repeat (destruct Ht as [<-|Ht]); try contradiction;
      cbn [name] in Hn;
      try (exfalso; destruct Hn as [Hn|[Hn|Hn]]; simpl in Hn; discriminate).
    all: cbn [inputSchema]; unfold idInputSchema;
      (split; [apply dom_singleton_L|]);
      eexists; rewrite lookup_singleton_eq; split; reflexivity. }
  split; [exact Hd|]. split; [exact Hs|]. split; [reflexivity|].
  intros v Hv. unfold GenericDetail.idArgs. by rewrite Hv.
Qed.

End Tools.

(** X27.  [getPriorityInfo] answers with the Medium entry for 3 and for
    every number outside the table: only the numbers equal to 1, 2, 4 and 5
    get an entry of their own. *)
Theorem priority_falls_back_to_medium (priority : Q) :
  (getPriorityInfo priority = priorityMedium
   <-> ~ (priority == 1 \/ priority == 2 \/ priority == 4 \/ priority == 5)%Q)
  /\ (priority == 5 -> getPriorityInfo priority = priorityUrgent)%Q
  /\ (priority == 4 -> getPriorityInfo priority = priorityHigh)%Q
  /\ (priority == 2 -> getPriorityInfo priority = priorityLow)%Q
  /\ (priority == 1 -> getPriorityInfo priority = priorityLowest)%Q.
Proof.
  unfold getPriorityInfo.
  destruct (Qeq_bool priority 5) eqn:E5; [apply Qeq_bool_iff in E5|apply Qeq_bool_neq in E5];
  (destruct (Qeq_bool priority 4) eqn:E4; [apply Qeq_bool_iff in E4|apply Qeq_bool_neq in E4]);
  (destruct (Qeq_bool priority 3) eqn:E3; [apply Qeq_bool_iff in E3|apply Qeq_bool_neq in E3]);
  (destruct (Qeq_bool priority 2) eqn:E2; [apply Qeq_bool_iff in E2|apply Qeq_bool_neq in E2]);
  (destruct (Qeq_bool priority 1) eqn:E1; [apply Qeq_bool_iff in E1|apply Qeq_bool_neq in E1]).
  all: try (exfalso; match goal with
                     | A : (?p == _)%Q, B : (?p == _)%Q |- _ =>
                         rewrite A in B; discriminate
                     end).
  all: repeat split; try (intros; tauto); try discriminate; try reflexivity.
  all: try (intros H; exfalso; tauto).
  all: try (intros _ [H|[H|[H|H]]]; rewrite H in *; discriminate).
Qed.

Lemma menu_call_witness :
  exists call,
    GenericDetail.handleDeleteItem true true products cable = Some call
    /\ GenericDetail.toolName call = "delete_products"
    /\ GenericDetail.args call = [("products_id", JStr "p-3")]
    /\ lookupProp (GenericDetail.args call) "id" = None.
Proof.
  eexists. split; [reflexivity|]. split; [reflexivity|]. split; [reflexivity|].
  eapply (menu_calls_lack_the_mandatory_id None (answering noContent) (fun _ => "")
            (fun _ => "") (fun s => s) "" true true products "1" cable).
  - left. reflexivity.
  - do 4 right. left. reflexivity.
  - reflexivity.
Defined.

(** Only the first field with a priority-like key is kept off the card: a
    second one is shown as its title. *)
Example second_priority_field_is_shown :
  let urgency :=
    {| key := "urgency"; label := "Urgency"; type := "number"; required := None;
       hidden := None; showInList := Some true; showInDetail := None;
       placeholder := None; helpText := None; min := None; max := None;
       default := None |} in
  let priority :=
    {| key := "priority"; label := "Priority"; type := "number"; required := None;
       hidden := None; showInList := Some true; showInDetail := None;
       placeholder := None; helpText := None; min := None; max := None;
       default := None |} in
  displayFields (fun s => s)
    {| domain := "tasks"; labelSingular := "Task"; labelPlural := "Tasks";
       icon := None; description := None; branding := None; features := None;
       fields := [priority; urgency] |}
  = [urgency].
Proof. reflexivity. Qed.

(** A fraction and a number above the table both show as Medium. *)
Example priority_outside_the_table :
  getPriorityInfo (9 # 2) = priorityMedium /\ getPriorityInfo 6 = priorityMedium.
Proof. split; reflexivity. Qed.

End WidgetExtras.
